(** * Cache.py: a shallow embedding of the blob cache and its two storage backends

    The development follows the layout of the repository:
    - [Cache/storageBackends/__init__.py]: the [StorageBackend] interface and
      the [Tablez] directory of mapped tables;
    - [Cache/storageBackends/sqlite.py]: module [SQLite];
    - [Cache/storageBackends/lmdb.py]: module [LMDB];
    - [Cache/__init__.py]: section [BlobCache], generic in the backend.

    Python objects that are mutated in place are modelled by explicit state
    passing in a state-and-exception monad: a raised exception keeps every
    mutation made before it, as in Python. *)

From Stdlib Require Import ZArith List String Ascii Bool Lia.
From Stdlib Require Import Strings.Byte.
From stdpp Require Import base option countable gmap strings list fin_maps.

Local Open Scope Z_scope.

(** ** Python values used by the cache *)

(** [bytes] objects. *)
Abbreviation bytes := (list byte).

Global Instance byte_eq_decision : EqDecision byte := Byte.byte_eq_dec.
Global Program Instance byte_countable : Countable byte :=
  inj_countable Byte.to_N Byte.of_N Byte.of_to_N.

(** [str.encode("utf-8")] and [str(b, encoding="utf-8")]: a [string] stands
    for the UTF-8 form of the text. *)
Definition encode_utf8 (s : string) : bytes := String.list_byte_of_string s.
Definition decode_utf8 (b : bytes) : string := String.string_of_list_byte b.

(** The Python types that occur as key or value types. [TAny] is
    [typing.Any]; [Tuint64] is [transformerz.struct.uint64]; [Tother] is any
    other class. *)
Inductive PyType :=
| Tint | Tstr | Tbytes | TAny | Tuint64
| Tother (name : string).

Global Instance PyType_eq_decision : EqDecision PyType.
Proof. solve_decision. Defined.

(** Keys as the storage engines receive them. *)
Inductive rawkey :=
| KInt (z : Z)
| KStr (s : string)
| KBytes (b : bytes).

Global Instance rawkey_eq_decision : EqDecision rawkey.
Proof. solve_decision. Defined.

Definition rawkey_to_sum (k : rawkey) : Z + (string + bytes) :=
  match k with
  | KInt z => inl z
  | KStr s => inr (inl s)
  | KBytes b => inr (inr b)
  end.

Definition rawkey_of_sum (x : Z + (string + bytes)) : rawkey :=
  match x with
  | inl z => KInt z
  | inr (inl s) => KStr s
  | inr (inr b) => KBytes b
  end.

Global Program Instance rawkey_countable : Countable rawkey :=
  inj_countable' rawkey_to_sum rawkey_of_sum _.
Next Obligation. by intros []. Qed.

(** ** Exceptions and the state-and-exception monad *)

(** The two [ValueError]s raised by [BlobCache.__enter__] and the one of the
    constructor, told apart by what they report. *)
Inductive value_error :=
| IncompatibleCodecs (stored : list string)
| IncompatibleKeyType (stored : option PyType) (declared : PyType)
| BadBase.

Inductive exn :=
| ValueError (why : value_error)
| TypeError (msg : string)
| KeyError (key : string)
| AttributeError (msg : string)
| OperationalError (msg : string)
| UnboundLocalError (name : string)
| ZeroDivisionError
| NotImplementedError (msg : string)
| PyException (msg : string).

Inductive outcome (A : Type) :=
| Ok (a : A)
| Raise (e : exn).
Arguments Ok {A} a.
Arguments Raise {A} e.

Definition is_ok {A} (o : outcome A) : bool :=
  match o with Ok _ => true | Raise _ => false end.

(** A computation over a mutable object of type [S]. *)
Definition M (S A : Type) : Type := S -> S * outcome A.

Definition ret {S A} (a : A) : M S A := fun s => (s, Ok a).
Definition raise {S A} (e : exn) : M S A := fun s => (s, Raise e).
Definition bind {S A B} (m : M S A) (k : A -> M S B) : M S B :=
  fun s => match m s with
           | (s', Ok a) => k a s'
           | (s', Raise e) => (s', Raise e)
           end.
Definition get_state {S} : M S S := fun s => (s, Ok s).
Definition put_state {S} (s : S) : M S unit := fun _ => (s, Ok tt).
Definition modify {S} (f : S -> S) : M S unit := fun s => (f s, Ok tt).

(** Runs a computation on a part of the state, given a lens onto it. *)
Definition zoom {S T A} (proj : S -> T) (upd : T -> S -> S) (m : M T A) : M S A :=
  fun s => let (t', r) := m (proj s) in (upd t' s, r).

(** Lifts a pure fallible result. *)
Definition lift_outcome {S A} (o : outcome A) : M S A := fun s => (s, o).

Declare Scope py_scope.
Delimit Scope py_scope with py.
Notation "x <- m ;; k" := (bind m (fun x => k))
  (at level 100, m at next level, right associativity) : py_scope.
Notation "m ;;; k" := (bind m (fun _ => k))
  (at level 100, right associativity) : py_scope.
Local Open Scope py_scope.

Definition state_of {S A} (r : S * outcome A) : S := fst r.
Definition result_of {S A} (r : S * outcome A) : outcome A := snd r.

(** Python truthiness of what a table lookup returns: [None] and the empty
    [bytes] object are falsy. *)
Definition truthy (val : option bytes) : bool :=
  match val with
  | None => false
  | Some [] => false
  | Some (_ :: _) => true
  end.

(** Python [dict]s whose order and keys are small and fixed: association
    lists with replacing insertion. *)
Fixpoint dict_set {K V} `{EqDecision K} (k : K) (v : V) (d : list (K * V)) : list (K * V) :=
  match d with
  | [] => [(k, v)]
  | (k', v') :: d' => if decide (k = k') then (k, v) :: d' else (k', v') :: dict_set k v d'
  end.

Fixpoint dict_get {K V} `{EqDecision K} (k : K) (d : list (K * V)) : option V :=
  match d with
  | [] => None
  | (k', v') :: d' => if decide (k = k') then Some v' else dict_get k d'
  end.

(** ** [storageBackends/__init__.py]: the backend interface *)

(** What [BlobCache] calls on [self.backend] and on the tables of
    [self.backend.tables]. A table is addressed by the variable name it was
    mapped to ([Tablez.map]); an unmapped name raises [KeyError]
    ([Tablez.__getattr__]). The function given to [tbl_applyToValues] is the
    value, at the time of the call, of the bound method registered under that
    name with [createFunction]. *)
Class StorageBackend (B : Type) := {
  be_enter : M B unit;
  be_exit : M B unit;
  be_commit : M B unit;
  be_vacuum : M B unit;
  be_optimize : M B unit;
  be_createFunction : string -> M B unit;
  be_beginTransaction : M B unit;
  be_map : string -> string -> M B unit;
  tbl_exists : string -> M B bool;
  tbl_create : string -> PyType -> PyType -> M B unit;
  tbl_getitem : string -> rawkey -> M B (option bytes);
  tbl_setitem : string -> rawkey -> bytes -> M B unit;
  tbl_delitem : string -> rawkey -> M B unit;
  tbl_drop : string -> M B unit;
  tbl_applyToValues : string -> string -> (bytes -> outcome bytes) -> M B unit;
  tbl_getKeyType : string -> M B (option PyType)
}.

(** Applies a fallible function to every value of a table: all the new values,
    or nothing when one call fails. *)
Definition force_ok (f : bytes -> outcome bytes) (v : bytes) : bytes :=
  match f v with Ok b => b | Raise _ => v end.

Definition all_ok (f : bytes -> outcome bytes) (rows : gmap rawkey bytes) : bool :=
  forallb (fun kv => is_ok (f kv.2)) (map_to_list rows).

(** ** [storageBackends/sqlite.py] *)

Module SQLite.

Definition sqliteTypeToPythonType : list (string * PyType) :=
  [("INTEGER", Tint); ("TEXT", Tstr); ("BLOB", Tbytes)].

(** The values of the dictionary above are single classes, so the
    [isinstance(v, tuple)] branch of the source is never entered. *)
Definition genPythonTypeToSQLiteType (d : list (string * PyType)) : list (PyType * string) :=
  fold_left (fun res kv => dict_set kv.2 kv.1 res) d [].

Definition pythonTypeToSQLiteType : list (PyType * string) :=
  genPythonTypeToSQLiteType sqliteTypeToPythonType.

Definition NATIVE_VALUE_TYPES : list PyType := map fst pythonTypeToSQLiteType.

(** A column of a table, as [PRAGMA table_info] reports it. *)
Record column := { col_name : string; col_type : string; col_pk : bool }.

Record table := { columns : list column; rows : gmap rawkey bytes }.

(** A connection of the [sqlite3] module in its default transaction mode:
    [work] is what the connection sees, [in_tx] tells whether a transaction is
    open (the module opens one before a data-changing statement), [funcs] are
    the names given to [create_function]. *)
Record connection := {
  work : gmap string table;
  in_tx : bool;
  funcs : list string
}.

(** [disk] is the committed content of the database the backend refers to,
    [tables] the directory of [Tablez] (variable name to table name). *)
Record SQLiteBackend := {
  path : option string;
  db : option connection;
  disk : gmap string table;
  tables : gmap string string
}.

Definition set_db (c : option connection) (b : SQLiteBackend) : SQLiteBackend :=
  {| path := path b; db := c; disk := disk b; tables := tables b |}.
Definition set_disk (d : gmap string table) (b : SQLiteBackend) : SQLiteBackend :=
  {| path := path b; db := db b; disk := d; tables := tables b |}.
Definition set_tables (t : gmap string string) (b : SQLiteBackend) : SQLiteBackend :=
  {| path := path b; db := db b; disk := disk b; tables := t |}.
Definition set_work (w : gmap string table) (c : connection) : connection :=
  {| work := w; in_tx := in_tx c; funcs := funcs c |}.
Definition set_in_tx (t : bool) (c : connection) : connection :=
  {| work := work c; in_tx := t; funcs := funcs c |}.
Definition set_rows (r : gmap rawkey bytes) (t : table) : table :=
  {| columns := columns t; rows := r |}.

(** [self.parent.db], an [AttributeError] on [None] once a method is called
    on it. *)
Definition the_db : M SQLiteBackend connection :=
  fun b => match db b with
           | Some c => (b, Ok c)
           | None => (b, Raise (AttributeError "'NoneType' object has no attribute"))
           end.

(** [Tablez.__getattr__]. *)
Definition table_name (var : string) : M SQLiteBackend string :=
  fun b => match tables b !! var with
           | Some n => (b, Ok n)
           | None => (b, Raise (KeyError var))
           end.

(** [Tablez.map]: the [Table] object of this backend holds only its name. *)
Definition map_table (tableName variableName : string) : M SQLiteBackend unit :=
  modify (fun b => set_tables (<[variableName := tableName]> (tables b)) b).

(** A statement that changes data: the module opens a transaction first. *)
Definition dml (name : string) (f : table -> outcome table) : M SQLiteBackend unit :=
  c <- the_db ;;
  match work c !! name with
  | None => raise (OperationalError "no such table")
  | Some t =>
      match f t with
      | Raise e => modify (set_db (Some (set_in_tx true c))) ;;; raise e
      | Ok t' => modify (set_db (Some (set_in_tx true (set_work (<[name := t']> (work c)) c))))
      end
  end.

Definition commit : M SQLiteBackend unit :=
  c <- the_db ;;
  modify (fun b => set_disk (work c) (set_db (Some (set_in_tx false c)) b)).

Definition exists_ (var : string) : M SQLiteBackend bool :=
  n <- table_name var ;;
  c <- the_db ;;
  ret (bool_decide (is_Some (work c !! n))).

Definition NL : string := String (Ascii.ascii_of_nat 10) EmptyString.
Definition TAB : string := String (Ascii.ascii_of_nat 9) EmptyString.

(** The types of the two columns in the script of [Table.create]. The type of
    the [val] column is looked up under [keyType], as in the source;
    [valueType] is not used. *)
Definition lookup_type (t : PyType) : outcome string :=
  match dict_get t pythonTypeToSQLiteType with
  | Some s => Ok s
  | None => Raise (KeyError "pythonTypeToSQLiteType")
  end.

Definition column_types (keyType valueType : PyType) : outcome (string * string) :=
  match lookup_type keyType with
  | Raise e => Raise e
  | Ok kt =>
      match lookup_type keyType with
      | Raise e => Raise e
      | Ok vt => Ok (kt, vt)
      end
  end.

(** The text of the script. *)
Definition create_script (name : string) (keyType valueType : PyType) : outcome string :=
  match column_types keyType valueType with
  | Raise e => Raise e
  | Ok (kt, vt) =>
      Ok ("create table `" +:+ name +:+ "` (" +:+ NL +:+
          TAB +:+ TAB +:+ TAB +:+ TAB +:+ TAB +:+ "key " +:+ kt +:+ " PRIMARY KEY," +:+ NL +:+
          TAB +:+ TAB +:+ TAB +:+ TAB +:+ TAB +:+ "val " +:+ vt +:+ NL +:+
          TAB +:+ TAB +:+ TAB +:+ TAB +:+ ");" +:+ NL +:+
          TAB +:+ TAB +:+ TAB +:+ TAB)
  end.

(** The columns that the script declares. *)
Definition create_columns (keyType valueType : PyType) : outcome (list column) :=
  match column_types keyType valueType with
  | Raise e => Raise e
  | Ok (kt, vt) => Ok [ {| col_name := "key"; col_type := kt; col_pk := true |};
                        {| col_name := "val"; col_type := vt; col_pk := false |} ]
  end.

(** [executescript] commits a pending transaction, then runs the script
    outside of any transaction. *)
Definition create (var : string) (keyType valueType : PyType) : M SQLiteBackend unit :=
  n <- table_name var ;;
  cols <- lift_outcome (create_columns keyType valueType) ;;
  commit ;;;
  c <- the_db ;;
  match work c !! n with
  | Some _ => raise (OperationalError "table already exists")
  | None =>
      let w := <[n := {| columns := cols; rows := ∅ |}]> (work c) in
      modify (fun b => set_disk w (set_db (Some (set_work w c)) b))
  end.

(** [Table.__getitem__]: when [execute] raises, [cur] is unbound in the
    [finally] clause, whose error replaces the first one. *)
Definition getitem (var : string) (key : rawkey) : M SQLiteBackend (option bytes) :=
  n <- table_name var ;;
  fun b => match db b with
           | None => (b, Raise (UnboundLocalError "cur"))
           | Some c =>
               match work c !! n with
               | None => (b, Raise (UnboundLocalError "cur"))
               | Some t => (b, Ok (rows t !! key))
               end
           end.

Definition setitem (var : string) (key : rawkey) (value : bytes) : M SQLiteBackend unit :=
  n <- table_name var ;;
  dml n (fun t => Ok (set_rows (<[key := value]> (rows t)) t)).

Definition delitem (var : string) (key : rawkey) : M SQLiteBackend unit :=
  n <- table_name var ;;
  dml n (fun t => Ok (set_rows (delete key (rows t)) t)).

(** [drop table] is not preceded by an implicit [BEGIN]; the commit that
    follows makes it durable in either case. *)
Definition drop (var : string) : M SQLiteBackend unit :=
  n <- table_name var ;;
  c <- the_db ;;
  match work c !! n with
  | None => raise (OperationalError "no such table")
  | Some _ => modify (set_db (Some (set_work (delete n (work c)) c))) ;;; commit
  end.

(** One [REPLACE INTO t SELECT key, f(val) FROM t]: a statement either takes
    effect as a whole or, when the function raises on some row, not at all;
    the transaction it opened stays open. *)
Definition applyToValues (var funcName : string) (f : bytes -> outcome bytes) : M SQLiteBackend unit :=
  n <- table_name var ;;
  c <- the_db ;;
  if bool_decide (funcName ∈ funcs c) then
    dml n (fun t => if all_ok f (rows t)
                    then Ok (set_rows (force_ok f <$> rows t) t)
                    else Raise (OperationalError "user-defined function raised exception"))
  else raise (OperationalError "no such function").

Fixpoint key_column_type (cols : list column) : outcome (option PyType) :=
  match cols with
  | [] => Ok None
  | r :: cols' =>
      if String.eqb (col_name r) "key" then
        match dict_get (col_type r) sqliteTypeToPythonType with
        | Some t => Ok (Some t)
        | None => Raise (KeyError (col_type r))
        end
      else key_column_type cols'
  end.

(** [PRAGMA table_info] of a table that does not exist has no rows. *)
Definition getKeyType (var : string) : M SQLiteBackend (option PyType) :=
  n <- table_name var ;;
  c <- the_db ;;
  match work c !! n with
  | None => ret None
  | Some t => lift_outcome (key_column_type (columns t))
  end.

(** [sqlite3.connect] on the path; a backend built on a connection keeps it. *)
Definition enter : M SQLiteBackend unit :=
  fun b => match path b with
           | Some _ => (set_db (Some {| work := disk b; in_tx := false; funcs := [] |}) b, Ok tt)
           | None => (b, Ok tt)
           end.

Definition exit : M SQLiteBackend unit :=
  b <- get_state ;;
  match path b with
  | Some _ => commit ;;; modify (set_db None)
  | None => ret tt
  end.

(** [reindex] and then [vacuum], which is refused inside a transaction. *)
Definition vacuum : M SQLiteBackend unit :=
  c <- the_db ;;
  if in_tx c then raise (OperationalError "cannot VACUUM from within a transaction")
  else ret tt.

Definition optimize : M SQLiteBackend unit :=
  _ <- the_db ;; ret tt.

Definition createFunction (name : string) : M SQLiteBackend unit :=
  c <- the_db ;;
  modify (set_db (Some {| work := work c; in_tx := in_tx c; funcs := name :: funcs c |})).

Definition beginTransaction : M SQLiteBackend unit :=
  c <- the_db ;;
  if in_tx c then raise (OperationalError "cannot start a transaction within a transaction")
  else modify (set_db (Some (set_in_tx true c))).

(** [Table.__len__]: the count of the rows. *)
Definition len_ (var : string) : M SQLiteBackend Z :=
  n <- table_name var ;;
  c <- the_db ;;
  match work c !! n with
  | None => raise (OperationalError "no such table")
  | Some t => ret (Z.of_nat (size (rows t)))
  end.

(** The rows that a [select] without [order by] returns, in the order of the
    engine. *)
Definition select_rows (name : string) : M SQLiteBackend (list (rawkey * bytes)) :=
  c <- the_db ;;
  match work c !! name with
  | None => raise (OperationalError "no such table")
  | Some t => ret (map_to_list (rows t))
  end.

(** [rawKeysBytes], [rawValuesBytes] and [rawItemsBytes], read to the end. *)
Definition rawKeysBytes (name : string) : M SQLiteBackend (list rawkey) :=
  rs <- select_rows name ;; ret (rs.*1).
Definition rawValuesBytes (name : string) : M SQLiteBackend (list bytes) :=
  rs <- select_rows name ;; ret (rs.*2).
Definition rawItemsBytes (name : string) : M SQLiteBackend (list (rawkey * bytes)) :=
  select_rows name.

Definition keys (var : string) : M SQLiteBackend (list rawkey) :=
  n <- table_name var ;; rawKeysBytes n.
Definition values (var : string) : M SQLiteBackend (list bytes) :=
  n <- table_name var ;; rawValuesBytes n.
Definition items (var : string) : M SQLiteBackend (list (rawkey * bytes)) :=
  n <- table_name var ;; rawItemsBytes n.

(** [SQLiteBackend(base, metaDataTableName)] for a path and for a
    connection. *)
Definition of_path (p : string) (d : gmap string table) : SQLiteBackend :=
  {| path := Some p; db := None; disk := d; tables := ∅ |}.
Definition of_connection (c : connection) (d : gmap string table) : SQLiteBackend :=
  {| path := None; db := Some c; disk := d; tables := ∅ |}.

End SQLite.

Global Instance SQLite_backend : StorageBackend SQLite.SQLiteBackend := {
  be_enter := SQLite.enter;
  be_exit := SQLite.exit;
  be_commit := SQLite.commit;
  be_vacuum := SQLite.vacuum;
  be_optimize := SQLite.optimize;
  be_createFunction := SQLite.createFunction;
  be_beginTransaction := SQLite.beginTransaction;
  be_map := SQLite.map_table;
  tbl_exists := SQLite.exists_;
  tbl_create := SQLite.create;
  tbl_getitem := SQLite.getitem;
  tbl_setitem := SQLite.setitem;
  tbl_delitem := SQLite.delitem;
  tbl_drop := SQLite.drop;
  tbl_applyToValues := SQLite.applyToValues;
  tbl_getKeyType := SQLite.getKeyType
}.

(** ** [storageBackends/lmdb.py] *)

Module LMDB.

(** The key codecs of [mappers]. The two [DummyTransformer]s carry their
    target type in the source; [int64Transformer] and [utf8Transformer] come
    from [transformerz], and their target types are the ones under which the
    caches with [int] and [str] keys find them in [mappersTypes]. *)
Inductive mapper :=
| int64Transformer
| utf8Transformer
| lmdbUint64KeyTransformer
| lmdbBytesKeyTransformer.

Global Instance mapper_eq_decision : EqDecision mapper.
Proof. solve_decision. Defined.

Definition tgtType (m : mapper) : PyType :=
  match m with
  | int64Transformer => Tint
  | utf8Transformer => Tstr
  | lmdbUint64KeyTransformer => Tuint64
  | lmdbBytesKeyTransformer => Tbytes
  end.

Definition mappers : list mapper :=
  [int64Transformer; utf8Transformer; lmdbUint64KeyTransformer; lmdbBytesKeyTransformer].

Definition mappersTypes : list (PyType * mapper) :=
  fold_left (fun res t => dict_set (tgtType t) t res) mappers [].

(** The content of an environment: the named sub-databases and the
    sub-database [keyTypes]. A key codec is an injective encoding, so the rows
    are indexed by the key before encoding; the record of [keyTypes] holds the
    id of a codec of [mappers], which are pairwise distinct, so it is indexed
    by the codec. *)
Record store := {
  subdbs : gmap string (gmap rawkey bytes);
  keyTypes : gmap string mapper
}.

Definition sub (s : store) (name : string) : gmap rawkey bytes :=
  default ∅ (subdbs s !! name).
Definition set_sub (name : string) (r : gmap rawkey bytes) (s : store) : store :=
  {| subdbs := <[name := r]> (subdbs s); keyTypes := keyTypes s |}.
Definition set_keyTypes (k : gmap string mapper) (s : store) : store :=
  {| subdbs := subdbs s; keyTypes := k |}.

Record SharedWriteTransaction := { tx : option store; refCount : Z }.

(** A [_Table] object: its name and its key codec. *)
Record table := { name : string; keyMapper : option mapper }.

(** [disk] is the committed content of the environment, [env] tells whether
    the environment is open. *)
Record LMDBBackend := {
  path : option string;
  env : bool;
  disk : store;
  currentWriteTx : option SharedWriteTransaction;
  tables : gmap string table;
  functions : list string
}.

Definition set_env (e : bool) (b : LMDBBackend) : LMDBBackend :=
  {| path := path b; env := e; disk := disk b; currentWriteTx := currentWriteTx b;
     tables := tables b; functions := functions b |}.
Definition set_disk (d : store) (b : LMDBBackend) : LMDBBackend :=
  {| path := path b; env := env b; disk := d; currentWriteTx := currentWriteTx b;
     tables := tables b; functions := functions b |}.
Definition set_currentWriteTx (t : option SharedWriteTransaction) (b : LMDBBackend) : LMDBBackend :=
  {| path := path b; env := env b; disk := disk b; currentWriteTx := t;
     tables := tables b; functions := functions b |}.
Definition set_tables (t : gmap string table) (b : LMDBBackend) : LMDBBackend :=
  {| path := path b; env := env b; disk := disk b; currentWriteTx := currentWriteTx b;
     tables := t; functions := functions b |}.
Definition set_functions (f : list string) (b : LMDBBackend) : LMDBBackend :=
  {| path := path b; env := env b; disk := disk b; currentWriteTx := currentWriteTx b;
     tables := tables b; functions := f |}.

Definition need_env : M LMDBBackend unit :=
  fun b => if env b then (b, Ok tt)
           else (b, Raise (AttributeError "'NoneType' object has no attribute"))%string.

Definition the_tx : M LMDBBackend SharedWriteTransaction :=
  fun b => match currentWriteTx b with
           | Some t => (b, Ok t)
           | None => (b, Raise (AttributeError "__enter__"))
           end.

(** [SharedWriteTransaction.__enter__]: the first scope spawns the engine's
    write transaction, which works on a copy of the committed content. *)
Definition swt_enter : M LMDBBackend unit :=
  t <- the_tx ;;
  (if decide (refCount t = 0) then
     need_env ;;;
     b <- get_state ;;
     modify (set_currentWriteTx (Some {| tx := Some (disk b); refCount := refCount t + 1 |}))
   else
     modify (set_currentWriteTx (Some {| tx := tx t; refCount := refCount t + 1 |}))).

(** [SharedWriteTransaction.__exit__]: the last scope commits, whether or not
    an exception is being propagated. *)
Definition swt_exit : M LMDBBackend unit :=
  t <- the_tx ;;
  let n := refCount t - 1 in
  if decide (n = 0) then
    match tx t with
    | None => modify (set_currentWriteTx (Some {| tx := tx t; refCount := n |})) ;;;
              raise (AttributeError "'NoneType' object has no attribute 'commit'")
    | Some w => modify (fun b => set_disk w (set_currentWriteTx (Some {| tx := None; refCount := n |}) b))
    end
  else modify (set_currentWriteTx (Some {| tx := tx t; refCount := n |})).

(** The [with] statement: the exit runs on both paths, and the exception of
    the body is raised again after it. *)
Definition with_ {S A} (enter_ : M S unit) (exit_ : M S unit) (body : M S A) : M S A :=
  fun s =>
    match enter_ s with
    | (s1, Raise e) => (s1, Raise e)
    | (s1, Ok _) =>
        match body s1 with
        | (s2, Ok a) =>
            match exit_ s2 with
            | (s3, Ok _) => (s3, Ok a)
            | (s3, Raise e) => (s3, Raise e)
            end
        | (s2, Raise e) =>
            match exit_ s2 with
            | (s3, Ok _) => (s3, Raise e)
            | (s3, Raise e') => (s3, Raise e')
            end
        end
    end.

Definition with_currentWriteTx {A} (body : M LMDBBackend A) : M LMDBBackend A :=
  with_ swt_enter swt_exit body.

(** A write through [tx.replace], [tx.delete] or a cursor of the shared
    transaction. *)
Definition tx_modify (f : store -> store) : M LMDBBackend unit :=
  t <- the_tx ;;
  match tx t with
  | None => raise (AttributeError "'NoneType' object has no attribute")
  | Some w => modify (set_currentWriteTx (Some {| tx := Some (f w); refCount := refCount t |}))
  end.

(** [Tablez.__getattr__]. *)
Definition the_table (var : string) : M LMDBBackend table :=
  fun b => match tables b !! var with
           | Some t => (b, Ok t)
           | None => (b, Raise (KeyError var))
           end.

Definition set_table (var : string) (t : table) : M LMDBBackend unit :=
  modify (fun b => set_tables (<[var := t]> (tables b)) b).

Definition the_keyMapper (t : table) : M LMDBBackend mapper :=
  match keyMapper t with
  | Some m => ret m
  | None => raise (AttributeError "'NoneType' object has no attribute")
  end.

Definition mapperTypeNameSeparator : string := "-".
Definition keyMapperMetaKey : string := "key".

(** [_Table.getMapper]: a read of [parent.tables.typesMeta] in a read
    transaction, which sees the committed content. *)
Definition getMapper (nm tp : string) : M LMDBBackend (option mapper) :=
  _ <- the_table "typesMeta" ;;
  need_env ;;;
  b <- get_state ;;
  ret (keyTypes (disk b) !! (tp +:+ mapperTypeNameSeparator +:+ nm)).

(** [_Table.setMapper]: a write to [parent.tables.typesMeta]. *)
Definition setMapper (nm typ : string) (m : mapper) : M LMDBBackend unit :=
  _ <- the_table "typesMeta" ;;
  with_currentWriteTx
    (tx_modify (fun w => set_keyTypes (<[typ +:+ mapperTypeNameSeparator +:+ nm := m]> (keyTypes w)) w)).

(** [env.open_db] creates the sub-database when it is not there. *)
Definition open_ (nm : string) : M LMDBBackend unit :=
  need_env ;;;
  modify (fun b => match subdbs (disk b) !! nm with
                   | Some _ => b
                   | None => set_disk (set_sub nm ∅ (disk b)) b
                   end).

Definition exists_ (var : string) : M LMDBBackend bool :=
  t <- the_table var ;;
  m <- getMapper (name t) keyMapperMetaKey ;;
  set_table var {| name := name t; keyMapper := m |} ;;;
  ret (bool_decide (is_Some m)).

Definition commit : M LMDBBackend unit := ret tt.

Definition create (var : string) (keyType valueType : PyType) : M LMDBBackend unit :=
  t <- the_table var ;;
  match dict_get keyType mappersTypes with
  | None => raise (KeyError "mappersTypes")
  | Some m =>
      set_table var {| name := name t; keyMapper := Some m |} ;;;
      setMapper (name t) keyMapperMetaKey m ;;;
      open_ (name t) ;;;
      commit
  end.

Definition getitem (var : string) (key : rawkey) : M LMDBBackend (option bytes) :=
  t <- the_table var ;;
  _ <- the_keyMapper t ;;
  need_env ;;;
  b <- get_state ;;
  ret (sub (disk b) (name t) !! key).

Definition setitem (var : string) (key : rawkey) (value : bytes) : M LMDBBackend unit :=
  t <- the_table var ;;
  _ <- the_keyMapper t ;;
  with_currentWriteTx
    (tx_modify (fun w => set_sub (name t) (<[key := value]> (sub w (name t))) w)).

Definition delitem (var : string) (key : rawkey) : M LMDBBackend unit :=
  t <- the_table var ;;
  with_currentWriteTx
    (_ <- the_keyMapper t ;;
     tx_modify (fun w => set_sub (name t) (delete key (sub w (name t))) w)).

(** [drop]: the sub-database is emptied, and the record deleted from
    [typesMeta] is the one under the bare table name. *)
Definition drop (var : string) : M LMDBBackend unit :=
  t <- the_table var ;;
  with_currentWriteTx
    (tx_modify (set_sub (name t) ∅) ;;;
     _ <- the_table "typesMeta" ;;
     with_currentWriteTx
       (tx_modify (fun w => set_keyTypes (delete (name t) (keyTypes w)) w))).

(** The cursor loop of [applyToValues]: every record in turn gets the value
    the function returns for it; the first call that raises ends the loop
    with the records before it already replaced. *)
Fixpoint cursor_replace_all (nm : string) (f : bytes -> outcome bytes)
    (records : list (rawkey * bytes)) : M LMDBBackend unit :=
  match records with
  | [] => ret tt
  | (k, v) :: rest =>
      match f v with
      | Raise e => raise e
      | Ok v' =>
          tx_modify (fun w => set_sub nm (<[k := v']> (sub w nm)) w) ;;;
          cursor_replace_all nm f rest
      end
  end.

Definition tx_records (nm : string) : M LMDBBackend (list (rawkey * bytes)) :=
  t <- the_tx ;;
  match tx t with
  | None => raise (AttributeError "'NoneType' object has no attribute 'cursor'")
  | Some w => ret (map_to_list (sub w nm))
  end.

Definition applyToValues (var funcName : string) (f : bytes -> outcome bytes) : M LMDBBackend unit :=
  t <- the_table var ;;
  b <- get_state ;;
  if bool_decide (funcName ∈ functions b) then
    with_currentWriteTx
      (need_env ;;;
       records <- tx_records (name t) ;;
       cursor_replace_all (name t) f records)
  else raise (KeyError funcName).

Definition getKeyType (var : string) : M LMDBBackend (option PyType) :=
  t <- the_table var ;;
  m <- the_keyMapper t ;;
  ret (Some (tgtType m)).

(** [Tablez.map] with [LMDBBackend.Table]: the object reads its key codec
    when it is built and opens its sub-database. *)
Definition map_table (tableName variableName : string) : M LMDBBackend unit :=
  m <- getMapper tableName keyMapperMetaKey ;;
  open_ tableName ;;;
  set_table variableName {| name := tableName; keyMapper := m |}.

Definition keyTypesDataBaseName : string := "keyTypes".

Definition enter : M LMDBBackend unit :=
  b <- get_state ;;
  (match path b with
   | Some _ => modify (set_env true)
   | None => ret tt
   end) ;;;
  open_ keyTypesDataBaseName ;;;
  set_table "typesMeta" {| name := keyTypesDataBaseName; keyMapper := Some utf8Transformer |} ;;;
  modify (set_currentWriteTx (Some {| tx := None; refCount := 0 |})) ;;;
  e <- exists_ "typesMeta" ;;
  if e then ret tt else create "typesMeta" Tstr Tstr.

(** [LMDBBackend.__exit__]; [Tablez.__exit__] empties the directory. *)
Definition exit : M LMDBBackend unit :=
  b <- get_state ;;
  (match currentWriteTx b with
   | Some _ => swt_exit ;;; modify (set_currentWriteTx None)
   | None => ret tt
   end) ;;;
  modify (set_tables ∅) ;;;
  modify (set_env false).

Definition vacuum : M LMDBBackend unit := ret tt.
Definition optimize : M LMDBBackend unit := ret tt.
Definition beginTransaction : M LMDBBackend unit := ret tt.
Definition createFunction (nm : string) : M LMDBBackend unit :=
  modify (fun b => set_functions (nm :: functions b) b).

(** [SharedWriteTransaction.spawn]: a write transaction of the engine starts
    from the committed content. *)
Definition spawn : M LMDBBackend store :=
  need_env ;;;
  b <- get_state ;;
  ret (disk b).

(** [SharedWriteTransaction.commit] and [SharedWriteTransaction.abort]: the
    transaction of the engine is committed or aborted, and a new one is
    spawned in its place. *)
Definition swt_commit : M LMDBBackend unit :=
  t <- the_tx ;;
  match tx t with
  | None => raise (AttributeError "'NoneType' object has no attribute 'commit'")
  | Some w =>
      modify (set_disk w) ;;;
      s <- spawn ;;
      modify (set_currentWriteTx (Some {| tx := Some s; refCount := refCount t |}))
  end.

Definition swt_abort : M LMDBBackend unit :=
  t <- the_tx ;;
  match tx t with
  | None => raise (AttributeError "'NoneType' object has no attribute 'abort'")
  | Some _ =>
      s <- spawn ;;
      modify (set_currentWriteTx (Some {| tx := Some s; refCount := refCount t |}))
  end.

(** [getReadTx] and a cursor read to the end: a read transaction sees the
    committed content. *)
Definition read_records (nm : string) : M LMDBBackend (list (rawkey * bytes)) :=
  need_env ;;;
  b <- get_state ;;
  ret (map_to_list (sub (disk b) nm)).

(** [_Table.__len__]: the entries of [getInfo]. *)
Definition len_ (var : string) : M LMDBBackend Z :=
  t <- the_table var ;;
  need_env ;;;
  b <- get_state ;;
  ret (Z.of_nat (size (sub (disk b) (name t)))).

(** [keys], [values] and [items], read to the end. The key codec is asked
    for once a record is there to decode. *)
Definition keys (var : string) : M LMDBBackend (list rawkey) :=
  t <- the_table var ;;
  rs <- read_records (name t) ;;
  match rs with
  | [] => ret []
  | _ :: _ => _ <- the_keyMapper t ;; ret (rs.*1)
  end.

Definition values (var : string) : M LMDBBackend (list bytes) :=
  t <- the_table var ;;
  rs <- read_records (name t) ;;
  ret (rs.*2).

Definition items (var : string) : M LMDBBackend (list (rawkey * bytes)) :=
  t <- the_table var ;;
  rs <- read_records (name t) ;;
  match rs with
  | [] => ret []
  | _ :: _ => _ <- the_keyMapper t ;; ret rs
  end.

(** [_Table.__contains__]. *)
Definition contains (var : string) (key : rawkey) : M LMDBBackend bool :=
  res <- getitem var key ;;
  ret (bool_decide (is_Some res)).

(** [LMDBBackend(base, metaDataTableName)] for a path. *)
Definition of_path (p : string) (d : store) : LMDBBackend :=
  {| path := Some p; env := false; disk := d; currentWriteTx := None;
     tables := ∅; functions := [] |}.

End LMDB.

Global Instance LMDB_backend : StorageBackend LMDB.LMDBBackend := {
  be_enter := LMDB.enter;
  be_exit := LMDB.exit;
  be_commit := LMDB.commit;
  be_vacuum := LMDB.vacuum;
  be_optimize := LMDB.optimize;
  be_createFunction := LMDB.createFunction;
  be_beginTransaction := LMDB.beginTransaction;
  be_map := LMDB.map_table;
  tbl_exists := LMDB.exists_;
  tbl_create := LMDB.create;
  tbl_getitem := LMDB.getitem;
  tbl_setitem := LMDB.setitem;
  tbl_delitem := LMDB.delitem;
  tbl_drop := LMDB.drop;
  tbl_applyToValues := LMDB.applyToValues;
  tbl_getKeyType := LMDB.getKeyType
}.

(** ** The collaborators of [transformerz] *)

(** Python objects as the cache passes them around. *)
#[local] Unset Elimination Schemes.
Inductive pyobj :=
| PyNone
| PyInt (z : Z)
| PyStr (s : string)
| PyBytes (b : bytes)
| PyFloat (mantissa exponent : Z)
| PyList (items : list pyobj)
| PyDict (items : list (string * pyobj)).
#[local] Set Elimination Schemes.

(** A transformer of [transformerz.core]: an id and two directions. A
    compressor is a transformer too: [process] decompresses and [unprocess]
    compresses. *)
Record Transformer := {
  id : string;
  process : pyobj -> outcome pyobj;
  unprocess : pyobj -> outcome pyobj
}.

Record Compressor := {
  codec : Transformer;
  supportsDicts : bool
}.

(** A [BinaryCompressorFactory]: called on the keyword arguments, of which
    the cache only ever passes [dictionary]. *)
Record CompressorFactory := {
  factory_id : string;
  build : option bytes -> Compressor
}.

(** Modelled from the spec: [TransformerStack] of [transformerz.core], which
    is not part of this repository. A stack is a sequence of transformers;
    its id is the tuple of their ids; [process] applies the [process] of each
    from the first to the last, [unprocess] the [unprocess] of each from the
    last to the first. *)
Definition TransformerStack := list Transformer.

Definition stack_id (ts : TransformerStack) : list string := map id ts.

Fixpoint stack_process (ts : TransformerStack) (v : pyobj) : outcome pyobj :=
  match ts with
  | [] => Ok v
  | t :: ts' =>
      match process t v with
      | Ok v' => stack_process ts' v'
      | Raise e => Raise e
      end
  end.

Fixpoint stack_unprocess (ts : TransformerStack) (v : pyobj) : outcome pyobj :=
  match ts with
  | [] => Ok v
  | t :: ts' =>
      match stack_unprocess ts' v with
      | Ok v' => unprocess t v'
      | Raise e => Raise e
      end
  end.

(** What the engines accept as a key and as a value. *)
Definition to_rawkey (key : pyobj) : outcome rawkey :=
  match key with
  | PyInt z => Ok (KInt z)
  | PyStr s => Ok (KStr s)
  | PyBytes b => Ok (KBytes b)
  | _ => Raise (TypeError "unsupported type of a key")
  end.

Definition to_bytes (val : pyobj) : outcome bytes :=
  match val with
  | PyBytes b => Ok b
  | _ => Raise (TypeError "a bytes-like object is required")
  end.

(** [str(x, encoding="utf-8")]. *)
Definition py_str (x : option bytes) : outcome string :=
  match x with
  | Some b => Ok (decode_utf8 b)
  | None => Raise (TypeError "decoding to str: need a bytes-like object, NoneType found")
  end.

(** The builtin [len], on a [bytes] object and on a class such as [dict]. *)
Inductive len_argument :=
| a_bytes (b : bytes)
| a_class (name : string).

Definition py_len (a : len_argument) : outcome Z :=
  match a with
  | a_bytes b => Ok (Z.of_nat (length b))
  | a_class _ => Raise (TypeError "object of type 'type' has no len()")
  end.

(** ** [Cache/__init__.py] *)

(** [CacheMeta.__new__]: a class that declares [_appendTransformers] gets the
    stack of its parent, or an empty one, extended by them. *)
Definition CacheMeta (parent_transformers : option TransformerStack)
    (_appendTransformers : list Transformer) : TransformerStack :=
  default [] parent_transformers ++ _appendTransformers.

Definition is_None (v : pyobj) : bool :=
  match v with PyNone => true | _ => false end.

Section BlobCache.

Context {B : Type} `{!StorageBackend B}.

(** [self.__class__.transformers], the catalog of compressors and the two
    directions of [json] on a tuple of ids. *)
Variable transformers : TransformerStack.
Variable _COMPRESSORS_DICT : string -> option CompressorFactory.
Variable json_dumps : list string -> string.
Variable json_loads : string -> outcome (list string).

Record BlobCache := {
  backend : B;
  compressorFactory : option CompressorFactory;
  compressor : option Compressor;
  newCompressor : option Compressor;
  commitOnNOps : Z;
  opsPending : Z;
  keyType : PyType
}.

Definition TABLE_NAME : string := "cache".
Definition META_TABLE_NAME : string := "metadata".

Definition set_backend (b : B) (c : BlobCache) : BlobCache :=
  {| backend := b; compressorFactory := compressorFactory c; compressor := compressor c;
     newCompressor := newCompressor c; commitOnNOps := commitOnNOps c;
     opsPending := opsPending c; keyType := keyType c |}.
Definition set_compressorFactory (f : option CompressorFactory) (c : BlobCache) : BlobCache :=
  {| backend := backend c; compressorFactory := f; compressor := compressor c;
     newCompressor := newCompressor c; commitOnNOps := commitOnNOps c;
     opsPending := opsPending c; keyType := keyType c |}.
Definition set_compressor (z : option Compressor) (c : BlobCache) : BlobCache :=
  {| backend := backend c; compressorFactory := compressorFactory c; compressor := z;
     newCompressor := newCompressor c; commitOnNOps := commitOnNOps c;
     opsPending := opsPending c; keyType := keyType c |}.
Definition set_newCompressor (z : option Compressor) (c : BlobCache) : BlobCache :=
  {| backend := backend c; compressorFactory := compressorFactory c; compressor := compressor c;
     newCompressor := z; commitOnNOps := commitOnNOps c;
     opsPending := opsPending c; keyType := keyType c |}.
Definition set_opsPending (n : Z) (c : BlobCache) : BlobCache :=
  {| backend := backend c; compressorFactory := compressorFactory c; compressor := compressor c;
     newCompressor := newCompressor c; commitOnNOps := commitOnNOps c;
     opsPending := n; keyType := keyType c |}.

(** A call on [self.backend]. *)
Definition on_backend {A} (m : M B A) : M BlobCache A := zoom backend set_backend m.

(** The [compressorFactory] argument of the constructor. *)
Inductive compressor_argument :=
| arg_None
| arg_name (s : string)
| arg_factory (f : CompressorFactory).

(** [BlobCache.__init__] on a backend object: a name of a compressor is
    looked up in the catalog ([True], for the best one, is a factory of the
    catalog too), and the key type defaults to [str]. *)
Definition init (base : B) (compressorFactory : compressor_argument) (commitOnNOps : Z)
    (keyType : option PyType) : outcome BlobCache :=
  match (match compressorFactory with
         | arg_None => Ok None
         | arg_factory f => Ok (Some f)
         | arg_name s =>
             match _COMPRESSORS_DICT s with
             | Some f => Ok (Some f)
             | None => Raise (KeyError s)
             end
         end) with
  | Raise e => Raise e
  | Ok f =>
      Ok {| backend := base; compressorFactory := f; compressor := None;
            newCompressor := None; commitOnNOps := commitOnNOps; opsPending := 0;
            keyType := default Tstr keyType |}
  end.

(** The property [willCommit]; [%] of Python rounds as [Z.modulo] does. *)
Definition willCommit : M BlobCache bool :=
  c <- get_state ;;
  if opsPending c =? 0 then ret false
  else if commitOnNOps c =? 0 then raise ZeroDivisionError
  else ret (opsPending c mod commitOnNOps c =? 0).

Definition commit : M BlobCache unit :=
  on_backend be_commit ;;;
  modify (set_opsPending 0).

Definition opCommit : M BlobCache bool :=
  w <- willCommit ;;
  (if w then commit
   else modify (fun c => set_opsPending (opsPending c + 1) c)) ;;;
  ret true.

(** The first lines of [__getitem__], [__setitem__] and [__delitem__]: a key
    of a cache with key type [typing.Any] goes through the stack. *)
Definition encode_key (key : pyobj) : M BlobCache rawkey :=
  c <- get_state ;;
  key' <- match keyType c with
          | TAny => lift_outcome (stack_unprocess transformers key)
          | _ => ret key
          end ;;
  lift_outcome (to_rawkey key').

Definition getitem (key : pyobj) : M BlobCache pyobj :=
  k <- encode_key key ;;
  val <- on_backend (tbl_getitem "data" k) ;;
  if negb (truthy val) then ret PyNone
  else
    c <- get_state ;;
    let val := PyBytes (default [] val) in
    val <- match compressor c with
           | Some z => lift_outcome (process (codec z) val)
           | None => ret val
           end ;;
    lift_outcome (stack_process transformers val).

Definition contains (key : pyobj) : M BlobCache bool :=
  v <- getitem key ;;
  ret (negb (is_None v)).

Definition delitem (key : pyobj) : M BlobCache unit :=
  k <- encode_key key ;;
  on_backend (tbl_delitem "data" k) ;;;
  opCommit ;;;
  ret tt.

Definition setitem (key val : pyobj) : M BlobCache unit :=
  if is_None val then delitem key
  else
    k <- encode_key key ;;
    val <- lift_outcome (stack_unprocess transformers val) ;;
    c <- get_state ;;
    val <- match compressor c with
           | Some z => lift_outcome (unprocess (codec z) val)
           | None => ret val
           end ;;
    b <- lift_outcome (to_bytes val) ;;
    on_backend (tbl_setitem "data" k b) ;;;
    opCommit ;;;
    ret tt.

Definition isInitialized : M BlobCache bool :=
  on_backend (tbl_exists "metadata").

Definition getCacheTableKeyType : M BlobCache (option PyType) :=
  on_backend (tbl_getKeyType "data").

Definition recreateCompressorWithArgs (dictionary : option bytes) : M BlobCache unit :=
  modify (fun c => match compressorFactory c with
                   | Some f => set_compressor (Some (build f dictionary)) c
                   | None => c
                   end).

Definition compressionDictionary : M BlobCache (option bytes) :=
  on_backend (tbl_getitem "metadata" (KStr "dict")).

(** [_recompressorFunc], as a function of the cache object it is bound to. *)
Definition _recompressorFunc (self : BlobCache) (v : bytes) : outcome bytes :=
  match newCompressor self with
  | None => Raise (PyException "newCompressor is not set")
  | Some new =>
      match compressor self with
      | None => Raise (AttributeError "'NoneType' object has no attribute 'process'")
      | Some old =>
          match process (codec old) (PyBytes v) with
          | Raise e => Raise e
          | Ok plain =>
              match unprocess (codec new) plain with
              | Raise e => Raise e
              | Ok r => to_bytes r
              end
          end
      end
  end.

Definition vacuum : M BlobCache unit :=
  c <- get_state ;;
  (if opsPending c =? 0 then ret tt else commit) ;;;
  on_backend be_vacuum.

Definition optimize : M BlobCache unit :=
  c <- get_state ;;
  (if opsPending c =? 0 then ret tt else commit) ;;;
  on_backend be_optimize.

Definition applyCompressionDictionary (newDict : bytes) : M BlobCache unit :=
  current <- compressionDictionary ;;
  if bool_decide (current = Some newDict) then ret tt
  else
    on_backend be_beginTransaction ;;;
    c <- get_state ;;
    match compressorFactory c with
    | None => raise (TypeError "'NoneType' object is not callable")
    | Some f =>
        modify (set_newCompressor (Some (build f (Some newDict)))) ;;;
        self <- get_state ;;
        on_backend (tbl_applyToValues "data" "recompress" (_recompressorFunc self)) ;;;
        modify (fun c => set_compressor (newCompressor c) c) ;;;
        modify (set_newCompressor None) ;;;
        on_backend (tbl_setitem "metadata" (KStr "dict") newDict) ;;;
        modify (set_compressor (Some (build f (Some newDict)))) ;;;
        commit
    end.

Definition createDataTable : M BlobCache unit :=
  c <- get_state ;;
  let keyType := match keyType c with TAny => Tbytes | t => t end in
  on_backend (tbl_create "data" keyType Tbytes) ;;;
  optimize.

(** The key-type test of the attach path. *)
Definition check_key_type (stored : option PyType) (declared : PyType) : outcome unit :=
  if bool_decide (stored <> Some declared) then
    match declared, stored with
    | TAny, Some Tbytes => Ok tt
    | _, _ => Raise (ValueError (IncompatibleKeyType stored declared))
    end
  else Ok tt.

Definition enter : M BlobCache unit :=
  on_backend be_enter ;;;
  on_backend (be_map TABLE_NAME "data") ;;;
  on_backend (be_map META_TABLE_NAME "metadata") ;;;
  initialized <- isInitialized ;;
  (if negb initialized then
     on_backend (tbl_create "metadata" Tstr Tbytes) ;;;
     c <- get_state ;;
     on_backend (tbl_setitem "metadata" (KStr "compression")
                   (encode_utf8 (match compressorFactory c with
                                 | Some f => factory_id f
                                 | None => "none"
                                 end))) ;;;
     on_backend (tbl_setitem "metadata" (KStr "serializers")
                   (encode_utf8 (json_dumps (stack_id transformers)))) ;;;
     createDataTable ;;;
     commit ;;;
     recreateCompressorWithArgs None
   else
     compressionId <- on_backend (tbl_getitem "metadata" (KStr "compression")) ;;
     compressionId <- lift_outcome (py_str compressionId) ;;
     transformersTemp <- on_backend (tbl_getitem "metadata" (KStr "serializers")) ;;
     transformersTemp <- lift_outcome (py_str transformersTemp) ;;
     transformersTemp <- lift_outcome (json_loads transformersTemp) ;;
     if bool_decide (transformersTemp <> stack_id transformers) then
       raise (ValueError (IncompatibleCodecs transformersTemp))
     else
       keyType_ <- getCacheTableKeyType ;;
       c <- get_state ;;
       lift_outcome (check_key_type keyType_ (keyType c)) ;;;
       match _COMPRESSORS_DICT compressionId with
       | None => raise (KeyError compressionId)
       | Some f =>
           modify (set_compressorFactory (Some f)) ;;;
           dic <- on_backend (tbl_getitem "metadata" (KStr "dict")) ;;
           match dic with
           | Some d =>
               n <- lift_outcome (py_len (a_class "dict")) ;;
               if 0 <? n then recreateCompressorWithArgs (Some d)
               else recreateCompressorWithArgs None
           | None => recreateCompressorWithArgs None
           end
       end) ;;;
  on_backend (be_createFunction "recompress").

Definition exit : M BlobCache unit :=
  on_backend be_exit.

Definition empty : M BlobCache unit :=
  on_backend (tbl_drop "data") ;;;
  createDataTable ;;;
  commit.

Fixpoint populate (target : list (pyobj * pyobj)) : M BlobCache unit :=
  match target with
  | [] => ret tt
  | (k, v) :: rest => setitem k v ;;; populate rest
  end.

(** [optimizeCompression]; [newDict] stands for what the lines that size and
    train the dictionary produce, a dictionary or an exception. *)
Definition optimizeCompression (newDict : outcome bytes) : M BlobCache unit :=
  c <- get_state ;;
  match compressor c with
  | None => raise (NotImplementedError "no shared dicts")
  | Some z =>
      if negb (supportsDicts z) then raise (NotImplementedError "no shared dicts")
      else
        commit ;;;
        d <- lift_outcome newDict ;;
        applyCompressionDictionary d
  end.

End BlobCache.

(** ** The classes of [Cache/__init__.py] *)

Inductive CacheClass :=
| BlobCacheClass
| StringCache
| JSONCache
| PONCache
| BSONCache
| MsgPackCache
| CBORCache.

Section Classes.

(** The transformers that the module imports from [transformerz]. *)
Variables utf8Transformer jsonSerializer ponSerializer bsonSerializer
  msgpackSerializer cborSerializer : Transformer.

(** The attribute [transformers] of each class, as [CacheMeta] builds it from
    the parent class and [_appendTransformers]. *)
Definition BlobCache_transformers : TransformerStack := [].
Definition StringCache_transformers : TransformerStack :=
  CacheMeta (Some BlobCache_transformers) [utf8Transformer].

Definition class_transformers (cls : CacheClass) : TransformerStack :=
  match cls with
  | BlobCacheClass => BlobCache_transformers
  | StringCache => StringCache_transformers
  | JSONCache => CacheMeta (Some StringCache_transformers) [jsonSerializer]
  | PONCache => CacheMeta (Some StringCache_transformers) [ponSerializer]
  | BSONCache => CacheMeta (Some BlobCache_transformers) [bsonSerializer]
  | MsgPackCache => CacheMeta (Some BlobCache_transformers) [msgpackSerializer]
  | CBORCache => CacheMeta (Some BlobCache_transformers) [cborSerializer]
  end.

End Classes.

(** A transformer is lossless when [process] undoes [unprocess]. *)
Definition lossless (t : Transformer) : Prop :=
  forall x y, unprocess t x = Ok y -> process t y = Ok x.

(** [preserves P m]: whatever [m] does, and however it ends, it takes a state
    with [P] to a state with [P]. *)
Definition preserves {S A} (P : S -> Prop) (m : M S A) : Prop :=
  forall s, P s -> P (state_of (m s)).

(** ** Sequences of operations on a cache *)

Section Operations.

Context {B : Type} `{!StorageBackend B}.
Variable transformers : TransformerStack.
Variable _COMPRESSORS_DICT : string -> option CompressorFactory.
Variable json_dumps : list string -> string.
Variable json_loads : string -> outcome (list string).

(** The methods of a cache that a caller runs in sequence. The iteration
    methods only read; [recompress] is [__exit__], the scope of a second cache
    object, and [__enter__]. *)
Inductive operation :=
| op_getitem (key : pyobj)
| op_contains (key : pyobj)
| op_setitem (key val : pyobj)
| op_delitem (key : pyobj)
| op_commit
| op_vacuum
| op_optimize
| op_empty
| op_populate (target : list (pyobj * pyobj))
| op_applyCompressionDictionary (newDict : bytes)
| op_optimizeCompression (newDict : outcome bytes)
| op_createDataTable
| op_enter
| op_exit.

Definition run_operation (o : operation) : M (@BlobCache B) unit :=
  match o with
  | op_getitem key => getitem transformers key ;;; ret tt
  | op_contains key => contains transformers key ;;; ret tt
  | op_setitem key val => setitem transformers key val
  | op_delitem key => delitem transformers key
  | op_commit => commit
  | op_vacuum => vacuum
  | op_optimize => optimize
  | op_empty => empty
  | op_populate target => populate transformers target
  | op_applyCompressionDictionary d => applyCompressionDictionary d
  | op_optimizeCompression d => optimizeCompression d
  | op_createDataTable => createDataTable
  | op_enter => enter transformers _COMPRESSORS_DICT json_dumps json_loads
  | op_exit => exit
  end.

(** The cache object after a sequence of operations, each of which may have
    ended in an exception that the caller caught. *)
Fixpoint run_operations (ops : list operation) (c : @BlobCache B) : @BlobCache B :=
  match ops with
  | [] => c
  | o :: ops' => run_operations ops' (state_of (run_operation o c))
  end.

(** The bounds of the counter of pending operations. *)
Definition counter_in_range (N : Z) (c : @BlobCache B) : Prop :=
  commitOnNOps c = N /\ 0 <= opsPending c <= N.

(** The lines of [__enter__] up to the comparison of the stored ids with the
    ids of the class: they enter the backend, map the two tables and read the
    records [compression] and [serializers] of the table [metadata]. The
    result is [None] when the table [metadata] does not exist. *)
Definition read_metadata : M (@BlobCache B) (option (string * list string)) :=
  on_backend be_enter ;;;
  on_backend (be_map TABLE_NAME "data") ;;;
  on_backend (be_map META_TABLE_NAME "metadata") ;;;
  initialized <- isInitialized ;;
  if negb initialized then ret None
  else
    compressionId <- on_backend (tbl_getitem "metadata" (KStr "compression")) ;;
    compressionId <- lift_outcome (py_str compressionId) ;;
    transformersTemp <- on_backend (tbl_getitem "metadata" (KStr "serializers")) ;;
    transformersTemp <- lift_outcome (py_str transformersTemp) ;;
    transformersTemp <- lift_outcome (json_loads transformersTemp) ;;
    ret (Some (compressionId, transformersTemp)).

(** The two branches of [__enter__], after the lines above. *)
Definition initialization_path : M (@BlobCache B) unit :=
  on_backend (tbl_create "metadata" Tstr Tbytes) ;;;
  c <- get_state ;;
  on_backend (tbl_setitem "metadata" (KStr "compression")
                (encode_utf8 (match compressorFactory c with
                              | Some f => factory_id f
                              | None => "none"
                              end))) ;;;
  on_backend (tbl_setitem "metadata" (KStr "serializers")
                (encode_utf8 (json_dumps (stack_id transformers)))) ;;;
  createDataTable ;;;
  commit ;;;
  recreateCompressorWithArgs None.

Definition attach_path (compressionId : string) (transformersTemp : list string) :
    M (@BlobCache B) unit :=
  if bool_decide (transformersTemp <> stack_id transformers) then
    raise (ValueError (IncompatibleCodecs transformersTemp))
  else
    keyType_ <- getCacheTableKeyType ;;
    c <- get_state ;;
    lift_outcome (check_key_type keyType_ (keyType c)) ;;;
    match _COMPRESSORS_DICT compressionId with
    | None => raise (KeyError compressionId)
    | Some f =>
        modify (set_compressorFactory (Some f)) ;;;
        dic <- on_backend (tbl_getitem "metadata" (KStr "dict")) ;;
        match dic with
        | Some d =>
            n <- lift_outcome (py_len (a_class "dict")) ;;
            if 0 <? n then recreateCompressorWithArgs (Some d)
            else recreateCompressorWithArgs None
        | None => recreateCompressorWithArgs None
        end
    end.

(** The records [compression] and [serializers] of a table [metadata]. *)
Definition well_formed_metadata (m : gmap rawkey bytes) (compressionId : string)
    (ids : list string) : Prop :=
  m !! KStr "compression" = Some (encode_utf8 compressionId) /\
  exists raw, m !! KStr "serializers" = Some raw /\ json_loads (decode_utf8 raw) = Ok ids.

(** What the write path stores for a value: the stack in reverse, then the
    compressor. *)
Definition stored_form (c : @BlobCache B) (val : pyobj) : outcome bytes :=
  match stack_unprocess transformers val with
  | Raise e => Raise e
  | Ok v =>
      match compressor c with
      | Some z =>
          match unprocess (codec z) v with
          | Raise e => Raise e
          | Ok v' => to_bytes v'
          end
      | None => to_bytes v
      end
  end.

(** The backend key of a key, for a declared key type. *)
Definition stored_key (declared : PyType) (key : pyobj) : outcome rawkey :=
  match declared with
  | TAny =>
      match stack_unprocess transformers key with
      | Raise e => Raise e
      | Ok k => to_rawkey k
      end
  | _ => to_rawkey key
  end.

(** A write to the data table, and the rows after a sequence of them. *)
Inductive write :=
| w_put (key : rawkey) (val : bytes)
| w_del (key : rawkey).

Definition apply_write (d : gmap rawkey bytes) (w : write) : gmap rawkey bytes :=
  match w with
  | w_put k v => <[k := v]> d
  | w_del k => delete k d
  end.

(** The write that an assignment [cache[key] = val] makes: a deletion for
    [None]. *)
Definition stored_write (c : @BlobCache B) (key val : pyobj) : outcome write :=
  match stored_key (keyType c) key with
  | Raise e => Raise e
  | Ok k =>
      if is_None val then Ok (w_del k)
      else
        match stored_form c val with
        | Raise e => Raise e
        | Ok b => Ok (w_put k b)
        end
  end.

Fixpoint stored_writes (c : @BlobCache B) (target : list (pyobj * pyobj)) : outcome (list write) :=
  match target with
  | [] => Ok []
  | (k, v) :: rest =>
      match stored_write c k v with
      | Raise e => Raise e
      | Ok w =>
          match stored_writes c rest with
          | Raise e => Raise e
          | Ok ws => Ok (w :: ws)
          end
      end
  end.

End Operations.

(** ** The contract of a backend *)

(** What the cache relies on. [live b m kt d]: the backend is entered, the
    tables [data] and [metadata] are mapped and exist, [m] and [d] are their
    rows and [kt] is the key type of [data]. [at_rest b m kt d]: the backend
    is not entered, and the next entry will find these tables.
    [durable b m kt d]: these tables are what the file holds, whatever
    happens to the backend object; [reopen b] is a new backend object on the
    file of [b]. *)
Class BackendContract (B : Type) `{!StorageBackend B} := {
  live : B -> gmap rawkey bytes -> PyType -> gmap rawkey bytes -> Prop;
  at_rest : B -> gmap rawkey bytes -> PyType -> gmap rawkey bytes -> Prop;
  durable : B -> gmap rawkey bytes -> PyType -> gmap rawkey bytes -> Prop;
  file_backed : B -> Prop;
  reopen : B -> B;
  contract_enter : forall b m kt d, at_rest b m kt d ->
    exists b', (be_enter ;;; be_map "cache" "data" ;;; be_map "metadata" "metadata") b = (b', Ok tt)
               /\ live b' m kt d /\ (file_backed b -> file_backed b');
  contract_exists : forall b m kt d, live b m kt d ->
    exists b', tbl_exists "metadata" b = (b', Ok true) /\ live b' m kt d
               /\ (file_backed b -> file_backed b');
  contract_get_metadata : forall b m kt d k, live b m kt d ->
    tbl_getitem "metadata" k b = (b, Ok (m !! k));
  contract_get_data : forall b m kt d k, live b m kt d ->
    tbl_getitem "data" k b = (b, Ok (d !! k));
  contract_getKeyType : forall b m kt d, live b m kt d ->
    tbl_getKeyType "data" b = (b, Ok (Some kt));
  contract_set_data : forall b m kt d k v, live b m kt d ->
    exists b', tbl_setitem "data" k v b = (b', Ok tt) /\ live b' m kt (<[k := v]> d)
               /\ (file_backed b -> file_backed b');
  contract_del_data : forall b m kt d k, live b m kt d ->
    exists b', tbl_delitem "data" k b = (b', Ok tt) /\ live b' m kt (delete k d)
               /\ (file_backed b -> file_backed b');
  contract_commit : forall b m kt d, live b m kt d ->
    exists b', be_commit b = (b', Ok tt) /\ live b' m kt d
               /\ (file_backed b -> durable b' m kt d /\ file_backed b');
  contract_createFunction : forall b m kt d nm, live b m kt d ->
    exists b', be_createFunction nm b = (b', Ok tt) /\ live b' m kt d
               /\ (file_backed b -> file_backed b');
  contract_exit : forall b m kt d, live b m kt d ->
    exists b', be_exit b = (b', Ok tt) /\ at_rest b' m kt d
               /\ (file_backed b -> durable b' m kt d);
  contract_reopen : forall b m kt d, durable b m kt d -> at_rest (reopen b) m kt d
}.

(** An entered cache on a backend that shows the tables [m] and [d]: the
    records of [m] are those of the class and of a compressor of the catalog,
    there is no dictionary, the key type [kt] of the data table is accepted
    for the declared one, and the compressor of the cache is the one that the
    catalog builds for the stored id (or there is none, and the stored id is
    ["none"]). *)
Section Opened.

Context {B : Type} `{!StorageBackend B} `{!BackendContract B}.
Variable transformers : TransformerStack.
Variable _COMPRESSORS_DICT : string -> option CompressorFactory.
Variable json_loads : string -> outcome (list string).

Definition opened (c : @BlobCache B) (m : gmap rawkey bytes) (kt : PyType)
    (d : gmap rawkey bytes) (compressionId : string) (f : CompressorFactory) : Prop :=
  live (backend c) m kt d /\
  well_formed_metadata json_loads m compressionId (stack_id transformers) /\
  m !! KStr "dict" = None /\
  check_key_type (Some kt) (keyType c) = Ok tt /\
  _COMPRESSORS_DICT compressionId = Some f /\
  (compressor c = Some (build f None) \/ (compressor c = None /\ compressionId = "none")).

End Opened.

(** *** The SQLite backend *)

Definition SQLite_has_tables (w : gmap string SQLite.table)
    (m : gmap rawkey bytes) (kt : PyType) (d : gmap rawkey bytes) : Prop :=
  (exists cols, w !! "metadata" = Some {| SQLite.columns := cols; SQLite.rows := m |}) /\
  (exists cols, w !! "cache" = Some {| SQLite.columns := cols; SQLite.rows := d |} /\
                SQLite.key_column_type cols = Ok (Some kt)).

Definition SQLite_live (b : SQLite.SQLiteBackend)
    (m : gmap rawkey bytes) (kt : PyType) (d : gmap rawkey bytes) : Prop :=
  exists conn, SQLite.db b = Some conn /\
    SQLite.tables b !! "data" = Some "cache" /\
    SQLite.tables b !! "metadata" = Some "metadata" /\
    SQLite_has_tables (SQLite.work conn) m kt d.

Definition SQLite_at_rest (b : SQLite.SQLiteBackend)
    (m : gmap rawkey bytes) (kt : PyType) (d : gmap rawkey bytes) : Prop :=
  match SQLite.path b with
  | Some _ => SQLite_has_tables (SQLite.disk b) m kt d
  | None => exists conn, SQLite.db b = Some conn /\ SQLite_has_tables (SQLite.work conn) m kt d
  end.

Definition SQLite_durable (b : SQLite.SQLiteBackend)
    (m : gmap rawkey bytes) (kt : PyType) (d : gmap rawkey bytes) : Prop :=
  SQLite_has_tables (SQLite.disk b) m kt d.

Definition SQLite_reopen (b : SQLite.SQLiteBackend) : SQLite.SQLiteBackend :=
  SQLite.of_path (default "cache.sqlite" (SQLite.path b)) (SQLite.disk b).

(** *** The LMDB backend *)

Definition LMDB_has_tables (s : LMDB.store)
    (m : gmap rawkey bytes) (kt : PyType) (d : gmap rawkey bytes) : Prop :=
  LMDB.keyTypes s !! "key-keyTypes" = Some LMDB.utf8Transformer /\
  is_Some (LMDB.keyTypes s !! "key-metadata") /\
  (exists km, LMDB.keyTypes s !! "key-cache" = Some km /\ LMDB.tgtType km = kt) /\
  LMDB.sub s "metadata" = m /\
  LMDB.sub s "cache" = d.

Definition LMDB_live (b : LMDB.LMDBBackend)
    (m : gmap rawkey bytes) (kt : PyType) (d : gmap rawkey bytes) : Prop :=
  is_Some (LMDB.path b) /\
  LMDB.env b = true /\
  LMDB.currentWriteTx b = Some {| LMDB.tx := None; LMDB.refCount := 0 |} /\
  is_Some (LMDB.tables b !! "typesMeta") /\
  (exists km, LMDB.tables b !! "metadata" = Some {| LMDB.name := "metadata"; LMDB.keyMapper := Some km |}
              /\ LMDB.keyTypes (LMDB.disk b) !! "key-metadata" = Some km) /\
  (exists km, LMDB.tables b !! "data" = Some {| LMDB.name := "cache"; LMDB.keyMapper := Some km |}
              /\ LMDB.tgtType km = kt) /\
  LMDB_has_tables (LMDB.disk b) m kt d.

Definition LMDB_at_rest (b : LMDB.LMDBBackend)
    (m : gmap rawkey bytes) (kt : PyType) (d : gmap rawkey bytes) : Prop :=
  is_Some (LMDB.path b) /\ LMDB_has_tables (LMDB.disk b) m kt d.

Definition LMDB_reopen (b : LMDB.LMDBBackend) : LMDB.LMDBBackend :=
  LMDB.of_path (default "cache.mdb" (LMDB.path b)) (LMDB.disk b).

(** ** What is observed of a cache and of its backend *)

(** What a file holds for a key of a table, and what the connection or the
    environment of a backend object shows for it. *)
Definition sqlite_committed (b : SQLite.SQLiteBackend) (table : string) (k : rawkey) : option bytes :=
  match SQLite.disk b !! table with
  | Some t => SQLite.rows t !! k
  | None => None
  end.

Definition sqlite_visible (b : SQLite.SQLiteBackend) (table : string) (k : rawkey) : option bytes :=
  match SQLite.db b with
  | Some conn =>
      match SQLite.work conn !! table with
      | Some t => SQLite.rows t !! k
      | None => None
      end
  | None => None
  end.

(** The tables of a SQLite file. *)
Definition sqlite_table (b : SQLite.SQLiteBackend) (table : string) : SQLite.table :=
  default {| SQLite.columns := []; SQLite.rows := ∅ |} (SQLite.disk b !! table).

Definition sqlite_has_table (b : SQLite.SQLiteBackend) (table : string) : bool :=
  match SQLite.disk b !! table with Some _ => true | None => false end.

(** The tables that the connection of a SQLite backend shows. *)
Definition sqlite_work_table (b : SQLite.SQLiteBackend) (table : string) : SQLite.table :=
  default {| SQLite.columns := []; SQLite.rows := ∅ |}
    (match SQLite.db b with Some conn => SQLite.work conn !! table | None => None end).

Definition sqlite_sees_table (b : SQLite.SQLiteBackend) (table : string) : bool :=
  match SQLite.db b with
  | Some conn => match SQLite.work conn !! table with Some _ => true | None => false end
  | None => false
  end.

Definition lmdb_committed (b : LMDB.LMDBBackend) (table : string) (k : rawkey) : option bytes :=
  LMDB.sub (LMDB.disk b) table !! k.

Section Observations.

Context {B : Type} `{!StorageBackend B} `{!BackendContract B}.
Variable transformers : TransformerStack.
Variable _COMPRESSORS_DICT : string -> option CompressorFactory.
Variable json_dumps : list string -> string.
Variable json_loads : string -> outcome (list string).

(** The fields of the cache object that reads and writes leave alone. *)
Definition same_configuration (c c' : @BlobCache B) : Prop :=
  compressor c' = compressor c /\ keyType c' = keyType c /\
  commitOnNOps c' = commitOnNOps c /\ compressorFactory c' = compressorFactory c.

(** The call on the data table that makes a write. *)
Definition write_op (w : write) : M B unit :=
  match w with
  | w_put k b => tbl_setitem "data" k b
  | w_del k => tbl_delitem "data" k
  end.

(** What the read path makes of stored bytes: the compressor, when there is
    one, then the stack. *)
Definition read_form (z : option Compressor) (b : bytes) : outcome pyobj :=
  match (match z with
         | Some z => process (codec z) (PyBytes b)
         | None => Ok (PyBytes b)
         end) with
  | Ok x => stack_process transformers x
  | Raise e => Raise e
  end.

(** What a new cache object of the class sees when it enters a file that
    durably holds the tables [m] and [d]: the rows [d] of the data table. *)
Definition fresh_cache_sees (b : B) (declared : PyType) (d : gmap rawkey bytes) : Prop :=
  forall c3 : @BlobCache B,
    backend c3 = reopen b -> keyType c3 = declared ->
    exists c4, enter transformers _COMPRESSORS_DICT json_dumps json_loads c3 = (c4, Ok tt) /\
               forall k, on_backend (tbl_getitem "data" k) c4 = (c4, Ok (d !! k)).

End Observations.


(** ** Sample collaborators and files, for concrete runs *)

Module Sample.

Definition utf8Transformer : Transformer :=
  {| id := "utf8";
     process := fun v => match v with
                         | PyBytes b => Ok (PyStr (decode_utf8 b))
                         | _ => Raise (TypeError "a bytes-like object is required")
                         end;
     unprocess := fun v => match v with
                           | PyStr s => Ok (PyBytes (encode_utf8 s))
                           | _ => Raise (TypeError "a str is required")
                           end |}.

(** A serializer that knows integers only: decimal digits are beside the
    point, so an integer is written as that many copies of a letter. *)
Definition tallySerializer : Transformer :=
  {| id := "tally";
     process := fun v => match v with
                         | PyStr s => Ok (PyInt (Z.of_nat (String.length s)))
                         | _ => Raise (TypeError "a str is required")
                         end;
     unprocess := fun v => match v with
                           | PyInt z => Ok (PyStr (string_of_list_ascii (repeat "i"%char (Z.to_nat z))))
                           | _ => Raise (TypeError "an int is required")
                           end |}.

(** A compressor that frames the data with one byte, which depends on the
    dictionary; data framed for one dictionary is refused under another. *)
Definition frame_byte (dictionary : option bytes) : byte :=
  match dictionary with
  | Some (t :: _) => t
  | _ => x00
  end.

Definition frame (dictionary : option bytes) : Compressor :=
  {| codec :=
       {| id := "frame";
          process := fun v => match v with
                              | PyBytes (t :: b) =>
                                  if bool_decide (t = frame_byte dictionary) then Ok (PyBytes b)
                                  else Raise (PyException "data framed for another dictionary")
                              | _ => Raise (PyException "not a frame")
                              end;
          unprocess := fun v => match v with
                                | PyBytes b => Ok (PyBytes (frame_byte dictionary :: b))
                                | _ => Raise (TypeError "a bytes-like object is required")
                                end |};
     supportsDicts := true |}.

Definition frame_factory : CompressorFactory :=
  {| factory_id := "frame"; build := frame |}.

Definition none_factory : CompressorFactory :=
  {| factory_id := "none";
     build := fun _ => {| codec := {| id := "none"; process := Ok; unprocess := Ok |};
                          supportsDicts := false |} |}.

Definition _COMPRESSORS_DICT (compressionId : string) : option CompressorFactory :=
  if String.eqb compressionId "none" then Some none_factory
  else if String.eqb compressionId "frame" then Some frame_factory
  else None.

(** A tuple of ids as text: every id is followed by a semicolon. *)
Definition json_dumps (ids : list string) : string :=
  fold_right (fun i s => i +:+ ";" +:+ s) "" ids.

Fixpoint split_ids (s current : string) : list string :=
  match s with
  | EmptyString => []
  | String c s' =>
      if Ascii.eqb c ";" then current :: split_ids s' ""
      else split_ids s' (current +:+ String c EmptyString)
  end.

Definition json_loads (s : string) : outcome (list string) := Ok (split_ids s "").

(** The caches of the runs below: a class, a backend object, the arguments of
    the constructor. *)
Definition StringCache_transformers : TransformerStack :=
  CacheMeta (Some []) [utf8Transformer].
Definition TallyCache_transformers : TransformerStack :=
  CacheMeta (Some StringCache_transformers) [tallySerializer].

Definition new_cache {B} `{!StorageBackend B} (base : B) (compressorFactory : compressor_argument)
    (commitOnNOps : Z) (keyType : option PyType) : @BlobCache B :=
  match init _COMPRESSORS_DICT base compressorFactory commitOnNOps keyType with
  | Ok c => c
  | Raise _ =>
      {| backend := base; compressorFactory := None; compressor := None; newCompressor := None;
         commitOnNOps := commitOnNOps; opsPending := 0; keyType := default Tstr keyType |}
  end.

Definition entered {B} `{!StorageBackend B} (transformers : TransformerStack)
    (c : @BlobCache B) : @BlobCache B :=
  state_of (enter transformers _COMPRESSORS_DICT json_dumps json_loads c).

Definition empty_sqlite_file : SQLite.SQLiteBackend := SQLite.of_path "cache.sqlite" ∅.
Definition empty_lmdb_file : LMDB.LMDBBackend :=
  LMDB.of_path "cache.mdb" {| LMDB.subdbs := ∅; LMDB.keyTypes := ∅ |}.

(** The backend object after the scope of a cache is left. *)
Definition closed {B} `{!StorageBackend B} (c : @BlobCache B) : B :=
  backend (state_of (exit c)).

(** A SQLite file written by a [StringCache] without compression: one
    assignment, then the scope is left. *)
Definition string_cache_file (keyType : option PyType) (key : pyobj) : SQLite.SQLiteBackend :=
  let ts := StringCache_transformers in
  closed (state_of (setitem ts key (PyStr "x")
                      (entered ts (new_cache empty_sqlite_file arg_None 1 keyType)))).

Definition str_keys_file : SQLite.SQLiteBackend :=
  Eval vm_compute in string_cache_file None (PyStr "a").
Definition int_keys_file : SQLite.SQLiteBackend :=
  Eval vm_compute in string_cache_file (Some Tint) (PyInt 1).
Definition bytes_keys_file : SQLite.SQLiteBackend :=
  Eval vm_compute in string_cache_file (Some Tbytes) (PyBytes [x01]).

(** The same on LMDB. *)
Definition lmdb_str_keys_file : LMDB.LMDBBackend :=
  Eval vm_compute in
    let ts := StringCache_transformers in
    closed (state_of (setitem ts (PyStr "a") (PyStr "x")
                        (entered ts (new_cache empty_lmdb_file arg_None 1 None)))).

(** A SQLite file written by a [StringCache] with the framing compressor, on
    which a dictionary was applied as [optimizeCompression] does. *)
Definition file_with_dictionary : SQLite.SQLiteBackend :=
  Eval vm_compute in
    let ts := StringCache_transformers in
    let c := entered ts (new_cache empty_sqlite_file (arg_name "frame") 1 None) in
    let c := state_of (setitem ts (PyStr "a") (PyStr "x") c) in
    closed (state_of (optimizeCompression (Ok [x07]) c)).

End Sample.

(** ** Iteration over a table and over a cache *)

(** The iteration methods of a table: [__len__], [keys], [values] and
    [items], the last three read to the end. *)
Class TableIteration (B : Type) := {
  tbl_len : string -> M B Z;
  tbl_keys : string -> M B (list rawkey);
  tbl_values : string -> M B (list bytes);
  tbl_items : string -> M B (list (rawkey * bytes))
}.

Global Instance SQLite_iteration : TableIteration SQLite.SQLiteBackend := {
  tbl_len := SQLite.len_;
  tbl_keys := SQLite.keys;
  tbl_values := SQLite.values;
  tbl_items := SQLite.items
}.

Global Instance LMDB_iteration : TableIteration LMDB.LMDBBackend := {
  tbl_len := LMDB.len_;
  tbl_keys := LMDB.keys;
  tbl_values := LMDB.values;
  tbl_items := LMDB.items
}.

(** The Python object of a key that a table yields. *)
Definition of_rawkey (k : rawkey) : pyobj :=
  match k with
  | KInt z => PyInt z
  | KStr s => PyStr s
  | KBytes b => PyBytes b
  end.

(** A generator: the computation that starts it gives the computations of
    its elements, which run one at a time, as the consumer asks for them. *)
Definition generator (S A : Type) : Type := M S (list (M S A)).

(** A generator over what a table has yielded. *)
Definition iterate {S A} (m : M S (list A)) : generator S A :=
  l <- m ;; ret (ret <$> l).

(** [for x in g: yield body(x)]. *)
Definition for_in {S A C} (g : generator S A) (body : A -> M S C) : generator S C :=
  elements <- g ;; ret ((fun element => x <- element ;; body x) <$> elements).

(** A generator read to its end, as [list(g)] does: all its elements, or the
    exception of the first element that raises. *)
Fixpoint run_all {S A} (elements : list (M S A)) : M S (list A) :=
  match elements with
  | [] => ret []
  | element :: rest =>
      x <- element ;;
      xs <- run_all rest ;;
      ret (x :: xs)
  end.

Definition drain {S A} (g : generator S A) : M S (list A) :=
  elements <- g ;; run_all elements.

Section Iteration.

Context {B : Type} `{!StorageBackend B} `{!TableIteration B}.
Variable transformers : TransformerStack.

(** [BlobCache.__len__]. *)
Definition len_ : M (@BlobCache B) Z :=
  on_backend (tbl_len "data").

(** [BlobCache.__iter__] and [BlobCache.keys]. *)
Definition iter_ : generator (@BlobCache B) pyobj :=
  for_in (iterate (on_backend (tbl_keys "data")))
    (fun key =>
       c <- get_state ;;
       match keyType c with
       | TAny => lift_outcome (stack_process transformers (of_rawkey key))
       | _ => ret (of_rawkey key)
       end).

Definition keys : generator (@BlobCache B) pyobj := iter_.

Definition decompressedValuesBytes : generator (@BlobCache B) pyobj :=
  for_in (iterate (on_backend (tbl_values "data")))
    (fun val =>
       c <- get_state ;;
       match compressor c with
       | Some z => lift_outcome (process (codec z) (PyBytes val))
       | None => ret (PyBytes val)
       end).

Definition values : generator (@BlobCache B) pyobj :=
  for_in decompressedValuesBytes
    (fun el => lift_outcome (stack_process transformers el)).

Definition decompressedItemsBytes : generator (@BlobCache B) (rawkey * pyobj) :=
  for_in (iterate (on_backend (tbl_items "data")))
    (fun kv =>
       c <- get_state ;;
       val <- match compressor c with
              | Some z => lift_outcome (process (codec z) (PyBytes kv.2))
              | None => ret (PyBytes kv.2)
              end ;;
       ret (kv.1, val)).

Definition items : generator (@BlobCache B) (pyobj * pyobj) :=
  for_in decompressedItemsBytes
    (fun kv =>
       c <- get_state ;;
       key <- match keyType c with
              | TAny => lift_outcome (stack_process transformers (of_rawkey kv.1))
              | _ => ret (of_rawkey kv.1)
              end ;;
       val <- lift_outcome (stack_process transformers kv.2) ;;
       ret (key, val)).

End Iteration.

(** ** States of the backends in which a table can be used *)

(** An entered SQLite backend on which the variable [var] is mapped to a
    table that exists, with the rows [r]. *)
Definition SQLite_table_open (b : SQLite.SQLiteBackend) (var : string)
    (r : gmap rawkey bytes) : Prop :=
  exists conn n cols,
    SQLite.db b = Some conn /\ SQLite.tables b !! var = Some n /\
    SQLite.work conn !! n = Some {| SQLite.columns := cols; SQLite.rows := r |}.

(** An entered LMDB backend outside of any scope of its shared write
    transaction. *)
Definition LMDB_idle (b : LMDB.LMDBBackend) : Prop :=
  LMDB.env b = true /\
  LMDB.currentWriteTx b = Some {| LMDB.tx := None; LMDB.refCount := 0 |}.

(** On such a backend, the variable [var] is mapped to the table [n], whose
    key codec is known. *)
Definition LMDB_table_open (b : LMDB.LMDBBackend) (var n : string) : Prop :=
  LMDB_idle b /\
  exists km, LMDB.tables b !! var = Some {| LMDB.name := n; LMDB.keyMapper := Some km |}.

(** ** Operations that read and write the data table *)

Definition is_data_operation (o : operation) : bool :=
  match o with
  | op_getitem _ | op_contains _ | op_setitem _ _ | op_delitem _
  | op_commit | op_vacuum | op_optimize | op_populate _ => true
  | _ => false
  end.

(** The writes that the connection of a SQLite cache has not committed are
    counted by the cache. *)
Definition SQLite_pending_counted (c : @BlobCache SQLite.SQLiteBackend) : Prop :=
  exists conn, SQLite.db (backend c) = Some conn /\
               (SQLite.in_tx conn = true -> opsPending c <> 0).

(** A SQLite backend on which [applyCompressionDictionary] can start: no
    transaction is open and [recompress] is registered. *)
Definition SQLite_ready_to_recompress (b : SQLite.SQLiteBackend) : Prop :=
  exists conn, SQLite.db b = Some conn /\ SQLite.in_tx conn = false /\
               "recompress" ∈ SQLite.funcs conn.

(** What the cache relies on when it iterates over the data table. *)
Class IterationContract (B : Type) `{!StorageBackend B} `{!TableIteration B}
    `{!BackendContract B} := {
  contract_iteration : forall b m kt d, live b m kt d ->
    exists rs,
      tbl_items "data" b = (b, Ok rs) /\
      tbl_keys "data" b = (b, Ok rs.*1) /\
      tbl_values "data" b = (b, Ok rs.*2) /\
      tbl_len "data" b = (b, Ok (Z.of_nat (length rs))) /\
      NoDup rs.*1 /\
      (forall k v, (k, v) ∈ rs <-> d !! k = Some v)
}.

(** ** Caches for concrete runs of the properties below *)

Module Fixture.

Definition ts : TransformerStack := Sample.StringCache_transformers.

(** The backend of an entered [StringCache] without compression on a SQLite
    file, after the assignments [c["a"] = "x"] and [c["e"] = ""] and a
    commit; the second value is stored as empty bytes. *)
Definition plain_sqlite_backend : SQLite.SQLiteBackend :=
  Eval vm_compute in
    let c := Sample.entered ts (Sample.new_cache Sample.empty_sqlite_file arg_None 1 None) in
    let c := state_of (setitem ts (PyStr "a") (PyStr "x") c) in
    let c := state_of (setitem ts (PyStr "e") (PyStr "") c) in
    backend (state_of (commit c)).

(** The cache object on it, for a value of [commitOnNOps]. *)
Definition plain_sqlite_cache (commitOnNOps : Z) : @BlobCache SQLite.SQLiteBackend :=
  {| backend := plain_sqlite_backend; compressorFactory := None; compressor := None;
     newCompressor := None; commitOnNOps := commitOnNOps; opsPending := 0; keyType := Tstr |}.

(** The same with the framing compressor and one assignment. *)
Definition framed_sqlite_backend : SQLite.SQLiteBackend :=
  Eval vm_compute in
    let c := Sample.entered ts
               (Sample.new_cache Sample.empty_sqlite_file (arg_name "frame") 1 None) in
    let c := state_of (setitem ts (PyStr "a") (PyStr "x") c) in
    backend (state_of (commit c)).

Definition framed_sqlite_cache : @BlobCache SQLite.SQLiteBackend :=
  {| backend := framed_sqlite_backend; compressorFactory := Some Sample.frame_factory;
     compressor := Some (Sample.frame None); newCompressor := None;
     commitOnNOps := 1; opsPending := 0; keyType := Tstr |}.

(** The backend of an entered [StringCache] without compression on an LMDB
    environment, after the same two assignments. *)
Definition plain_lmdb_backend : LMDB.LMDBBackend :=
  Eval vm_compute in
    let c := Sample.entered ts (Sample.new_cache Sample.empty_lmdb_file arg_None 1 None) in
    let c := state_of (setitem ts (PyStr "a") (PyStr "x") c) in
    let c := state_of (setitem ts (PyStr "e") (PyStr "") c) in
    backend (state_of (commit c)).

Definition plain_lmdb_cache : @BlobCache LMDB.LMDBBackend :=
  {| backend := plain_lmdb_backend; compressorFactory := None; compressor := None;
     newCompressor := None; commitOnNOps := 1; opsPending := 0; keyType := Tstr |}.

(** The rows of the two tables of these backends. *)
Definition sqlite_metadata (b : SQLite.SQLiteBackend) : gmap rawkey bytes :=
  SQLite.rows (sqlite_work_table b "metadata").
Definition sqlite_data (b : SQLite.SQLiteBackend) : gmap rawkey bytes :=
  SQLite.rows (sqlite_work_table b "cache").
Definition lmdb_metadata (b : LMDB.LMDBBackend) : gmap rawkey bytes :=
  LMDB.sub (LMDB.disk b) "metadata".
Definition lmdb_data (b : LMDB.LMDBBackend) : gmap rawkey bytes :=
  LMDB.sub (LMDB.disk b) "cache".

(** The connection of the SQLite backend. *)
Definition sqlite_connection (b : SQLite.SQLiteBackend) : SQLite.connection :=
  default {| SQLite.work := ∅; SQLite.in_tx := false; SQLite.funcs := [] |} (SQLite.db b).

(** The two backends with one more variable, mapped to a table that does
    not exist. *)
Definition sqlite_backend_with_a_new_variable : SQLite.SQLiteBackend :=
  Eval vm_compute in state_of (SQLite.map_table "more" "extra" plain_sqlite_backend).

Definition lmdb_backend_with_a_new_variable : LMDB.LMDBBackend :=
  Eval vm_compute in state_of (LMDB.map_table "more" "extra" plain_lmdb_backend).

(** The tables of a SQLite file whose data table was dropped by another
    program, and the table [metadata] among them. *)
Definition tables_without_the_data_table : gmap string SQLite.table :=
  Eval vm_compute in delete "cache" (SQLite.disk Sample.str_keys_file).

Definition metadata_table : SQLite.table :=
  Eval vm_compute in
    default {| SQLite.columns := []; SQLite.rows := ∅ |}
      (tables_without_the_data_table !! "metadata").

End Fixture.

(** ** Reasoning about computations *)

Lemma bind_run {S A C} (m : M S A) (k : A -> M S C) s :
  bind m k s = match m s with
               | (s', Ok a) => k a s'
               | (s', Raise e) => (s', Raise e)
               end.
Proof. reflexivity. Qed.

Lemma bind_ok {S A C} (m : M S A) (k : A -> M S C) s s' a :
  m s = (s', Ok a) -> bind m k s = k a s'.
Proof. intros E. unfold bind. by rewrite E. Qed.

Lemma bind_raise {S A C} (m : M S A) (k : A -> M S C) s s' e :
  m s = (s', Raise e) -> bind m k s = (s', Raise e).
Proof. intros E. unfold bind. by rewrite E. Qed.

Lemma bind_assoc {S A C D} (m : M S A) (k : A -> M S C) (h : C -> M S D) s :
  bind (bind m k) h s = bind m (fun a => bind (k a) h) s.
Proof. unfold bind. by destruct (m s) as [s' [a|e]]. Qed.

Lemma bind_ext {S A C} (m : M S A) (k k' : A -> M S C) s :
  (forall a s', k a s' = k' a s') -> bind m k s = bind m k' s.
Proof. intros H. unfold bind. destruct (m s) as [s' [a|e]]; [apply H | reflexivity]. Qed.

Lemma bind_ok_inv {S A C} (m : M S A) (k : A -> M S C) s s' r :
  bind m k s = (s', Ok r) -> exists s1 a, m s = (s1, Ok a) /\ k a s1 = (s', Ok r).
Proof.
  unfold bind. destruct (m s) as [s1 [a|e]]; [eauto | discriminate].
Qed.

(** A run is its final state and its result. *)
Lemma run_eta {S A} (m : M S A) s r :
  result_of (m s) = r -> m s = (state_of (m s), r).
Proof. intros <-. by destruct (m s). Qed.

Lemma preserves_ret {S A} (P : S -> Prop) (a : A) : preserves P (ret a).
Proof. by intros s. Qed.

Lemma preserves_raise {S A} (P : S -> Prop) e : preserves P (@raise S A e).
Proof. by intros s. Qed.

Lemma preserves_lift_outcome {S A} (P : S -> Prop) (o : outcome A) :
  preserves P (@lift_outcome S A o).
Proof. by intros s. Qed.

Lemma preserves_get_state {S} (P : S -> Prop) : preserves P get_state.
Proof. by intros s. Qed.

Lemma preserves_modify {S} (P : S -> Prop) (f : S -> S) :
  (forall s, P s -> P (f s)) -> preserves P (modify f).
Proof. intros H s. apply H. Qed.

Lemma preserves_bind {S A C} (P : S -> Prop) (m : M S A) (k : A -> M S C) :
  preserves P m -> (forall a, preserves P (k a)) -> preserves P (bind m k).
Proof.
  intros Hm Hk s Hs. unfold bind, state_of.
  specialize (Hm s Hs). unfold state_of in Hm.
  destruct (m s) as [s' [a|e]]; simpl in *; [by apply Hk | done].
Qed.

(** When the state read by [get_state] is used, the property is known of it. *)
Lemma preserves_bind_get_state {S C} (P : S -> Prop) (k : S -> M S C) :
  (forall s, P s -> preserves P (k s)) -> preserves P (bind get_state k).
Proof. intros Hk s Hs. unfold bind, get_state. simpl. by apply Hk. Qed.

Create HintDb preserves discriminated.
#[export] Hint Resolve preserves_ret preserves_raise preserves_lift_outcome
  preserves_get_state : preserves.

(** ** The counter of pending operations *)

Section Counter.

Context {B : Type} `{!StorageBackend B}.
Variable transformers : TransformerStack.
Variable _COMPRESSORS_DICT : string -> option CompressorFactory.
Variable json_dumps : list string -> string.
Variable json_loads : string -> outcome (list string).

Variable N : Z.
Hypothesis N_positive : 1 <= N.

Local Abbreviation P := (@counter_in_range B N).

Lemma preserves_on_backend {A} (m : M B A) : preserves P (on_backend m).
Proof.
  intros c Hc. unfold on_backend, zoom, state_of.
  destruct (m (backend c)) as [b' r]. exact Hc.
Qed.

Lemma preserves_set_compressor z : forall c, P c -> P (set_compressor z c).
Proof. by intros c. Qed.

Lemma preserves_set_newCompressor z : forall c, P c -> P (set_newCompressor z c).
Proof. by intros c. Qed.

Lemma preserves_set_compressorFactory f : forall c, P c -> P (set_compressorFactory f c).
Proof. by intros c. Qed.

Lemma preserves_commit : preserves P commit.
Proof.
  unfold commit. apply preserves_bind; [apply preserves_on_backend|].
  intros _. apply preserves_modify. intros c [HN Hr]. split; simpl; [done | lia].
Qed.

Lemma preserves_opCommit : preserves P opCommit.
Proof.
  intros c [HN Hr]. unfold opCommit, willCommit, state_of.
  rewrite !bind_run. unfold get_state.
  destruct (Z.eqb_spec (opsPending c) 0) as [E0|E0].
  - cbn. split; simpl; [done | lia].
  - destruct (Z.eqb_spec (commitOnNOps c) 0) as [EN|EN]; [lia|].
    unfold ret at 1. cbn iota beta.
    destruct (Z.eqb_spec (opsPending c mod commitOnNOps c) 0) as [Em|Em].
    + rewrite bind_run.
      pose proof (preserves_commit c (conj HN Hr)) as Hc. unfold state_of in Hc.
      destruct (commit c) as [c' [[]|e]]; exact Hc.
    + cbn. split; simpl; [done|].
      assert (opsPending c <> N).
      { intros E. apply Em. rewrite E, HN. apply Z.mod_same. lia. }
      lia.
Qed.

Hint Resolve preserves_on_backend preserves_commit preserves_opCommit : preserves.

(** Splits a computation along its binds and branches. *)
Ltac step_preserves :=
  first
    [ progress eauto with preserves
    | apply preserves_bind; [| intros ?]
    | apply preserves_modify; intros ? ?;
      first [ exact (preserves_set_compressor _ _ ltac:(eassumption))
            | exact (preserves_set_newCompressor _ _ ltac:(eassumption))
            | exact (preserves_set_compressorFactory _ _ ltac:(eassumption)) ]
    | match goal with
      | |- preserves _ (match ?x with _ => _ end) => destruct x
      | |- preserves _ (if ?x then _ else _) => destruct x
      end ].

Ltac solve_preserves := repeat step_preserves.

Lemma preserves_encode_key key : preserves P (encode_key transformers key).
Proof. unfold encode_key. solve_preserves. Qed.

Hint Resolve preserves_encode_key : preserves.

Lemma preserves_getitem key : preserves P (getitem transformers key).
Proof. unfold getitem. solve_preserves. Qed.

Lemma preserves_contains key : preserves P (contains transformers key).
Proof. unfold contains. pose proof (preserves_getitem key). solve_preserves. Qed.

Lemma preserves_delitem key : preserves P (delitem transformers key).
Proof. unfold delitem. solve_preserves. Qed.

Lemma preserves_setitem key val : preserves P (setitem transformers key val).
Proof. unfold setitem. pose proof (preserves_delitem key). solve_preserves. Qed.

Lemma preserves_vacuum : preserves P vacuum.
Proof. unfold vacuum. solve_preserves. Qed.

Lemma preserves_optimize : preserves P optimize.
Proof. unfold optimize. solve_preserves. Qed.

Hint Resolve preserves_optimize : preserves.

Lemma preserves_createDataTable : preserves P createDataTable.
Proof. unfold createDataTable. solve_preserves. Qed.

Hint Resolve preserves_createDataTable : preserves.

Lemma preserves_empty : preserves P empty.
Proof. unfold empty. solve_preserves. Qed.

Lemma preserves_populate target : preserves P (populate transformers target).
Proof.
  induction target as [|[k v] rest IH]; simpl; [eauto with preserves|].
  apply preserves_bind; [apply preserves_setitem | by intros _].
Qed.

Lemma preserves_recreateCompressorWithArgs d : preserves P (recreateCompressorWithArgs d).
Proof.
  unfold recreateCompressorWithArgs. apply preserves_modify.
  intros c Hc. by destruct (compressorFactory c).
Qed.

Hint Resolve preserves_recreateCompressorWithArgs : preserves.

Lemma preserves_applyCompressionDictionary d : preserves P (applyCompressionDictionary d).
Proof.
  unfold applyCompressionDictionary, compressionDictionary. solve_preserves.
Qed.

Lemma preserves_optimizeCompression d : preserves P (optimizeCompression d).
Proof.
  unfold optimizeCompression. pose proof (preserves_applyCompressionDictionary).
  solve_preserves.
Qed.

Lemma preserves_enter :
  preserves P (enter transformers _COMPRESSORS_DICT json_dumps json_loads).
Proof.
  unfold enter, isInitialized, getCacheTableKeyType. solve_preserves.
Qed.

Lemma preserves_exit : preserves P exit.
Proof. unfold exit. solve_preserves. Qed.

Lemma preserves_run_operation o :
  preserves P (run_operation transformers _COMPRESSORS_DICT json_dumps json_loads o).
Proof.
  destruct o; simpl;
    eauto using preserves_setitem, preserves_delitem, preserves_vacuum,
      preserves_empty, preserves_populate, preserves_applyCompressionDictionary,
      preserves_optimizeCompression, preserves_enter, preserves_exit with preserves.
  - pose proof (preserves_getitem key). solve_preserves.
  - pose proof (preserves_contains key). solve_preserves.
Qed.

Lemma run_operations_in_range ops : forall c,
  P c -> P (run_operations transformers _COMPRESSORS_DICT json_dumps json_loads ops c).
Proof.
  induction ops as [|o ops IH]; intros c Hc; simpl; [done|].
  apply IH. by apply preserves_run_operation.
Qed.

End Counter.

Section CounterClaims.

Context {B : Type} `{!StorageBackend B}.
Variable transformers : TransformerStack.
Variable _COMPRESSORS_DICT : string -> option CompressorFactory.
Variable json_dumps : list string -> string.
Variable json_loads : string -> outcome (list string).

(** What [opCommit] does, by the value of the counter: it counts the
    operation, or it commits and does not count it. *)
Lemma opCommit_counts (c : @BlobCache B) :
  commitOnNOps c <> 0 ->
  opsPending c = 0 \/ opsPending c mod commitOnNOps c <> 0 ->
  opCommit c = (set_opsPending (opsPending c + 1) c, Ok true).
Proof.
  intros HN H. unfold opCommit, willCommit. rewrite !bind_run. unfold get_state.
  destruct (Z.eqb_spec (opsPending c) 0) as [E0|E0]; [reflexivity|].
  destruct (Z.eqb_spec (commitOnNOps c) 0) as [EN|EN]; [done|].
  unfold ret at 1. cbn iota beta.
  destruct (Z.eqb_spec (opsPending c mod commitOnNOps c) 0) as [Em|Em]; [|reflexivity].
  destruct H; done.
Qed.

Lemma opCommit_commits (c : @BlobCache B) :
  commitOnNOps c <> 0 ->
  opsPending c <> 0 -> opsPending c mod commitOnNOps c = 0 ->
  opCommit c = (commit ;;; ret true) c.
Proof.
  intros HN H0 Hm. unfold opCommit, willCommit. rewrite !bind_run. unfold get_state.
  destruct (Z.eqb_spec (opsPending c) 0) as [E0|E0]; [done|].
  destruct (Z.eqb_spec (commitOnNOps c) 0) as [EN|EN]; [done|].
  unfold ret at 1. cbn iota beta.
  destruct (Z.eqb_spec (opsPending c mod commitOnNOps c) 0) as [Em|Em]; [|done].
  reflexivity.
Qed.

Lemma commit_run (c : @BlobCache B) :
  commit c = match be_commit (backend c) with
             | (b', Ok _) => (set_opsPending 0 (set_backend b' c), Ok tt)
             | (b', Raise e) => (set_backend b' c, Raise e)
             end.
Proof.
  unfold commit. rewrite bind_run. unfold on_backend, zoom.
  destruct (be_commit (backend c)) as [b' [[]|e]]; reflexivity.
Qed.

Lemma commit_resets (c : @BlobCache B) :
  result_of (commit c) = Ok tt -> opsPending (state_of (commit c)) = 0.
Proof.
  rewrite commit_run. destruct (be_commit (backend c)) as [b' [[]|e]]; [done|].
  intros H. discriminate H.
Qed.

Lemma commit_returns_as_backend (c : @BlobCache B) :
  is_ok (result_of (commit c)) = is_ok (result_of (be_commit (backend c))).
Proof.
  rewrite commit_run. by destruct (be_commit (backend c)) as [b' [[]|e]].
Qed.

Lemma opCommit_resets (c : @BlobCache B) :
  commitOnNOps c <> 0 ->
  opsPending c <> 0 -> opsPending c mod commitOnNOps c = 0 ->
  result_of (opCommit c) = Ok true -> opsPending (state_of (opCommit c)) = 0.
Proof.
  intros HN H0 Hm. rewrite opCommit_commits by done. rewrite bind_run.
  pose proof (commit_resets c) as Hc.
  destruct (commit c) as [c' [[]|e]]; simpl in *; [auto | discriminate].
Qed.

Lemma maintenance_resets (after : M B unit) (c : @BlobCache B) :
  let m := (c <- get_state ;; (if opsPending c =? 0 then ret tt else commit) ;;; on_backend after) in
  result_of (m c) = Ok tt -> opsPending (state_of (m c)) = 0.
Proof.
  intros m. subst m. rewrite !bind_run. unfold get_state.
  destruct (Z.eqb_spec (opsPending c) 0) as [E0|E0].
  - rewrite bind_run. unfold ret, on_backend, zoom.
    destruct (after (backend c)) as [b' r]. by destruct r.
  - rewrite bind_run. pose proof (commit_resets c) as Hc.
    destruct (commit c) as [c' [[]|e]]; simpl in *; [|discriminate].
    unfold on_backend, zoom. destruct (after (backend c')) as [b' r]; simpl.
    intros _. by apply Hc.
Qed.

Lemma vacuum_resets (c : @BlobCache B) :
  result_of (vacuum c) = Ok tt -> opsPending (state_of (vacuum c)) = 0.
Proof. apply (maintenance_resets be_vacuum). Qed.

Lemma optimize_resets (c : @BlobCache B) :
  result_of (optimize c) = Ok tt -> opsPending (state_of (optimize c)) = 0.
Proof. apply (maintenance_resets be_optimize). Qed.

Lemma empty_resets (c : @BlobCache B) :
  result_of (empty c) = Ok tt -> opsPending (state_of (empty c)) = 0.
Proof.
  unfold empty. rewrite !bind_run.
  destruct (on_backend (tbl_drop "data") c) as [c1 [[]|e]]; [|discriminate].
  rewrite bind_run.
  destruct (createDataTable c1) as [c2 [[]|e]]; [|discriminate].
  apply commit_resets.
Qed.

(** C10: from a freshly constructed cache with [commitOnNOps = N >= 1], after
    any sequence of operations (whether they return or raise) the counter
    [opsPending] is between 0 and [N] inclusive; and every commit of the
    cache that returns (the method [commit], the commit that [opCommit]
    makes when [willCommit] holds, and [vacuum], [optimize] and [empty])
    leaves the counter at 0. The method [commit] returns exactly when the
    commit of the backend does. *)
Theorem opsPending_in_range_and_reset_by_commit :
  forall (N : Z) (c : @BlobCache B) (ops : list operation),
    1 <= N -> commitOnNOps c = N -> opsPending c = 0 ->
    let c' := run_operations transformers _COMPRESSORS_DICT json_dumps json_loads ops c in
    0 <= opsPending c' <= N /\
    (result_of (commit c') = Ok tt -> opsPending (state_of (commit c')) = 0) /\
    is_ok (result_of (commit c')) = is_ok (result_of (be_commit (backend c'))) /\
    (opsPending c' <> 0 -> opsPending c' mod N = 0 -> result_of (opCommit c') = Ok true ->
     opsPending (state_of (opCommit c')) = 0) /\
    (result_of (vacuum c') = Ok tt -> opsPending (state_of (vacuum c')) = 0) /\
    (result_of (optimize c') = Ok tt -> opsPending (state_of (optimize c')) = 0) /\
    (result_of (empty c') = Ok tt -> opsPending (state_of (empty c')) = 0).
Proof.
  intros N c ops HN Hc H0 c'.
  assert (counter_in_range N c') as [HN' Hr].
  { apply run_operations_in_range; [done|]. split; [done | lia]. }
  repeat split; try apply Hr.
  - apply commit_resets.
  - apply commit_returns_as_backend.
  - intros Hp Hm. apply opCommit_resets; [lia | done | by rewrite HN'].
  - apply vacuum_resets.
  - apply optimize_resets.
  - apply empty_resets.
Qed.

End CounterClaims.

Lemma opsPending_in_range_and_reset_by_commit_witness :
  let c := Sample.entered Sample.StringCache_transformers
             (Sample.new_cache Sample.empty_sqlite_file arg_None 2 None) in
  let ops := [op_setitem (PyStr "a") (PyStr "x"); op_setitem (PyStr "b") (PyStr "y");
              op_delitem (PyStr "a"); op_getitem (PyStr "b"); op_vacuum;
              op_setitem (PyStr "c") (PyStr "z")] in
  (1 <= 2 /\ commitOnNOps c = 2 /\ opsPending c = 0) /\
  let c' := run_operations Sample.StringCache_transformers Sample._COMPRESSORS_DICT
              Sample.json_dumps Sample.json_loads ops c in
  0 <= opsPending c' <= 2 /\
  (result_of (commit c') = Ok tt -> opsPending (state_of (commit c')) = 0) /\
  is_ok (result_of (commit c')) = is_ok (result_of (be_commit (backend c'))) /\
  (opsPending c' <> 0 -> opsPending c' mod 2 = 0 -> result_of (opCommit c') = Ok true ->
   opsPending (state_of (opCommit c')) = 0) /\
  (result_of (vacuum c') = Ok tt -> opsPending (state_of (vacuum c')) = 0) /\
  (result_of (optimize c') = Ok tt -> opsPending (state_of (optimize c')) = 0) /\
  (result_of (empty c') = Ok tt -> opsPending (state_of (empty c')) = 0).
Proof.
  intros c ops. split.
  - split; [lia | split; vm_compute; reflexivity].
  - apply (opsPending_in_range_and_reset_by_commit Sample.StringCache_transformers
             Sample._COMPRESSORS_DICT Sample.json_dumps Sample.json_loads 2 c ops);
      [lia | vm_compute; reflexivity | vm_compute; reflexivity].
Defined.

(** C2, on the code: a cache with [commitOnNOps = 1] on an empty SQLite file.
    The first assignment brings the counter to 1 and commits nothing: the row
    is visible through the connection and absent from the file. The second
    assignment commits, and leaves the counter at 0 instead of counting
    itself. *)
Theorem opCommit_commits_one_operation_late :
  let ts := Sample.StringCache_transformers in
  let c := Sample.entered ts (Sample.new_cache Sample.empty_sqlite_file arg_None 1 None) in
  let c1 := state_of (setitem ts (PyStr "a") (PyStr "x") c) in
  let c2 := state_of (setitem ts (PyStr "b") (PyStr "y") c1) in
  (commitOnNOps c = 1 /\ opsPending c = 0) /\
  (result_of (setitem ts (PyStr "a") (PyStr "x") c) = Ok tt /\
   opsPending c1 = 1 /\
   sqlite_visible (backend c1) "cache" (KStr "a") = Some (encode_utf8 "x") /\
   sqlite_committed (backend c1) "cache" (KStr "a") = None) /\
  (result_of (setitem ts (PyStr "b") (PyStr "y") c1) = Ok tt /\
   opsPending c2 = 0 /\
   sqlite_committed (backend c2) "cache" (KStr "a") = Some (encode_utf8 "x") /\
   sqlite_committed (backend c2) "cache" (KStr "b") = Some (encode_utf8 "y")).
Proof. vm_compute. repeat split. Qed.

(** ** [__contains__] and [__getitem__] *)

Section Contains.

Context {B : Type} `{!StorageBackend B}.
Variable transformers : TransformerStack.

Lemma contains_run (c : @BlobCache B) key :
  contains transformers key c =
  (state_of (getitem transformers key c),
   match result_of (getitem transformers key c) with
   | Ok v => Ok (negb (is_None v))
   | Raise e => Raise e
   end).
Proof.
  unfold contains. rewrite bind_run.
  by destruct (getitem transformers key c) as [c' [v|e]].
Qed.

Lemma encode_key_state (c : @BlobCache B) key :
  state_of (encode_key transformers key c) = c.
Proof.
  unfold encode_key, state_of. rewrite !bind_run. unfold get_state.
  destruct (keyType c); simpl;
    try (destruct (stack_unprocess transformers key); simpl; try reflexivity);
    unfold lift_outcome; reflexivity.
Qed.

Lemma encode_key_run (c : @BlobCache B) key k :
  result_of (encode_key transformers key c) = Ok k ->
  encode_key transformers key c = (c, Ok k).
Proof. intros H. rewrite (run_eta _ _ _ H). by rewrite encode_key_state. Qed.

Lemma getitem_falsy (c c' : @BlobCache B) key k raw :
  encode_key transformers key c = (c, Ok k) ->
  on_backend (tbl_getitem "data" k) c = (c', Ok raw) ->
  truthy raw = false ->
  getitem transformers key c = (c', Ok PyNone).
Proof.
  intros Hk Hg Hraw. unfold getitem.
  rewrite (bind_ok _ _ _ _ _ Hk), (bind_ok _ _ _ _ _ Hg), Hraw. reflexivity.
Qed.

(** C9: [key in cache] is [cache[key] is not None]: it returns (or raises) as
    the lookup does, and is true exactly when the lookup returns something
    other than [None]. So when the stored bytes of a key are empty, as when
    the key is absent, the lookup returns [None] and [in] is false. *)
Theorem contains_is_getitem_not_None :
  forall (c : @BlobCache B) (key : pyobj),
    contains transformers key c =
      (state_of (getitem transformers key c),
       match result_of (getitem transformers key c) with
       | Ok v => Ok (negb (is_None v))
       | Raise e => Raise e
       end) /\
    (forall v c', getitem transformers key c = (c', Ok v) ->
       contains transformers key c = (c', Ok true) <-> v <> PyNone) /\
    (forall k c' raw,
       encode_key transformers key c = (c, Ok k) ->
       on_backend (tbl_getitem "data" k) c = (c', Ok raw) ->
       raw = Some [] \/ raw = None ->
       getitem transformers key c = (c', Ok PyNone) /\
       contains transformers key c = (c', Ok false)).
Proof.
  intros c key. split; [apply contains_run|]. split.
  - intros v c' Hg. rewrite contains_run, Hg. simpl. destruct v; simpl; split;
      intros H; try done; try (injection H as H; discriminate).
  - intros k c' raw Hk Hg Hraw.
    assert (getitem transformers key c = (c', Ok PyNone)) as E.
    { eapply getitem_falsy; eauto. by destruct Hraw as [-> | ->]. }
    split; [exact E|]. rewrite contains_run, E. reflexivity.
Qed.

End Contains.

Lemma contains_is_getitem_not_None_witness :
  let ts := Sample.StringCache_transformers in
  let c0 := Sample.entered ts (Sample.new_cache Sample.empty_sqlite_file arg_None 1 None) in
  let c := state_of (setitem ts (PyStr "a") (PyStr "") c0) in
  let stored k := result_of (on_backend (tbl_getitem "data" k) c) in
  (result_of (encode_key ts (PyStr "a") c) = Ok (KStr "a") /\ stored (KStr "a") = Ok (Some []) /\
   result_of (encode_key ts (PyStr "b") c) = Ok (KStr "b") /\ stored (KStr "b") = Ok None) /\
  (result_of (getitem ts (PyStr "a") c) = Ok PyNone /\
   result_of (contains ts (PyStr "a") c) = Ok false) /\
  (result_of (getitem ts (PyStr "b") c) = Ok PyNone /\
   result_of (contains ts (PyStr "b") c) = Ok false).
Proof.
  intros ts c0 c stored.
  pose proof (encode_key_run ts c) as Henc.
  assert (result_of (encode_key ts (PyStr "a") c) = Ok (KStr "a")) as Ha by (vm_compute; reflexivity).
  assert (stored (KStr "a") = Ok (Some [])) as Hga by (vm_compute; reflexivity).
  assert (result_of (encode_key ts (PyStr "b") c) = Ok (KStr "b")) as Hb by (vm_compute; reflexivity).
  assert (stored (KStr "b") = Ok None) as Hgb by (vm_compute; reflexivity).
  split; [exact (conj Ha (conj Hga (conj Hb Hgb)))|]. split.
  - destruct (proj2 (proj2 (contains_is_getitem_not_None ts c (PyStr "a")))
                (KStr "a") _ (Some []) (Henc _ _ Ha) (run_eta _ _ _ Hga) (or_introl eq_refl))
      as [-> ->]. split; reflexivity.
  - destruct (proj2 (proj2 (contains_is_getitem_not_None ts c (PyStr "b")))
                (KStr "b") _ None (Henc _ _ Hb) (run_eta _ _ _ Hgb) (or_intror eq_refl))
      as [-> ->]. split; reflexivity.
Defined.

(** ** The SQLite backend keeps the contract *)

Section SQLiteContract.

Import SQLite.

Lemma SQLite_contract_enter b m kt d :
  SQLite_at_rest b m kt d ->
  exists b', (be_enter ;;; be_map "cache" "data" ;;; be_map "metadata" "metadata") b = (b', Ok tt)
             /\ SQLite_live b' m kt d /\ (is_Some (path b) -> is_Some (path b')).
Proof.
  destruct b as [p o dk tb]. unfold SQLite_at_rest. simpl.
  assert (forall tb : gmap string string,
            <["metadata" := "metadata"]> (<["data" := "cache"]> tb) !! "data" = Some "cache") as E1.
  { intros t. by rewrite lookup_insert_ne, lookup_insert_eq. }
  assert (forall tb : gmap string string,
            <["metadata" := "metadata"]> (<["data" := "cache"]> tb) !! "metadata" = Some "metadata")
    as E2.
  { intros t. by rewrite lookup_insert_eq. }
  destruct p as [p|]; intros H.
  - eexists. split; [reflexivity|]. split; [|done].
    eexists. simpl. split; [reflexivity|]. by split_and!.
  - destruct H as (conn & -> & H). eexists. split; [reflexivity|]. split; [|done].
    eexists. simpl. split; [reflexivity|]. by split_and!.
Qed.

Ltac open_live H :=
  let conn := fresh "conn" in
  let Hdb := fresh "Hdb" in
  let Hd := fresh "Hd" in
  let Hm := fresh "Hm" in
  let Hmeta := fresh "Hmeta" in
  let Hdata := fresh "Hdata" in
  let Hkt := fresh "Hkt" in
  destruct H as (conn & Hdb & Hd & Hm & (? & Hmeta) & (? & Hdata & Hkt)).

Ltac run H :=
  unfold bind, ret, lift_outcome, table_name, the_db;
  repeat (progress (repeat rewrite H); cbn beta iota).

Lemma SQLite_contract_exists b m kt d :
  SQLite_live b m kt d ->
  exists b', tbl_exists "metadata" b = (b', Ok true) /\ SQLite_live b' m kt d
             /\ (is_Some (path b) -> is_Some (path b')).
Proof.
  intros H. exists b. split; [|by split]. open_live H.
  simpl. unfold exists_. run Hm. run Hdb. run Hmeta. reflexivity.
Qed.

Lemma SQLite_contract_get_metadata b m kt d k :
  SQLite_live b m kt d -> tbl_getitem "metadata" k b = (b, Ok (m !! k)).
Proof.
  intros H. open_live H. simpl. unfold getitem. run Hm. run Hdb. run Hmeta. reflexivity.
Qed.

Lemma SQLite_contract_get_data b m kt d k :
  SQLite_live b m kt d -> tbl_getitem "data" k b = (b, Ok (d !! k)).
Proof.
  intros H. open_live H. simpl. unfold getitem. run Hd. run Hdb. run Hdata. reflexivity.
Qed.

Lemma SQLite_contract_getKeyType b m kt d :
  SQLite_live b m kt d -> tbl_getKeyType "data" b = (b, Ok (Some kt)).
Proof.
  intros H. open_live H. simpl. unfold getKeyType. run Hd. run Hdb. run Hdata.
  cbn. by rewrite Hkt.
Qed.

(** A data-changing statement on the table [cache] that replaces its rows. *)
Lemma SQLite_dml_cache b m kt d (f : table -> outcome table) d' :
  SQLite_live b m kt d ->
  (forall cols, f {| columns := cols; rows := d |} = Ok {| columns := cols; rows := d' |}) ->
  exists b', dml "cache" f b = (b', Ok tt) /\ SQLite_live b' m kt d'
             /\ path b' = path b /\ disk b' = disk b.
Proof.
  intros H Hf. open_live H. unfold dml. run Hdb. run Hdata. run Hf.
  eexists. split; [reflexivity|]. split; [|done].
  eexists. simpl. repeat split; try done.
  - eexists. cbn. rewrite lookup_insert_ne by done. exact Hmeta.
  - eexists. cbn. rewrite lookup_insert_eq. split; [reflexivity | exact Hkt].
Qed.

Lemma SQLite_contract_set_data b m kt d k v :
  SQLite_live b m kt d ->
  exists b', tbl_setitem "data" k v b = (b', Ok tt) /\ SQLite_live b' m kt (<[k := v]> d)
             /\ (is_Some (path b) -> is_Some (path b')).
Proof.
  intros H.
  destruct (SQLite_dml_cache b m kt d
              (fun t => Ok (set_rows (<[k := v]> (rows t)) t)) (<[k := v]> d) H)
    as (b' & E & Hl & Hp & _); [done|].
  exists b'. repeat split; [|exact Hl | by rewrite Hp].
  open_live H. simpl. unfold setitem. run Hd. exact E.
Qed.

Lemma SQLite_contract_del_data b m kt d k :
  SQLite_live b m kt d ->
  exists b', tbl_delitem "data" k b = (b', Ok tt) /\ SQLite_live b' m kt (delete k d)
             /\ (is_Some (path b) -> is_Some (path b')).
Proof.
  intros H.
  destruct (SQLite_dml_cache b m kt d
              (fun t => Ok (set_rows (delete k (rows t)) t)) (delete k d) H)
    as (b' & E & Hl & Hp & _); [done|].
  exists b'. repeat split; [|exact Hl | by rewrite Hp].
  open_live H. simpl. unfold delitem. run Hd. exact E.
Qed.

Lemma SQLite_contract_commit b m kt d :
  SQLite_live b m kt d ->
  exists b', be_commit b = (b', Ok tt) /\ SQLite_live b' m kt d
             /\ (is_Some (path b) -> SQLite_durable b' m kt d /\ is_Some (path b')).
Proof.
  intros H. open_live H. simpl. unfold commit. run Hdb.
  eexists. split; [reflexivity|]. split.
  - eexists. simpl. repeat split; eauto.
  - intros Hp. split; [|exact Hp]. unfold SQLite_durable. simpl. split; eauto.
Qed.

Lemma SQLite_contract_createFunction b m kt d nm :
  SQLite_live b m kt d ->
  exists b', be_createFunction nm b = (b', Ok tt) /\ SQLite_live b' m kt d
             /\ (is_Some (path b) -> is_Some (path b')).
Proof.
  intros H. open_live H. simpl. unfold createFunction. run Hdb.
  eexists. split; [reflexivity|]. split; [|done]. eexists. simpl. repeat split; eauto.
Qed.

Lemma SQLite_contract_exit b m kt d :
  SQLite_live b m kt d ->
  exists b', be_exit b = (b', Ok tt) /\ SQLite_at_rest b' m kt d
             /\ (is_Some (path b) -> SQLite_durable b' m kt d).
Proof.
  intros H. open_live H. simpl. unfold exit, get_state. unfold bind at 1.
  destruct (path b) as [p|] eqn:Hp.
  - unfold commit. run Hdb.
    eexists. split; [reflexivity|].
    unfold SQLite_at_rest, SQLite_durable. simpl. rewrite Hp. split; [|intros _]; split; eauto.
  - exists b. split; [reflexivity|]. split.
    + unfold SQLite_at_rest. rewrite Hp. exists conn. split; [done|]. split; eauto.
    + by intros [? ?].
Qed.

Lemma SQLite_contract_reopen b m kt d :
  SQLite_durable b m kt d -> SQLite_at_rest (SQLite_reopen b) m kt d.
Proof. intros H. exact H. Qed.

Lemma SQLite_at_rest_file b kt :
  is_Some (path b) ->
  sqlite_has_table b "metadata" = true ->
  sqlite_has_table b "cache" = true ->
  key_column_type (columns (sqlite_table b "cache")) = Ok (Some kt) ->
  SQLite_at_rest b (rows (sqlite_table b "metadata")) kt
    (rows (sqlite_table b "cache")).
Proof.
  unfold sqlite_has_table, sqlite_table, SQLite_at_rest, SQLite_has_tables.
  intros [p ->] Hm Hc Hk.
  destruct (disk b !! "metadata") as [[cm rm]|]; [|discriminate].
  destruct (disk b !! "cache") as [[cc rc]|]; [|discriminate].
  simpl in *. eauto.
Qed.

Lemma SQLite_live_entered b kt :
  tables b !! "data" = Some "cache" ->
  tables b !! "metadata" = Some "metadata" ->
  sqlite_sees_table b "metadata" = true ->
  sqlite_sees_table b "cache" = true ->
  key_column_type (columns (sqlite_work_table b "cache")) = Ok (Some kt) ->
  SQLite_live b (rows (sqlite_work_table b "metadata")) kt
    (rows (sqlite_work_table b "cache")).
Proof.
  unfold sqlite_sees_table, sqlite_work_table, SQLite_live, SQLite_has_tables.
  intros Hd Hm Sm Sc Hk. destruct (db b) as [conn|]; [|discriminate].
  destruct (work conn !! "metadata") as [[cm rm]|] eqn:Em; [|discriminate].
  destruct (work conn !! "cache") as [[cc rc]|] eqn:Ec; [|discriminate].
  exists conn. simpl in *. split_and!; eauto.
Qed.

End SQLiteContract.

Global Instance SQLite_contract : BackendContract SQLite.SQLiteBackend := {
  live := SQLite_live;
  at_rest := SQLite_at_rest;
  durable := SQLite_durable;
  file_backed := fun b => is_Some (SQLite.path b);
  reopen := SQLite_reopen;
  contract_enter := SQLite_contract_enter;
  contract_exists := SQLite_contract_exists;
  contract_get_metadata := SQLite_contract_get_metadata;
  contract_get_data := SQLite_contract_get_data;
  contract_getKeyType := SQLite_contract_getKeyType;
  contract_set_data := SQLite_contract_set_data;
  contract_del_data := SQLite_contract_del_data;
  contract_commit := SQLite_contract_commit;
  contract_createFunction := SQLite_contract_createFunction;
  contract_exit := SQLite_contract_exit;
  contract_reopen := SQLite_contract_reopen
}.

(** ** The LMDB backend keeps the contract *)

Section LMDBContract.

Import LMDB.

Lemma LMDB_has_tables_ext s s' m kt d :
  keyTypes s' = keyTypes s -> (forall n, sub s' n = sub s n) ->
  LMDB_has_tables s m kt d -> LMDB_has_tables s' m kt d.
Proof.
  intros Hk Hs (K1 & K2 & K3 & Sm & Sd). unfold LMDB_has_tables.
  by rewrite Hk, !Hs.
Qed.

Lemma open_run nm b :
  env b = true ->
  exists s', open_ nm b = (set_disk s' b, Ok tt) /\
             keyTypes s' = keyTypes (disk b) /\ forall n, sub s' n = sub (disk b) n.
Proof.
  intros He. unfold open_, need_env, bind, modify. rewrite He.
  destruct (subdbs (disk b) !! nm) eqn:E.
  - exists (disk b). split; [by destruct b | done].
  - eexists. split; [reflexivity|]. split; [done|].
    intros n. unfold sub, set_sub. simpl.
    destruct (decide (nm = n)) as [->|Hne].
    + by rewrite lookup_insert_eq, E.
    + by rewrite lookup_insert_ne.
Qed.

(** One write in a scope of the shared transaction of an entered backend: the
    scope opens the transaction and commits it. *)
Lemma with_currentWriteTx_write (f : store -> store) b :
  env b = true ->
  currentWriteTx b = Some {| tx := None; refCount := 0 |} ->
  with_currentWriteTx (tx_modify f) b = (set_disk (f (disk b)) b, Ok tt).
Proof.
  destruct b as [p e dk t tb fn]. simpl. intros -> ->. reflexivity.
Qed.

Lemma sub_set_sub_eq nm r s : sub (set_sub nm r s) nm = r.
Proof. unfold sub, set_sub. simpl. by rewrite lookup_insert_eq. Qed.

Lemma sub_set_sub_ne nm nm' r s : nm <> nm' -> sub (set_sub nm r s) nm' = sub s nm'.
Proof. intros H. unfold sub, set_sub. simpl. by rewrite lookup_insert_ne. Qed.

Ltac open_lmdb_live H :=
  destruct H as (Hp & He & Htx & Htm & (kmm & Htmeta & Hkmm) & (km & Htdata & Hkt) &
                 (K1 & K2 & (km' & K3 & K3t) & Sm & Sd)).

Lemma the_table_run var t b :
  tables b !! var = Some t -> the_table var b = (b, Ok t).
Proof. intros H. unfold the_table. by rewrite H. Qed.

Lemma need_env_run b : env b = true -> need_env b = (b, Ok tt).
Proof. intros H. unfold need_env. by rewrite H. Qed.

Lemma getMapper_run nm tp b :
  is_Some (tables b !! "typesMeta") -> env b = true ->
  getMapper nm tp b = (b, Ok (keyTypes (disk b) !! (tp +:+ mapperTypeNameSeparator +:+ nm))).
Proof.
  intros [t Ht] He. unfold getMapper.
  rewrite (bind_ok _ _ _ _ _ (the_table_run _ _ _ Ht)).
  rewrite (bind_ok _ _ _ _ _ (need_env_run _ He)). reflexivity.
Qed.

Lemma map_table_run nm var b km :
  is_Some (tables b !! "typesMeta") -> env b = true ->
  keyTypes (disk b) !! (keyMapperMetaKey +:+ mapperTypeNameSeparator +:+ nm) = km ->
  exists s', map_table nm var b =
               (set_tables (<[var := {| name := nm; keyMapper := km |}]> (tables b)) (set_disk s' b),
                Ok tt) /\
             keyTypes s' = keyTypes (disk b) /\ forall n, sub s' n = sub (disk b) n.
Proof.
  intros Ht He Hk. destruct (open_run nm b He) as (s' & E & Hk' & Hs').
  exists s'. split; [|done]. unfold map_table.
  rewrite (bind_ok _ _ _ _ _ (getMapper_run _ _ _ Ht He)), Hk.
  rewrite (bind_ok _ _ _ _ _ E). reflexivity.
Qed.

Lemma LMDB_contract_enter b m kt d :
  LMDB_at_rest b m kt d ->
  exists b', (be_enter ;;; be_map "cache" "data" ;;; be_map "metadata" "metadata") b = (b', Ok tt)
             /\ LMDB_live b' m kt d /\ (is_Some (path b) -> is_Some (path b')).
Proof.
  intros [[p Hp] Ht].
  destruct (open_run keyTypesDataBaseName (set_env true b) eq_refl) as (s1 & E1 & Hk1 & Hs1).
  pose proof (LMDB_has_tables_ext _ s1 _ _ _ Hk1 Hs1 Ht) as Ht1.
  set (tm := {| name := keyTypesDataBaseName; keyMapper := Some utf8Transformer |}).
  set (b1 := set_currentWriteTx (Some {| tx := None; refCount := 0 |})
               (set_tables (<["typesMeta" := tm]> (tables b)) (set_disk s1 (set_env true b)))).
  assert (tables b1 !! "typesMeta" = Some tm) as Htm by apply lookup_insert_eq.
  destruct Ht1 as (K1 & [kmm K2] & (km & K3 & K3t) & Sm & Sd).
  assert (be_enter b = (b1, Ok tt)) as Eenter.
  { simpl. unfold enter, get_state. unfold bind at 1. rewrite Hp.
    unfold bind at 1. unfold modify at 1. unfold bind at 1. rewrite E1.
    unfold bind at 1. unfold set_table at 1, modify at 1.
    unfold bind at 1. unfold modify at 1. fold b1.
    unfold bind at 1. unfold exists_.
    rewrite (bind_ok _ _ _ _ _ (the_table_run _ _ _ Htm)).
    rewrite (bind_ok _ _ _ _ _ (getMapper_run _ _ b1 (mk_is_Some _ _ Htm) eq_refl)).
    change (keyTypes (disk b1) !! _) with (keyTypes s1 !! "key-keyTypes").
    rewrite K1. unfold bind, set_table, modify, ret. cbn.
    subst b1. cbn. by rewrite insert_insert_eq. }
  destruct (map_table_run "cache" "data" b1 (Some km) (mk_is_Some _ _ Htm) eq_refl K3)
    as (s2 & Emap1 & Hk2 & Hs2).
  set (b2 := set_tables (<["data" := {| name := "cache"; keyMapper := Some km |}]> (tables b1))
               (set_disk s2 b1)) in *.
  assert (tables b2 !! "typesMeta" = Some tm) as Htm2.
  { subst b2. cbn. by rewrite lookup_insert_ne. }
  destruct (map_table_run "metadata" "metadata" b2 (Some kmm) (mk_is_Some _ _ Htm2) eq_refl)
    as (s3 & Emap2 & Hk3 & Hs3).
  { change (keyTypes (disk b2)) with (keyTypes s2). by rewrite Hk2. }
  eexists. split.
  { unfold bind. simpl in *. rewrite Eenter, Emap1, Emap2. reflexivity. }
  split; [|intros _; cbn; by rewrite Hp].
  assert (LMDB_has_tables s3 m kt d) as Ht3.
  { apply (LMDB_has_tables_ext s1).
    - rewrite Hk3. exact Hk2.
    - intros n. rewrite Hs3. apply Hs2.
    - by repeat split; eauto. }
  unfold LMDB_live. cbn. rewrite Hp. split_and!; try done.
  - rewrite !lookup_insert_ne by done. by rewrite lookup_insert_eq.
  - exists kmm. split; [by rewrite lookup_insert_eq|]. rewrite Hk3.
    change (keyTypes (disk b2)) with (keyTypes s2). by rewrite Hk2.
  - exists km. split; [|done]. rewrite lookup_insert_ne by done. by rewrite lookup_insert_eq.
Qed.

Lemma LMDB_contract_exists b m kt d :
  LMDB_live b m kt d ->
  exists b', tbl_exists "metadata" b = (b', Ok true) /\ LMDB_live b' m kt d
             /\ (is_Some (path b) -> is_Some (path b')).
Proof.
  intros H. pose proof H as Hlive. open_lmdb_live H.
  exists b. split; [|by split]. simpl. unfold exists_.
  rewrite (bind_ok _ _ _ _ _ (the_table_run _ _ _ Htmeta)).
  rewrite (bind_ok _ _ _ _ _ (getMapper_run _ _ b Htm He)).
  change (keyTypes (disk b) !! _) with (keyTypes (disk b) !! "key-metadata").
  rewrite Hkmm. unfold bind, set_table, modify, ret. cbn.
  rewrite insert_id by done. by destruct b.
Qed.

Lemma LMDB_contract_get_metadata b m kt d k :
  LMDB_live b m kt d -> tbl_getitem "metadata" k b = (b, Ok (m !! k)).
Proof.
  intros H. open_lmdb_live H. simpl. unfold getitem.
  rewrite (bind_ok _ _ _ _ _ (the_table_run _ _ _ Htmeta)).
  unfold the_keyMapper. cbn [keyMapper name]. unfold ret at 1. unfold bind at 1.
  rewrite (bind_ok _ _ _ _ _ (need_env_run _ He)). by rewrite <- Sm.
Qed.

Lemma LMDB_contract_get_data b m kt d k :
  LMDB_live b m kt d -> tbl_getitem "data" k b = (b, Ok (d !! k)).
Proof.
  intros H. open_lmdb_live H. simpl. unfold getitem.
  rewrite (bind_ok _ _ _ _ _ (the_table_run _ _ _ Htdata)).
  unfold the_keyMapper. cbn [keyMapper name]. unfold ret at 1. unfold bind at 1.
  rewrite (bind_ok _ _ _ _ _ (need_env_run _ He)). by rewrite <- Sd.
Qed.

Lemma LMDB_contract_getKeyType b m kt d :
  LMDB_live b m kt d -> tbl_getKeyType "data" b = (b, Ok (Some kt)).
Proof.
  intros H. open_lmdb_live H. simpl. unfold getKeyType.
  rewrite (bind_ok _ _ _ _ _ (the_table_run _ _ _ Htdata)).
  unfold the_keyMapper. cbn [keyMapper name]. unfold ret, bind. by rewrite Hkt.
Qed.

(** A write to the rows of the table [cache] is committed at once. *)
Lemma LMDB_write_cache b m kt d (g : gmap rawkey bytes -> gmap rawkey bytes) :
  LMDB_live b m kt d ->
  let b' := set_disk (set_sub "cache" (g (sub (disk b) "cache")) (disk b)) b in
  with_currentWriteTx (tx_modify (fun w => set_sub "cache" (g (sub w "cache")) w)) b = (b', Ok tt)
  /\ LMDB_live b' m kt (g d) /\ path b' = path b.
Proof.
  intros H b'. pose proof H as Hlive. open_lmdb_live H.
  split; [by apply with_currentWriteTx_write|]. split; [|done].
  unfold LMDB_live, LMDB_has_tables. subst b'. cbn.
  rewrite sub_set_sub_eq, sub_set_sub_ne by done. rewrite Sd.
  split_and!; eauto.
Qed.

Lemma LMDB_contract_set_data b m kt d k v :
  LMDB_live b m kt d ->
  exists b', tbl_setitem "data" k v b = (b', Ok tt) /\ LMDB_live b' m kt (<[k := v]> d)
             /\ (is_Some (path b) -> is_Some (path b')).
Proof.
  intros H. destruct (LMDB_write_cache b m kt d (fun r => <[k := v]> r) H) as (E & Hl & Hpath).
  eexists. split; [|split; [exact Hl | by rewrite Hpath]].
  open_lmdb_live H. simpl. unfold setitem.
  rewrite (bind_ok _ _ _ _ _ (the_table_run _ _ _ Htdata)).
  unfold the_keyMapper. cbn [keyMapper name]. unfold ret at 1. unfold bind at 1.
  exact E.
Qed.

Lemma LMDB_contract_del_data b m kt d k :
  LMDB_live b m kt d ->
  exists b', tbl_delitem "data" k b = (b', Ok tt) /\ LMDB_live b' m kt (delete k d)
             /\ (is_Some (path b) -> is_Some (path b')).
Proof.
  intros H. destruct (LMDB_write_cache b m kt d (fun r => delete k r) H) as (E & Hl & Hpath).
  eexists. split; [|split; [exact Hl | by rewrite Hpath]].
  pose proof H as Hlive. open_lmdb_live H. simpl. unfold delitem.
  rewrite (bind_ok _ _ _ _ _ (the_table_run _ _ _ Htdata)).
  rewrite <- E. unfold with_currentWriteTx, with_, the_keyMapper. cbn [keyMapper name].
  destruct (swt_enter b) as [b1 [[]|e]]; [|reflexivity].
  unfold ret at 1. unfold bind at 1. reflexivity.
Qed.

Lemma LMDB_contract_commit b m kt d :
  LMDB_live b m kt d ->
  exists b', be_commit b = (b', Ok tt) /\ LMDB_live b' m kt d
             /\ (is_Some (path b) -> LMDB_at_rest b' m kt d /\ is_Some (path b')).
Proof.
  intros H. exists b. split; [reflexivity|]. split; [exact H|].
  intros Hpath. split; [|exact Hpath]. split; [exact Hpath|].
  open_lmdb_live H. repeat split; eauto.
Qed.

Lemma LMDB_contract_createFunction b m kt d nm :
  LMDB_live b m kt d ->
  exists b', be_createFunction nm b = (b', Ok tt) /\ LMDB_live b' m kt d
             /\ (is_Some (path b) -> is_Some (path b')).
Proof.
  intros H. eexists. split; [reflexivity|]. by split.
Qed.

Lemma LMDB_contract_exit b m kt d :
  LMDB_live b m kt d ->
  exists b', be_exit b = (b', Ok tt) /\ LMDB_at_rest b' m kt d
             /\ (is_Some (path b) -> LMDB_at_rest b' m kt d).
Proof.
  intros H. open_lmdb_live H.
  destruct b as [p e dk t tb fn]. simpl in *. subst e t.
  eexists. split; [reflexivity|]. cbn.
  assert (LMDB_at_rest
            {| path := p; env := false; disk := dk; currentWriteTx := None;
               tables := ∅; functions := fn |} m kt d) as R.
  { split; [exact Hp|]. repeat split; eauto. }
  split; [exact R | intros _; exact R].
Qed.

Lemma LMDB_contract_reopen b m kt d :
  LMDB_at_rest b m kt d -> LMDB_at_rest (LMDB_reopen b) m kt d.
Proof. intros [Hp H]. split; [by eexists | exact H]. Qed.

End LMDBContract.

Global Instance LMDB_contract : BackendContract LMDB.LMDBBackend := {
  live := LMDB_live;
  at_rest := LMDB_at_rest;
  durable := LMDB_at_rest;
  file_backed := fun b => is_Some (LMDB.path b);
  reopen := LMDB_reopen;
  contract_enter := LMDB_contract_enter;
  contract_exists := LMDB_contract_exists;
  contract_get_metadata := LMDB_contract_get_metadata;
  contract_get_data := LMDB_contract_get_data;
  contract_getKeyType := LMDB_contract_getKeyType;
  contract_set_data := LMDB_contract_set_data;
  contract_del_data := LMDB_contract_del_data;
  contract_commit := LMDB_contract_commit;
  contract_createFunction := LMDB_contract_createFunction;
  contract_exit := LMDB_contract_exit;
  contract_reopen := LMDB_contract_reopen
}.

(** ** [__enter__] *)

Section Enter.

Context {B : Type} `{!StorageBackend B}.
Variable transformers : TransformerStack.
Variable _COMPRESSORS_DICT : string -> option CompressorFactory.
Variable json_dumps : list string -> string.
Variable json_loads : string -> outcome (list string).

Local Abbreviation enter_ := (enter transformers _COMPRESSORS_DICT json_dumps json_loads).
Local Abbreviation read_metadata_ := (@read_metadata B _ json_loads).
Local Abbreviation attach_path_ := (@attach_path B _ transformers _COMPRESSORS_DICT).
Local Abbreviation initialization_path_ := (@initialization_path B _ transformers json_dumps).

(** [__enter__] is the reading of the metadata, then one of the two branches,
    then the registration of [recompress]. *)
Lemma enter_run (c : @BlobCache B) :
  enter_ c =
  (r <- read_metadata_ ;;
   match r with
   | Some (compressionId, ids) => attach_path_ compressionId ids
   | None => initialization_path_
   end ;;;
   on_backend (be_createFunction "recompress")) c.
Proof.
  unfold enter, read_metadata.
  do 3 (rewrite ?bind_assoc; apply bind_ext; intros _ ?).
  rewrite ?bind_assoc. apply bind_ext. intros [|] ?; cbn [negb]; [|reflexivity].
  do 5 (rewrite ?bind_assoc; apply bind_ext; intros ? ?).
  reflexivity.
Qed.

Lemma enter_attach (c c1 : @BlobCache B) compressionId ids :
  read_metadata_ c = (c1, Ok (Some (compressionId, ids))) ->
  enter_ c = (attach_path_ compressionId ids ;;; on_backend (be_createFunction "recompress")) c1.
Proof. intros H. rewrite enter_run. by rewrite (bind_ok _ _ _ _ _ H). Qed.

End Enter.

Section EnterContract.

Context {B : Type} `{!StorageBackend B} `{!BackendContract B}.
Variable transformers : TransformerStack.
Variable _COMPRESSORS_DICT : string -> option CompressorFactory.
Variable json_dumps : list string -> string.
Variable json_loads : string -> outcome (list string).

Local Abbreviation enter_ := (enter transformers _COMPRESSORS_DICT json_dumps json_loads).
Local Abbreviation read_metadata_ := (@read_metadata B _ json_loads).
Local Abbreviation attach_path_ := (@attach_path B _ transformers _COMPRESSORS_DICT).

Lemma on_backend_run {A} (m : M B A) (c : @BlobCache B) b' r :
  m (backend c) = (b', r) -> on_backend m c = (set_backend b' c, r).
Proof. intros H. unfold on_backend, zoom. by rewrite H. Qed.

Lemma on_backend_same {A} (m : M B A) (c : @BlobCache B) r :
  m (backend c) = (backend c, r) -> on_backend m c = (c, r).
Proof. intros H. rewrite (on_backend_run _ _ _ _ H). by destruct c. Qed.

Lemma on_backend_bind {A C} (m : M B A) (k : A -> M B C) (c : @BlobCache B) :
  on_backend (bind m k) c = bind (on_backend m) (fun a => on_backend (k a)) c.
Proof.
  unfold on_backend, zoom, bind. destruct (m (backend c)) as [b' [a|e]]; reflexivity.
Qed.

Lemma decode_encode_utf8 s : decode_utf8 (encode_utf8 s) = s.
Proof. apply String.string_of_list_byte_of_string. Qed.

(** On a file that holds a cache, the first lines of [__enter__] return the
    stored id of the compressor and the stored ids of the stack. *)
Lemma read_metadata_at_rest (c : @BlobCache B) m kt d compressionId ids :
  at_rest (backend c) m kt d ->
  well_formed_metadata json_loads m compressionId ids ->
  exists b1, live b1 m kt d /\
             read_metadata_ c = (set_backend b1 c, Ok (Some (compressionId, ids))) /\
             (file_backed (backend c) -> file_backed b1).
Proof.
  intros Hrest (Hc & raw & Hs & Hj).
  destruct (contract_enter _ _ _ _ Hrest) as (b1 & E1 & L1 & F1).
  destruct (contract_exists _ _ _ _ L1) as (b2 & E2 & L2 & F2).
  exists b2. split; [exact L2|]. split; [|intros F; apply F2, F1, F].
  apply bind_ok_inv in E1 as (ba & [] & Ea & E1).
  apply bind_ok_inv in E1 as (bb & [] & Eb & E1).
  unfold read_metadata, TABLE_NAME, META_TABLE_NAME.
  rewrite (bind_ok _ _ _ _ _ (on_backend_run _ c _ _ Ea)).
  rewrite (bind_ok _ _ _ _ _ (on_backend_run _ (set_backend ba c) _ _ Eb)).
  rewrite (bind_ok _ _ _ _ _ (on_backend_run _ (set_backend bb c) _ _ E1)).
  unfold isInitialized.
  rewrite (bind_ok _ _ _ _ _ (on_backend_run _ (set_backend b1 c) _ _ E2)). cbn [negb].
  assert (forall k, on_backend (tbl_getitem "metadata" k) (set_backend b2 c)
                    = (set_backend b2 c, Ok (m !! k))) as G.
  { intros k. apply on_backend_same. apply (contract_get_metadata _ _ _ _ _ L2). }
  rewrite (bind_ok _ _ _ _ _ (G _)), Hc. unfold py_str, lift_outcome at 1. rewrite bind_run.
  rewrite (bind_ok _ _ _ _ _ (G _)), Hs. unfold lift_outcome at 1. rewrite bind_run.
  unfold lift_outcome at 1. rewrite bind_run, Hj, decode_encode_utf8. reflexivity.
Qed.

(** The attach path on an entered backend. *)
Lemma attach_path_run (c : @BlobCache B) m kt d compressionId ids :
  live (backend c) m kt d ->
  attach_path_ compressionId ids c =
  if bool_decide (ids <> stack_id transformers) then
    (c, Raise (ValueError (IncompatibleCodecs ids)))
  else
    match check_key_type (Some kt) (keyType c) with
    | Raise e => (c, Raise e)
    | Ok _ =>
        match _COMPRESSORS_DICT compressionId with
        | None => (c, Raise (KeyError compressionId))
        | Some f =>
            match m !! KStr "dict" with
            | Some _ => (set_compressorFactory (Some f) c,
                         Raise (TypeError "object of type 'type' has no len()"))
            | None => (set_compressor (Some (build f None)) (set_compressorFactory (Some f) c),
                       Ok tt)
            end
        end
    end.
Proof.
  intros L. unfold attach_path. destruct (bool_decide _); [reflexivity|].
  unfold getCacheTableKeyType.
  rewrite (bind_ok _ _ _ _ _ (on_backend_same _ c _ (contract_getKeyType _ _ _ _ L))).
  rewrite bind_run. unfold get_state, lift_outcome at 1. rewrite bind_run.
  destruct (check_key_type (Some kt) (keyType c)) as [[]|e]; [|reflexivity].
  destruct (_COMPRESSORS_DICT compressionId) as [f|]; [|reflexivity].
  rewrite bind_run. unfold modify at 1.
  assert (on_backend (tbl_getitem "metadata" (KStr "dict")) (set_compressorFactory (Some f) c)
          = (set_compressorFactory (Some f) c, Ok (m !! KStr "dict"))) as G.
  { apply on_backend_same. apply (contract_get_metadata _ _ _ _ _ L). }
  rewrite (bind_ok _ _ _ _ _ G).
  destruct (m !! KStr "dict"); reflexivity.
Qed.

(** What [check_key_type] accepts. *)
Lemma check_key_type_spec stored declared :
  (check_key_type stored declared = Ok tt <->
   stored = Some declared \/ (declared = TAny /\ stored = Some Tbytes)) /\
  (check_key_type stored declared = Ok tt \/
   check_key_type stored declared = Raise (ValueError (IncompatibleKeyType stored declared))).
Proof.
  unfold check_key_type. case_bool_decide as Hd.
  - split.
    + split.
      * destruct declared, stored as [[]|]; try discriminate; auto.
      * intros [E | [-> ->]]; [done | reflexivity].
    + destruct declared, stored as [[]|]; auto.
  - split; [|by left]. split; auto.
Qed.

(** The attach path that succeeds: the stored ids are those of the class, the
    key type is accepted, the stored compressor id is in the catalog and no
    dictionary is stored. *)
Lemma enter_attach_ok (c : @BlobCache B) m kt d compressionId f :
  at_rest (backend c) m kt d ->
  well_formed_metadata json_loads m compressionId (stack_id transformers) ->
  check_key_type (Some kt) (keyType c) = Ok tt ->
  _COMPRESSORS_DICT compressionId = Some f ->
  m !! KStr "dict" = None ->
  exists c', enter_ c = (c', Ok tt) /\
             opened transformers _COMPRESSORS_DICT json_loads c' m kt d compressionId f /\
             compressor c' = Some (build f None) /\
             keyType c' = keyType c /\ commitOnNOps c' = commitOnNOps c /\
             opsPending c' = opsPending c /\
             (file_backed (backend c) -> file_backed (backend c')).
Proof.
  intros Hrest Hwf Hkt Hf Hdict.
  destruct (read_metadata_at_rest c _ _ _ _ _ Hrest Hwf) as (b1 & L1 & E1 & F1).
  rewrite (enter_attach _ _ _ _ _ _ _ _ E1).
  rewrite bind_run, (attach_path_run _ m kt d) by exact L1.
  rewrite bool_decide_eq_false_2 by (intros H; by apply H).
  cbn [keyType set_backend]. rewrite Hkt, Hf, Hdict.
  destruct (contract_createFunction _ _ _ _ "recompress" L1) as (b2 & E2 & L2 & F2).
  erewrite on_backend_run by exact E2.
  eexists. split; [reflexivity|]. unfold opened. cbn. split_and!; auto.
Qed.

(** C7: on every file that holds a cache whose stored ids of the stack differ
    from the ids of the stack of the class, [__enter__] raises the
    [ValueError] of incompatible codecs; the cache object is then as the
    reading of the records [compression] and [serializers] left it, so no
    table other than [metadata] has been read. *)
Theorem enter_raises_IncompatibleCodecs :
  forall (c : @BlobCache B) m kt d compressionId ids,
    at_rest (backend c) m kt d ->
    well_formed_metadata json_loads m compressionId ids ->
    ids <> stack_id transformers ->
    exists c1, read_metadata_ c = (c1, Ok (Some (compressionId, ids))) /\
               enter_ c = (c1, Raise (ValueError (IncompatibleCodecs ids))).
Proof.
  intros c m kt d cid ids Hrest Hwf Hne.
  destruct (read_metadata_at_rest c _ _ _ _ _ Hrest Hwf) as (b1 & L1 & E1 & F1).
  eexists. split; [exact E1|].
  rewrite (enter_attach _ _ _ _ _ _ _ _ E1).
  rewrite bind_run, (attach_path_run _ m kt d) by exact L1.
  by rewrite bool_decide_eq_true_2.
Qed.

(** C8: on a file that holds a cache of the class, when the key type of the
    data table differs from the declared one, [__enter__] raises the
    [ValueError] of incompatible key types, unless the declared type is
    [typing.Any] and the stored one [bytes]; the test accepts nothing else,
    and not a declared [bytes] with a stored [typing.Any]. With that one
    exception, as with equal types, [__enter__] goes on and returns when the
    stored compressor is known and no dictionary is stored. *)
Theorem enter_raises_IncompatibleKeyType :
  forall (c : @BlobCache B) m kt d compressionId,
    at_rest (backend c) m kt d ->
    well_formed_metadata json_loads m compressionId (stack_id transformers) ->
    (kt <> keyType c -> ~ (keyType c = TAny /\ kt = Tbytes) ->
     exists c1, enter_ c = (c1, Raise (ValueError (IncompatibleKeyType (Some kt) (keyType c))))) /\
    (kt = keyType c \/ (keyType c = TAny /\ kt = Tbytes) ->
     forall f, _COMPRESSORS_DICT compressionId = Some f -> m !! KStr "dict" = None ->
     exists c1, enter_ c = (c1, Ok tt)) /\
    (forall stored declared,
       check_key_type stored declared = Ok tt <->
       stored = Some declared \/ (declared = TAny /\ stored = Some Tbytes)) /\
    check_key_type (Some TAny) Tbytes
      = Raise (ValueError (IncompatibleKeyType (Some TAny) Tbytes)).
Proof.
  intros c m kt d cid Hrest Hwf. split_and!.
  - intros Hne Hex.
    destruct (read_metadata_at_rest c _ _ _ _ _ Hrest Hwf) as (b1 & L1 & E1 & F1).
    eexists. rewrite (enter_attach _ _ _ _ _ _ _ _ E1).
    rewrite bind_run, (attach_path_run _ m kt d) by exact L1.
    rewrite bool_decide_eq_false_2 by (intros H; by apply H).
    cbn [keyType set_backend].
    destruct (check_key_type_spec (Some kt) (keyType c)) as [Hiff [Hok | ->]]; [|reflexivity].
    apply Hiff in Hok as [E | [E1' E2']]; [congruence|].
    exfalso. apply Hex. split; congruence.
  - intros Hacc f Hf Hdict.
    assert (check_key_type (Some kt) (keyType c) = Ok tt) as Hk.
    { apply check_key_type_spec. destruct Hacc as [-> | [-> ->]]; auto. }
    destruct (enter_attach_ok c m kt d cid f Hrest Hwf Hk Hf Hdict) as (c' & E & _).
    eauto.
  - intros stored declared. apply check_key_type_spec.
  - reflexivity.
Qed.

(** The attach path on a file with a stored dictionary: the test of the
    dictionary takes [len] of the class [dict], which raises. *)
Lemma enter_with_stored_dictionary (c : @BlobCache B) m kt d compressionId f dic :
  at_rest (backend c) m kt d ->
  well_formed_metadata json_loads m compressionId (stack_id transformers) ->
  check_key_type (Some kt) (keyType c) = Ok tt ->
  _COMPRESSORS_DICT compressionId = Some f ->
  m !! KStr "dict" = Some dic ->
  exists c1, enter_ c = (c1, Raise (TypeError "object of type 'type' has no len()")).
Proof.
  intros Hrest Hwf Hkt Hf Hdict.
  destruct (read_metadata_at_rest c _ _ _ _ _ Hrest Hwf) as (b1 & L1 & E1 & F1).
  rewrite (enter_attach _ _ _ _ _ _ _ _ E1).
  rewrite bind_run, (attach_path_run _ m kt d) by exact L1.
  rewrite bool_decide_eq_false_2 by (intros H; by apply H).
  cbn [keyType set_backend]. rewrite Hkt, Hf, Hdict. eauto.
Qed.

End EnterContract.

Lemma enter_raises_IncompatibleCodecs_witness :
  let file := Sample.str_keys_file in
  let c := Sample.new_cache file arg_None 1 None in
  let m := SQLite.rows (sqlite_table file "metadata") in
  let d := SQLite.rows (sqlite_table file "cache") in
  (at_rest (backend c) m Tstr d /\
   well_formed_metadata Sample.json_loads m "none" ["utf8"] /\
   ["utf8"] <> stack_id Sample.TallyCache_transformers) /\
  exists c1,
    read_metadata Sample.json_loads c = (c1, Ok (Some ("none", ["utf8"]))) /\
    enter Sample.TallyCache_transformers Sample._COMPRESSORS_DICT Sample.json_dumps
      Sample.json_loads c = (c1, Raise (ValueError (IncompatibleCodecs ["utf8"]))).
Proof.
  intros file c m d.
  assert (at_rest (backend c) m Tstr d) as Hrest.
  { apply (SQLite_at_rest_file _ _); [by eexists | vm_compute; reflexivity ..]. }
  assert (well_formed_metadata Sample.json_loads m "none" ["utf8"]) as Hwf.
  { split; [vm_compute; reflexivity|].
    exists (encode_utf8 (Sample.json_dumps ["utf8"])). split; vm_compute; reflexivity. }
  assert (["utf8"] <> stack_id Sample.TallyCache_transformers) as Hne by discriminate.
  split; [exact (conj Hrest (conj Hwf Hne))|].
  exact (enter_raises_IncompatibleCodecs Sample.TallyCache_transformers
           Sample._COMPRESSORS_DICT Sample.json_dumps Sample.json_loads
           c m Tstr d "none" ["utf8"] Hrest Hwf Hne).
Defined.

Lemma enter_raises_IncompatibleKeyType_witness :
  let ts := Sample.StringCache_transformers in
  let file := Sample.int_keys_file in
  let c := Sample.new_cache file arg_None 1 None in
  let m := SQLite.rows (sqlite_table file "metadata") in
  let d := SQLite.rows (sqlite_table file "cache") in
  let file' := Sample.bytes_keys_file in
  let c' := Sample.new_cache file' arg_None 1 (Some TAny) in
  let m' := SQLite.rows (sqlite_table file' "metadata") in
  let d' := SQLite.rows (sqlite_table file' "cache") in
  (at_rest (backend c) m Tint d /\
   well_formed_metadata Sample.json_loads m "none" (stack_id ts) /\
   Tint <> keyType c /\ ~ (keyType c = TAny /\ Tint = Tbytes)) /\
  (exists c1, enter ts Sample._COMPRESSORS_DICT Sample.json_dumps Sample.json_loads c
              = (c1, Raise (ValueError (IncompatibleKeyType (Some Tint) Tstr)))) /\
  (at_rest (backend c') m' Tbytes d' /\
   well_formed_metadata Sample.json_loads m' "none" (stack_id ts) /\
   (keyType c' = TAny /\ Tbytes = Tbytes) /\
   Sample._COMPRESSORS_DICT "none" = Some Sample.none_factory /\
   m' !! KStr "dict" = None) /\
  (exists c1, enter ts Sample._COMPRESSORS_DICT Sample.json_dumps Sample.json_loads c'
              = (c1, Ok tt)).
Proof.
  intros ts file c m d file' c' m' d'.
  assert (at_rest (backend c) m Tint d) as Hrest.
  { apply (SQLite_at_rest_file _ _); [by eexists | vm_compute; reflexivity ..]. }
  assert (well_formed_metadata Sample.json_loads m "none" (stack_id ts)) as Hwf.
  { split; [vm_compute; reflexivity|].
    exists (encode_utf8 (Sample.json_dumps ["utf8"])). split; vm_compute; reflexivity. }
  assert (Tint <> keyType c) as Hne by discriminate.
  assert (~ (keyType c = TAny /\ Tint = Tbytes)) as Hex by (intros [_ H]; discriminate H).
  assert (at_rest (backend c') m' Tbytes d') as Hrest'.
  { apply (SQLite_at_rest_file _ _); [by eexists | vm_compute; reflexivity ..]. }
  assert (well_formed_metadata Sample.json_loads m' "none" (stack_id ts)) as Hwf'.
  { split; [vm_compute; reflexivity|].
    exists (encode_utf8 (Sample.json_dumps ["utf8"])). split; vm_compute; reflexivity. }
  assert (m' !! KStr "dict" = None) as Hdict by (vm_compute; reflexivity).
  pose proof (enter_raises_IncompatibleKeyType ts Sample._COMPRESSORS_DICT Sample.json_dumps
                Sample.json_loads c m Tint d "none" Hrest Hwf) as (H1 & _).
  pose proof (enter_raises_IncompatibleKeyType ts Sample._COMPRESSORS_DICT Sample.json_dumps
                Sample.json_loads c' m' Tbytes d' "none" Hrest' Hwf') as (_ & H2 & _).
  split; [exact (conj Hrest (conj Hwf (conj Hne Hex)))|].
  split; [exact (H1 Hne Hex)|].
  split; [exact (conj Hrest' (conj Hwf' (conj (conj eq_refl eq_refl) (conj eq_refl Hdict))))|].
  exact (H2 (or_intror (conj eq_refl eq_refl)) Sample.none_factory eq_refl Hdict).
Defined.

(** C4, on the code: a SQLite file of a [StringCache] on which a dictionary
    was applied holds the dictionary under ["dict"], and the next
    [__enter__] on it raises [TypeError] instead of building the compressor
    from the dictionary. *)
Theorem enter_raises_on_stored_dictionary :
  let ts := Sample.StringCache_transformers in
  let c := Sample.new_cache Sample.file_with_dictionary (arg_name "frame") 1 None in
  sqlite_committed Sample.file_with_dictionary "metadata" (KStr "dict") = Some [x07] /\
  result_of (enter ts Sample._COMPRESSORS_DICT Sample.json_dumps Sample.json_loads c)
    = Raise (TypeError "object of type 'type' has no len()").
Proof. vm_compute. split; reflexivity. Qed.

(** ** Reads and writes of an entered cache *)

Section ReadsAndWrites.

Context {B : Type} `{!StorageBackend B} `{!BackendContract B}.
Variable transformers : TransformerStack.
Variable _COMPRESSORS_DICT : string -> option CompressorFactory.
Variable json_dumps : list string -> string.
Variable json_loads : string -> outcome (list string).

Local Abbreviation enter_ := (enter transformers _COMPRESSORS_DICT json_dumps json_loads).
Local Abbreviation opened_ := (opened transformers _COMPRESSORS_DICT json_loads).
Local Abbreviation getitem_ := (getitem transformers).
Local Abbreviation setitem_ := (setitem transformers).
Local Abbreviation delitem_ := (delitem transformers).
Local Abbreviation populate_ := (populate transformers).
Local Abbreviation stored_key_ := (stored_key transformers).
Local Abbreviation stored_form_ := (@stored_form B transformers).
Local Abbreviation stored_write_ := (@stored_write B transformers).
Local Abbreviation stored_writes_ := (@stored_writes B transformers).
Local Abbreviation read_form_ := (read_form transformers).
Local Abbreviation fresh_cache_sees_ :=
  (fresh_cache_sees transformers _COMPRESSORS_DICT json_dumps json_loads).

Lemma encode_key_is_stored_key (c : @BlobCache B) key :
  encode_key transformers key c = (c, stored_key_ (keyType c) key).
Proof.
  unfold encode_key, stored_key. rewrite bind_run. unfold get_state.
  destruct (keyType c); try reflexivity.
  rewrite bind_run. unfold lift_outcome.
  by destruct (stack_unprocess transformers key).
Qed.

Lemma commit_live (c : @BlobCache B) m kt d :
  live (backend c) m kt d ->
  exists c', commit c = (c', Ok tt) /\ live (backend c') m kt d /\ same_configuration c c' /\
             opsPending c' = 0 /\
             (file_backed (backend c) ->
              durable (backend c') m kt d /\ file_backed (backend c')).
Proof.
  intros L. destruct (contract_commit _ _ _ _ L) as (b' & E & L' & D).
  rewrite commit_run, E. eexists. split; [reflexivity|]. by split_and!.
Qed.

Lemma opCommit_live (c : @BlobCache B) m kt d :
  live (backend c) m kt d -> commitOnNOps c <> 0 ->
  exists c', opCommit c = (c', Ok true) /\ live (backend c') m kt d /\ same_configuration c c' /\
             (file_backed (backend c) -> file_backed (backend c')).
Proof.
  intros L HN.
  destruct (decide (opsPending c <> 0 /\ opsPending c mod commitOnNOps c = 0)) as [[H0 Hm]|H].
  - rewrite opCommit_commits by done. rewrite bind_run.
    destruct (commit_live c _ _ _ L) as (c' & -> & L' & Hcfg & _ & D).
    exists c'. split_and!; try done. intros F. by apply D.
  - rewrite opCommit_counts; [|done|].
    + eexists. split; [reflexivity|]. by split_and!.
    + destruct (decide (opsPending c = 0)); [by left|]. right. intros E. apply H. by split.
Qed.

(** A write to the data table followed by [opCommit]. *)
Lemma write_then_opCommit (c : @BlobCache B) m kt d (op : M B unit) d' :
  live (backend c) m kt d -> commitOnNOps c <> 0 ->
  (exists b', op (backend c) = (b', Ok tt) /\ live b' m kt d' /\
              (file_backed (backend c) -> file_backed b')) ->
  exists c', (on_backend op ;;; opCommit ;;; ret tt) c = (c', Ok tt) /\
             live (backend c') m kt d' /\ same_configuration c c' /\
             (file_backed (backend c) -> file_backed (backend c')).
Proof.
  intros L HN (b' & E & L' & F).
  rewrite (bind_ok _ _ _ _ _ (on_backend_run _ _ _ _ E)).
  destruct (opCommit_live (set_backend b' c) m kt d' L' HN) as (c' & E' & L'' & Hcfg & F').
  rewrite (bind_ok _ _ _ _ _ E'). exists c'. split_and!; try done.
  intros Hf. apply F', F, Hf.
Qed.

Lemma opened_live (c : @BlobCache B) m kt d cid f :
  opened_ c m kt d cid f -> live (backend c) m kt d.
Proof. by intros (L & _). Qed.

Lemma opened_transfer (c c' : @BlobCache B) m kt d d' cid f :
  opened_ c m kt d cid f -> live (backend c') m kt d' -> same_configuration c c' ->
  opened_ c' m kt d' cid f.
Proof.
  intros (L & Hwf & Hd & Hk & Hf & Hc) L' (E1 & E2 & E3 & E4).
  unfold opened. rewrite E1, E2. by split_and!.
Qed.

(** [__delitem__] and [__setitem__]: the encoding of the key and of the
    value, which may raise, then the write and [opCommit]. *)
Lemma delitem_run (c : @BlobCache B) key :
  delitem_ key c =
  match stored_key_ (keyType c) key with
  | Raise e => (c, Raise e)
  | Ok k => (on_backend (write_op (w_del k)) ;;; opCommit ;;; ret tt) c
  end.
Proof.
  unfold delitem. rewrite bind_run, encode_key_is_stored_key.
  by destruct (stored_key_ (keyType c) key).
Qed.

Lemma setitem_run (c : @BlobCache B) key val :
  setitem_ key val c =
  match stored_write_ c key val with
  | Raise e => (c, Raise e)
  | Ok w => (on_backend (write_op w) ;;; opCommit ;;; ret tt) c
  end.
Proof.
  unfold setitem, stored_write. destruct (is_None val).
  { rewrite delitem_run. by destruct (stored_key_ (keyType c) key). }
  rewrite bind_run, encode_key_is_stored_key.
  destruct (stored_key_ (keyType c) key) as [k|e]; [|reflexivity].
  unfold stored_form. rewrite bind_run. unfold lift_outcome at 1.
  destruct (stack_unprocess transformers val) as [v|e]; [|reflexivity].
  rewrite bind_run. unfold get_state.
  destruct (compressor c) as [z|].
  - rewrite bind_run. unfold lift_outcome at 1.
    destruct (unprocess (codec z) v) as [v'|e]; [|reflexivity].
    rewrite bind_run. unfold lift_outcome at 1.
    by destruct (to_bytes v') as [b|e].
  - rewrite bind_run. unfold ret at 1.
    rewrite bind_run. unfold lift_outcome at 1.
    by destruct (to_bytes v) as [b|e].
Qed.

(** On an entered cache, an assignment whose key and value can be encoded
    returns, and the data table has the write. *)
Lemma setitem_opened (c : @BlobCache B) m kt d cid f key val w :
  opened_ c m kt d cid f -> commitOnNOps c <> 0 ->
  stored_write_ c key val = Ok w ->
  exists c', setitem_ key val c = (c', Ok tt) /\ opened_ c' m kt (apply_write d w) cid f /\
             same_configuration c c' /\
             (file_backed (backend c) -> file_backed (backend c')).
Proof.
  intros O HN Hw. pose proof (opened_live _ _ _ _ _ _ O) as L.
  rewrite setitem_run, Hw.
  destruct (write_then_opCommit c m kt d (write_op w) (apply_write d w) L HN)
    as (c' & E & L' & Hcfg & F).
  { destruct w; [by apply contract_set_data | by apply contract_del_data]. }
  exists c'. split_and!; try done. by eapply opened_transfer.
Qed.

(** [__getitem__] on an entered cache. *)
Lemma getitem_opened (c : @BlobCache B) m kt d cid f key k :
  opened_ c m kt d cid f ->
  stored_key_ (keyType c) key = Ok k ->
  getitem_ key c =
  (c, if truthy (d !! k) then
        match (match compressor c with
               | Some z => process (codec z) (PyBytes (default [] (d !! k)))
               | None => Ok (PyBytes (default [] (d !! k)))
               end) with
        | Ok x => stack_process transformers x
        | Raise e => Raise e
        end
      else Ok PyNone).
Proof.
  intros O Hk. pose proof (opened_live _ _ _ _ _ _ O) as L.
  unfold getitem. rewrite bind_run, encode_key_is_stored_key, Hk.
  rewrite (bind_ok _ _ _ _ _ (on_backend_same _ c _ (contract_get_data _ _ _ _ k L))).
  destruct (truthy (d !! k)); [|reflexivity]. cbn [negb].
  rewrite bind_run. unfold get_state.
  destruct (compressor c) as [z|].
  - rewrite bind_run. unfold lift_outcome at 1.
    by destruct (process (codec z) (PyBytes (default [] (d !! k)))).
  - reflexivity.
Qed.

Lemma stored_write_same_configuration (c c' : @BlobCache B) key val :
  same_configuration c c' -> stored_write_ c' key val = stored_write_ c key val.
Proof.
  intros (E1 & E2 & _). unfold stored_write, stored_form. by rewrite E1, E2.
Qed.

Lemma stored_writes_same_configuration (c c' : @BlobCache B) target :
  same_configuration c c' -> stored_writes_ c' target = stored_writes_ c target.
Proof.
  intros H. induction target as [|[k v] rest IH]; simpl; [done|].
  by rewrite (stored_write_same_configuration _ _ _ _ H), IH.
Qed.

Lemma same_configuration_trans (c c' c'' : @BlobCache B) :
  same_configuration c c' -> same_configuration c' c'' -> same_configuration c c''.
Proof.
  intros (A1 & A2 & A3 & A4) (B1 & B2 & B3 & B4). unfold same_configuration.
  by rewrite B1, B2, B3, B4.
Qed.

(** [populate] on an entered cache, when every key and value can be encoded. *)
Lemma populate_opened target : forall (c : @BlobCache B) m kt d cid f ws,
  opened_ c m kt d cid f -> commitOnNOps c <> 0 ->
  stored_writes_ c target = Ok ws ->
  exists c', populate_ target c = (c', Ok tt) /\
             opened_ c' m kt (fold_left apply_write ws d) cid f /\
             same_configuration c c' /\
             (file_backed (backend c) -> file_backed (backend c')).
Proof.
  induction target as [|[k v] rest IH]; intros c m kt d cid f ws O HN Hws; simpl in *.
  - injection Hws as <-. exists c. by split_and!.
  - destruct (stored_write_ c k v) as [w|e] eqn:Hw; [|discriminate].
    destruct (stored_writes_ c rest) as [ws'|e] eqn:Hrest; [|discriminate].
    injection Hws as <-.
    destruct (setitem_opened c m kt d cid f k v w O HN Hw) as (c1 & E1 & O1 & Hcfg & F1).
    rewrite (bind_ok _ _ _ _ _ E1).
    destruct (IH c1 m kt (apply_write d w) cid f ws' O1) as (c2 & E2 & O2 & Hcfg2 & F2).
    { destruct Hcfg as (_ & _ & -> & _). exact HN. }
    { by rewrite (stored_writes_same_configuration _ _ _ Hcfg). }
    exists c2. split_and!; try done.
    + by eapply same_configuration_trans.
    + intros F. apply F2, F1, F.
Qed.

Lemma durable_fresh_cache_sees (c : @BlobCache B) b m kt d d' cid f :
  opened_ c m kt d cid f -> durable b m kt d' -> fresh_cache_sees_ b (keyType c) d'.
Proof.
  intros (_ & Hwf & Hdict & Hk & Hf & _) D c3 Hb Hkt.
  pose proof (contract_reopen _ _ _ _ D) as R. rewrite <- Hb in R.
  destruct (enter_attach_ok transformers _COMPRESSORS_DICT json_dumps json_loads
              c3 m kt d' cid f R Hwf) as (c4 & E & O4 & _); [by rewrite Hkt | done | done |].
  exists c4. split; [exact E|]. intros k.
  apply on_backend_same. apply (contract_get_data _ _ _ _ k (opened_live _ _ _ _ _ _ O4)).
Qed.


Lemma getitem_stored (c : @BlobCache B) m kt d cid f key k b :
  opened_ c m kt d cid f ->
  stored_key_ (keyType c) key = Ok k -> d !! k = Some b -> b <> [] ->
  getitem_ key c = (c, read_form_ (compressor c) b).
Proof.
  intros O Hk Hd Hb. rewrite (getitem_opened c m kt d cid f key k O Hk), Hd.
  destruct b as [|x b]; [done|]. reflexivity.
Qed.

(** The round trip of a value through an entered cache, then through a new
    cache object on the same backend, when the stored bytes are not empty and
    the read path of each compressor undoes the write path on them. *)
Lemma round_trip_opened (c : @BlobCache B) m kt d cid f key val k b :
  opened_ c m kt d cid f -> commitOnNOps c <> 0 ->
  is_None val = false ->
  stored_key_ (keyType c) key = Ok k -> stored_form_ c val = Ok b -> b <> [] ->
  read_form_ (compressor c) b = Ok val ->
  read_form_ (Some (build f None)) b = Ok val ->
  exists c1, setitem_ key val c = (c1, Ok tt) /\ getitem_ key c1 = (c1, Ok val) /\
    exists c2, exit c1 = (c2, Ok tt) /\
      forall c3 : @BlobCache B, backend c3 = backend c2 -> keyType c3 = keyType c ->
        exists c4, enter_ c3 = (c4, Ok tt) /\ getitem_ key c4 = (c4, Ok val).
Proof.
  intros O HN Hval Hk Hb Hne Hr1 Hr2.
  assert (stored_write_ c key val = Ok (w_put k b)) as Hw.
  { unfold stored_write. by rewrite Hk, Hval, Hb. }
  destruct (setitem_opened c m kt d cid f key val _ O HN Hw) as (c1 & E1 & O1 & Hcfg & _).
  simpl in O1. destruct Hcfg as (Hz & Hkt & _).
  exists c1. split; [exact E1|]. split.
  { rewrite (getitem_stored c1 m kt _ cid f key k b O1); [by rewrite Hz, Hr1 | by rewrite Hkt | |done].
    apply lookup_insert_eq. }
  destruct (contract_exit _ _ _ _ (opened_live _ _ _ _ _ _ O1)) as (b2 & E2 & R & _).
  exists (set_backend b2 c1). split; [unfold exit; by apply on_backend_run|].
  intros c3 Hb3 Hkt3.
  destruct O1 as (_ & Hwf & Hdict & Hkk & Hf & _).
  cbn [backend set_backend] in Hb3. rewrite <- Hb3 in R.
  destruct (enter_attach_ok transformers _COMPRESSORS_DICT json_dumps json_loads
              c3 m kt _ cid f R Hwf) as (c4 & E & O4 & Hz4 & Hkt4 & _);
    [by rewrite Hkt3, <- Hkt | done | done |].
  exists c4. split; [exact E|].
  rewrite (getitem_stored c4 m kt _ cid f key k b O4); [by rewrite Hz4, Hr2 | | |done].
  - by rewrite Hkt4, Hkt3.
  - apply lookup_insert_eq.
Qed.

End ReadsAndWrites.

(** A stack of lossless transformers is lossless. *)
Lemma stack_lossless (ts : TransformerStack) :
  Forall lossless ts ->
  forall v x, stack_unprocess ts v = Ok x -> stack_process ts x = Ok v.
Proof.
  induction 1 as [|t ts Ht Hts IH]; intros v x; simpl.
  - by intros [= ->].
  - destruct (stack_unprocess ts v) as [v'|e] eqn:E; [|discriminate].
    intros Hx. rewrite (Ht _ _ Hx). by apply IH.
Qed.

Lemma to_bytes_Ok v b : to_bytes v = Ok b -> v = PyBytes b.
Proof. destruct v; try discriminate. by intros [= ->]. Qed.

(** ** The round trip of a value *)

Lemma Sample_utf8Transformer_lossless : lossless Sample.utf8Transformer.
Proof.
  intros x y. destruct x; simpl; try discriminate.
  intros [= <-]. simpl. by rewrite decode_encode_utf8.
Qed.

Lemma Sample_none_lossless d : lossless (codec (build Sample.none_factory d)).
Proof. intros x y. simpl. by intros [= ->]. Qed.




Lemma Sample_str_keys_file_at_rest :
  let file := Sample.str_keys_file in
  at_rest file (SQLite.rows (sqlite_table file "metadata")) Tstr
    (SQLite.rows (sqlite_table file "cache")).
Proof.
  apply (SQLite_at_rest_file Sample.str_keys_file Tstr);
    [by eexists | vm_compute; reflexivity ..].
Qed.

Lemma Sample_lmdb_str_keys_file_at_rest :
  let file := Sample.lmdb_str_keys_file in
  at_rest file (LMDB.sub (LMDB.disk file) "metadata") Tstr (LMDB.sub (LMDB.disk file) "cache").
Proof.
  split; [by eexists|]. split_and!.
  - vm_compute; reflexivity.
  - exists LMDB.utf8Transformer. vm_compute; reflexivity.
  - exists LMDB.utf8Transformer. split; vm_compute; reflexivity.
  - reflexivity.
  - reflexivity.
Qed.


(** ** The re-encoding of the values under a new dictionary *)

(** The statement of the SQLite backend changes no row when the function
    raises on one of them. *)
Lemma SQLite_applyToValues_failure b var funcName f n conn t :
  SQLite.tables b !! var = Some n -> SQLite.db b = Some conn ->
  SQLite.work conn !! n = Some t ->
  all_ok f (SQLite.rows t) = false ->
  exists e conn',
    SQLite.applyToValues var funcName f b = (SQLite.set_db (Some conn') b, Raise e) /\
    SQLite.work conn' = SQLite.work conn.
Proof.
  intros Hn Hdb Ht Hf.
  unfold SQLite.applyToValues, SQLite.dml, SQLite.table_name, SQLite.the_db, bind, modify, raise.
  rewrite Hn. cbn beta iota. rewrite Hdb. cbn beta iota.
  destruct (bool_decide (funcName ∈ SQLite.funcs conn)).
  - rewrite Hdb. cbn beta iota. rewrite Ht, Hf. cbn beta iota. by eexists _, _.
  - eexists _, conn. split; [|done]. by destruct b; simpl in *; subst.
Qed.


(** ** The columns of a SQLite table *)

(** C6, on the code: the map from Python types to SQLite types sends [bytes]
    to [BLOB], but [Table.create] types the column [val] by the key type: for
    a key type [str] and a value type [bytes] both columns are [TEXT], and
    the data table of a cache with [int] keys has a column [val] of type
    [INTEGER]. *)
Theorem create_types_val_column_by_key_type :
  SQLite.pythonTypeToSQLiteType = [(Tint, "INTEGER"); (Tstr, "TEXT"); (Tbytes, "BLOB")] /\
  SQLite.create_columns Tstr Tbytes
    = Ok [ {| SQLite.col_name := "key"; SQLite.col_type := "TEXT"; SQLite.col_pk := true |};
           {| SQLite.col_name := "val"; SQLite.col_type := "TEXT"; SQLite.col_pk := false |} ] /\
  SQLite.create_script "cache" Tstr Tbytes
    = Ok ("create table `cache` (" +:+ SQLite.NL +:+
          SQLite.TAB +:+ SQLite.TAB +:+ SQLite.TAB +:+ SQLite.TAB +:+ SQLite.TAB +:+
          "key TEXT PRIMARY KEY," +:+ SQLite.NL +:+
          SQLite.TAB +:+ SQLite.TAB +:+ SQLite.TAB +:+ SQLite.TAB +:+ SQLite.TAB +:+
          "val TEXT" +:+ SQLite.NL +:+
          SQLite.TAB +:+ SQLite.TAB +:+ SQLite.TAB +:+ SQLite.TAB +:+ ");" +:+ SQLite.NL +:+
          SQLite.TAB +:+ SQLite.TAB +:+ SQLite.TAB +:+ SQLite.TAB) /\
  SQLite.columns (sqlite_table Sample.str_keys_file "cache")
    = [ {| SQLite.col_name := "key"; SQLite.col_type := "TEXT"; SQLite.col_pk := true |};
        {| SQLite.col_name := "val"; SQLite.col_type := "TEXT"; SQLite.col_pk := false |} ] /\
  SQLite.columns (sqlite_table Sample.int_keys_file "cache")
    = [ {| SQLite.col_name := "key"; SQLite.col_type := "INTEGER"; SQLite.col_pk := true |};
        {| SQLite.col_name := "val"; SQLite.col_type := "INTEGER"; SQLite.col_pk := false |} ] /\
  forall keyType valueType valueType',
    SQLite.create_columns keyType valueType = SQLite.create_columns keyType valueType'.
Proof. split_and!; try (vm_compute; reflexivity). Qed.

(** ** The initialization path *)

(** A cache that enters an empty SQLite file: [__enter__] returns, and the
    cache is entered on the tables it has created, for each key type that the
    backend knows and for [typing.Any]. The compressor given to the
    constructor, if any, is the one that the catalog registers under its id;
    without one, the catalog is asked for ["none"] at the next entry. *)
Lemma SQLite_initialized_cache_is_opened
    (ts : TransformerStack) (_COMPRESSORS_DICT : string -> option CompressorFactory)
    (json_dumps : list string -> string) (json_loads : string -> outcome (list string))
    (p : string) (g : option CompressorFactory) (N : Z) (kt : PyType) (f : CompressorFactory) :
  let compressionId := match g with Some g0 => factory_id g0 | None => "none" end in
  let c := {| backend := SQLite.of_path p ∅; compressorFactory := g; compressor := None;
              newCompressor := None; commitOnNOps := N; opsPending := 0; keyType := kt |} in
  let r := enter ts _COMPRESSORS_DICT json_dumps json_loads c in
  kt = Tint \/ kt = Tstr \/ kt = Tbytes \/ kt = TAny ->
  json_loads (json_dumps (stack_id ts)) = Ok (stack_id ts) ->
  _COMPRESSORS_DICT compressionId = Some f ->
  (forall g0, g = Some g0 -> g0 = f) ->
  result_of r = Ok tt /\
  keyType (state_of r) = kt /\ commitOnNOps (state_of r) = N /\
  file_backed (backend (state_of r)) /\
  exists m, opened ts _COMPRESSORS_DICT json_loads (state_of r) m
              (match kt with TAny => Tbytes | t => t end) ∅ compressionId f.
Proof.
  intros cid c r Hkt Hj Hf Hg.
  assert (kt = Tint \/ kt = Tstr \/ kt = Tbytes \/ kt = TAny) as Hkt' by exact Hkt.
  split_and!.
  - subst r c. destruct Hkt as [-> | [-> | [-> | ->]]]; destruct g; vm_compute; reflexivity.
  - subst r c. destruct Hkt as [-> | [-> | [-> | ->]]]; destruct g; vm_compute; reflexivity.
  - subst r c. destruct Hkt as [-> | [-> | [-> | ->]]]; destruct g; vm_compute; reflexivity.
  - subst r c. destruct Hkt as [-> | [-> | [-> | ->]]]; destruct g; by eexists.
  - exists (SQLite.rows (sqlite_work_table (backend (state_of r)) "metadata")).
    assert (SQLite.rows (sqlite_work_table (backend (state_of r)) "cache") = ∅) as Hd.
    { subst r c. destruct Hkt as [-> | [-> | [-> | ->]]]; destruct g; vm_compute; reflexivity. }
    rewrite <- Hd. unfold opened. split_and!.
    + apply SQLite_live_entered;
        subst r c; destruct Hkt as [-> | [-> | [-> | ->]]]; destruct g; vm_compute; reflexivity.
    + split.
      * subst r c cid.
        destruct Hkt as [-> | [-> | [-> | ->]]]; destruct g; vm_compute; reflexivity.
      * exists (encode_utf8 (json_dumps (stack_id ts))). split; [|by rewrite decode_encode_utf8].
        subst r c. destruct Hkt as [-> | [-> | [-> | ->]]]; destruct g; vm_compute; reflexivity.
    + subst r c. destruct Hkt as [-> | [-> | [-> | ->]]]; destruct g; vm_compute; reflexivity.
    + subst r c. destruct Hkt as [-> | [-> | [-> | ->]]]; destruct g; vm_compute; reflexivity.
    + exact Hf.
    + destruct g as [g0|].
      * left. rewrite <- (Hg g0 eq_refl).
        subst r c. destruct Hkt as [-> | [-> | [-> | ->]]]; vm_compute; reflexivity.
      * right. split; [|reflexivity].
        subst r c. destruct Hkt as [-> | [-> | [-> | ->]]]; vm_compute; reflexivity.
Qed.

(** The first scenario of a cache: an empty SQLite file, a [StringCache]
    without compression, an assignment, then a lookup in the same scope and
    in the scope of a new cache object on the file. *)
Lemma SQLite_empty_file_round_trip :
  let ts := Sample.StringCache_transformers in
  let enter_ := enter ts Sample._COMPRESSORS_DICT Sample.json_dumps Sample.json_loads in
  let c0 := Sample.new_cache Sample.empty_sqlite_file arg_None 1 None in
  let val := PyStr "Aa12" in
  exists c c1 c2,
    enter_ c0 = (c, Ok tt) /\
    setitem ts (PyStr "a") val c = (c1, Ok tt) /\
    getitem ts (PyStr "a") c1 = (c1, Ok val) /\
    exit c1 = (c2, Ok tt) /\
    forall c3 : @BlobCache SQLite.SQLiteBackend,
      backend c3 = backend c2 -> keyType c3 = Tstr ->
      exists c4, enter_ c3 = (c4, Ok tt) /\ getitem ts (PyStr "a") c4 = (c4, Ok val).
Proof.
  intros ts enter_ c0 val.
  destruct (SQLite_initialized_cache_is_opened ts Sample._COMPRESSORS_DICT Sample.json_dumps
              Sample.json_loads "cache.sqlite" None 1 Tstr Sample.none_factory)
    as (Hr & Hkt & HN & _ & m & O); [auto | reflexivity | reflexivity | discriminate |].
  match type of Hr with result_of ?e = _ => change e with (enter_ c0) in * end.
  apply run_eta in Hr. set (c := state_of (enter_ c0)) in *.
  assert (compressor c = None) as Hz by (vm_compute; reflexivity).
  destruct (round_trip_opened ts Sample._COMPRESSORS_DICT Sample.json_dumps Sample.json_loads
              c m Tstr ∅ "none" Sample.none_factory (PyStr "a") val (KStr "a")
              (encode_utf8 "Aa12") O) as (c1 & E1 & G1 & c2 & E2 & R).
  - rewrite HN. discriminate.
  - reflexivity.
  - by rewrite Hkt.
  - unfold stored_form. by rewrite Hz.
  - discriminate.
  - unfold read_form. by rewrite Hz.
  - reflexivity.
  - exists c, c1, c2. by split_and!.
Qed.

(** * Further properties of the code *)

(** ** The tables of the SQLite backend *)

Ltac sqlite_run H :=
  unfold bind, ret, lift_outcome, SQLite.table_name, SQLite.the_db;
  repeat (progress (repeat rewrite H); cbn beta iota).

Ltac sqlite_fields :=
  cbn [SQLite.work SQLite.in_tx SQLite.funcs SQLite.set_work SQLite.set_in_tx
       SQLite.db SQLite.disk SQLite.tables SQLite.path SQLite.set_db SQLite.set_disk
       SQLite.set_tables SQLite.columns SQLite.rows SQLite.set_rows].

Section SQLiteTables.

Import SQLite.

Lemma SQLite_getitem_open b var r k :
  SQLite_table_open b var r -> getitem var k b = (b, Ok (r !! k)).
Proof.
  intros (conn & n & cols & Hdb & Hn & Ht).
  unfold getitem. sqlite_run Hn. by rewrite Hdb, Ht.
Qed.

Lemma SQLite_getitem_run b var n conn k :
  db b = Some conn -> tables b !! var = Some n ->
  getitem var k b = (b, match work conn !! n with
                        | Some t => Ok (rows t !! k)
                        | None => Raise (UnboundLocalError "cur")
                        end).
Proof.
  intros Hdb Hn. unfold getitem. sqlite_run Hn. rewrite Hdb. by destruct (work conn !! n).
Qed.

Lemma SQLite_exists_run b var n conn :
  db b = Some conn -> tables b !! var = Some n ->
  exists_ var b = (b, Ok (bool_decide (is_Some (work conn !! n)))).
Proof. intros Hdb Hn. unfold exists_. sqlite_run Hn. by sqlite_run Hdb. Qed.

Lemma SQLite_getKeyType_run b var n conn :
  db b = Some conn -> tables b !! var = Some n ->
  getKeyType var b = (b, match work conn !! n with
                         | Some t => key_column_type (columns t)
                         | None => Ok None
                         end).
Proof.
  intros Hdb Hn. unfold getKeyType. sqlite_run Hn. sqlite_run Hdb.
  by destruct (work conn !! n).
Qed.

Lemma SQLite_dml_run b n conn f :
  db b = Some conn ->
  dml n f b =
    match work conn !! n with
    | None => (b, Raise (OperationalError "no such table"))
    | Some t =>
        match f t with
        | Raise e => (set_db (Some (set_in_tx true conn)) b, Raise e)
        | Ok t' => (set_db (Some (set_in_tx true (set_work (<[n := t']> (work conn)) conn))) b, Ok tt)
        end
    end.
Proof.
  intros Hdb. unfold dml. sqlite_run Hdb.
  destruct (work conn !! n) as [t|]; [|done]. by destruct (f t).
Qed.

Lemma SQLite_setitem_run b var n key value :
  tables b !! var = Some n ->
  setitem var key value b = dml n (fun t => Ok (set_rows (<[key := value]> (rows t)) t)) b.
Proof. intros Hn. unfold setitem. by sqlite_run Hn. Qed.

Lemma SQLite_delitem_run b var n key :
  tables b !! var = Some n ->
  delitem var key b = dml n (fun t => Ok (set_rows (delete key (rows t)) t)) b.
Proof. intros Hn. unfold delitem. by sqlite_run Hn. Qed.

Lemma SQLite_commit_run b conn :
  db b = Some conn ->
  commit b = (set_disk (work conn) (set_db (Some (set_in_tx false conn)) b), Ok tt).
Proof. intros Hdb. unfold commit. by sqlite_run Hdb. Qed.

Lemma SQLite_drop_run b var n conn :
  db b = Some conn -> tables b !! var = Some n -> is_Some (work conn !! n) ->
  drop var b
  = (set_disk (delete n (work conn))
       (set_db (Some (set_in_tx false (set_work (delete n (work conn)) conn))) b), Ok tt).
Proof.
  intros Hdb Hn [t Ht]. unfold drop, commit. sqlite_run Hn. sqlite_run Hdb. by rewrite Ht.
Qed.

Lemma SQLite_create_run b var n conn keyType valueType cols :
  db b = Some conn -> tables b !! var = Some n -> work conn !! n = None ->
  create_columns keyType valueType = Ok cols ->
  create var keyType valueType b
  = (let w := <[n := {| columns := cols; rows := ∅ |}]> (work conn) in
     set_disk w (set_db (Some (set_work w (set_in_tx false conn))) b), Ok tt).
Proof.
  intros Hdb Hn Ht Hc. unfold create, commit. sqlite_run Hn. rewrite Hc. cbn beta iota.
  sqlite_run Hdb. unfold modify. cbn. by rewrite Ht.
Qed.

Lemma SQLite_applyToValues_run b var n conn funcName f :
  db b = Some conn -> tables b !! var = Some n ->
  applyToValues var funcName f b =
    if bool_decide (funcName ∈ funcs conn) then
      dml n (fun t => if all_ok f (rows t)
                      then Ok (set_rows (force_ok f <$> rows t) t)
                      else Raise (OperationalError "user-defined function raised exception")) b
    else (b, Raise (OperationalError "no such function")).
Proof.
  intros Hdb Hn. unfold applyToValues. sqlite_run Hn. sqlite_run Hdb.
  by destruct (bool_decide (funcName ∈ funcs conn)).
Qed.

Lemma all_ok_true f (r : gmap rawkey bytes) :
  (forall k v, r !! k = Some v -> is_ok (f v) = true) -> all_ok f r = true.
Proof.
  intros H. unfold all_ok. apply forallb_forall. intros [k v] Hin.
  apply (H k). apply elem_of_map_to_list. by apply list_elem_of_In.
Qed.

Lemma force_ok_fmap f g (r : gmap rawkey bytes) :
  (forall k v, r !! k = Some v -> f v = Ok (g v)) -> force_ok f <$> r = g <$> r.
Proof.
  intros H. apply map_eq. intros k. rewrite !lookup_fmap.
  destruct (r !! k) as [v|] eqn:Hk; [|done]. cbn. unfold force_ok. by rewrite (H k v Hk).
Qed.

(** A data-changing statement on an open table. *)
Lemma SQLite_dml_open b var r (f : table -> outcome table) r' :
  SQLite_table_open b var r ->
  (forall cols, f {| columns := cols; rows := r |} = Ok {| columns := cols; rows := r' |}) ->
  exists b' conn n,
    db b = Some conn /\ tables b !! var = Some n /\
    dml n f b = (b', Ok tt) /\
    SQLite_table_open b' var r' /\
    disk b' = disk b /\ tables b' = tables b /\ path b' = path b /\
    (exists conn', db b' = Some conn' /\ in_tx conn' = true /\ funcs conn' = funcs conn /\
                   forall n', n' <> n -> work conn' !! n' = work conn !! n').
Proof.
  intros (conn & n & cols & Hdb & Hn & Ht) Hf.
  eexists _, conn, n. split_and!; [done | done | | | | | |].
  - unfold dml. sqlite_run Hdb. rewrite Ht, Hf. reflexivity.
  - exists (set_in_tx true (set_work (<[n := {| columns := cols; rows := r' |}]> (work conn)) conn)), n, cols.
    cbn. split_and!; [done | done |]. by rewrite lookup_insert_eq.
  - done.
  - done.
  - done.
  - eexists. cbn. split_and!; [done | done | done |].
    intros n' Hne. cbn. by rewrite lookup_insert_ne.
Qed.


Lemma SQLite_native_types keyType :
  keyType ∈ NATIVE_VALUE_TYPES <-> keyType = Tint \/ keyType = Tstr \/ keyType = Tbytes.
Proof.
  change NATIVE_VALUE_TYPES with [Tint; Tstr; Tbytes].
  rewrite !elem_of_cons, elem_of_nil. tauto.
Qed.

(** X2: on the SQLite backend, creating a table that does not exist with a
    key type among [int], [str] and [bytes] returns and commits; the table
    is then empty, [exists] is true and [getKeyType] gives back the key
    type. With any other key type [create] raises [KeyError] and leaves the
    backend as it was. *)
Theorem SQLite_create_then_getKeyType b var n conn keyType valueType :
  db b = Some conn -> tables b !! var = Some n -> work conn !! n = None ->
  (keyType ∈ NATIVE_VALUE_TYPES ->
   exists b',
     create var keyType valueType b = (b', Ok tt) /\
     SQLite_table_open b' var ∅ /\
     getKeyType var b' = (b', Ok (Some keyType)) /\
     exists_ var b' = (b', Ok true) /\
     option_map work (db b') = Some (disk b') /\
     option_map in_tx (db b') = Some false) /\
  (keyType ∉ NATIVE_VALUE_TYPES ->
   create var keyType valueType b = (b, Raise (KeyError "pythonTypeToSQLiteType"))).
Proof.
  intros Hdb Hn Ht. split.
  - intros Hk. apply SQLite_native_types in Hk.
    assert (exists cols, create_columns keyType valueType = Ok cols /\
                         key_column_type cols = Ok (Some keyType)) as (cols & Hc & Hkt).
    { destruct Hk as [-> | [-> | ->]]; eexists; split; reflexivity. }
    set (w := <[n := {| columns := cols; rows := ∅ |}]> (work conn)).
    exists (set_disk w (set_db (Some (set_work w (set_in_tx false conn))) b)).
    assert (w !! n = Some {| columns := cols; rows := ∅ |}) as Hw by apply lookup_insert_eq.
    split_and!.
    + unfold create, commit. sqlite_run Hn. rewrite Hc. cbn beta iota.
      sqlite_run Hdb. unfold modify. cbn. by rewrite Ht.
    + by exists (set_work w (set_in_tx false conn)), n, cols.
    + erewrite SQLite_getKeyType_run; [|reflexivity | exact Hn].
      sqlite_fields. rewrite Hw. sqlite_fields. by rewrite Hkt.
    + erewrite SQLite_exists_run; [|reflexivity | exact Hn].
      sqlite_fields. by rewrite Hw, bool_decide_eq_true_2.
    + done.
    + done.
  - intros Hk. rewrite SQLite_native_types in Hk.
    assert (create_columns keyType valueType = Raise (KeyError "pythonTypeToSQLiteType")) as Hc.
    { destruct keyType; try reflexivity; exfalso; apply Hk; auto. }
    unfold create. sqlite_run Hn. by rewrite Hc.
Qed.


(** X4: [__exit__] of a SQLite backend made from a path commits what the
    connection holds and drops the connection. The tables stay mapped, so a
    read afterwards raises [UnboundLocalError] and a write raises
    [AttributeError]. *)
Theorem SQLite_exit_closes_the_connection b var r p :
  SQLite_table_open b var r -> path b = Some p ->
  exists b',
    exit b = (b', Ok tt) /\
    option_map work (db b) = Some (disk b') /\
    db b' = None /\
    (forall k, getitem var k b' = (b', Raise (UnboundLocalError "cur"))) /\
    (forall k v, setitem var k v b'
                 = (b', Raise (AttributeError "'NoneType' object has no attribute"))).
Proof.
  intros (conn & n & cols & Hdb & Hn & Ht) Hp.
  exists (set_db None (set_disk (work conn) (set_db (Some (set_in_tx false conn)) b))).
  split_and!.
  - unfold exit, get_state, commit. unfold bind at 1. rewrite Hp. sqlite_run Hdb. reflexivity.
  - by rewrite Hdb.
  - done.
  - intros k. unfold getitem. unfold bind, table_name. sqlite_fields. by rewrite Hn.
  - intros k v. erewrite SQLite_setitem_run by exact Hn. reflexivity.
Qed.


End SQLiteTables.

(** ** The tables of the LMDB backend *)

Ltac lmdb_fields :=
  cbn [LMDB.path LMDB.env LMDB.disk LMDB.currentWriteTx LMDB.tables LMDB.functions
       LMDB.set_env LMDB.set_disk LMDB.set_currentWriteTx LMDB.set_tables LMDB.set_functions
       LMDB.tx LMDB.refCount LMDB.name LMDB.keyMapper LMDB.subdbs LMDB.keyTypes
       LMDB.set_keyTypes].

Section LMDBTables.

Import LMDB.

Lemma LMDB_getitem_open b var n k :
  LMDB_table_open b var n -> getitem var k b = (b, Ok (sub (disk b) n !! k)).
Proof.
  intros [[He Htx] [km Ht]]. unfold getitem.
  rewrite (bind_ok _ _ _ _ _ (the_table_run _ _ _ Ht)).
  unfold the_keyMapper. cbn [keyMapper name]. unfold ret at 1. unfold bind at 1.
  by rewrite (bind_ok _ _ _ _ _ (need_env_run _ He)).
Qed.

Lemma LMDB_table_open_set_disk b var n s :
  LMDB_table_open b var n -> LMDB_table_open (set_disk s b) var n.
Proof. intros [[He Htx] [km Ht]]. split; [by split | by exists km]. Qed.

(** A write through the shared transaction on an open table. *)
Lemma LMDB_setitem_run b var n key value :
  LMDB_table_open b var n ->
  setitem var key value b
  = (set_disk (set_sub n (<[key := value]> (sub (disk b) n)) (disk b)) b, Ok tt).
Proof.
  intros [[He Htx] [km Ht]]. unfold setitem.
  rewrite (bind_ok _ _ _ _ _ (the_table_run _ _ _ Ht)).
  unfold the_keyMapper. cbn [keyMapper name]. unfold ret at 1. unfold bind at 1.
  by apply (with_currentWriteTx_write
              (fun w => set_sub n (<[key := value]> (sub w n)) w)).
Qed.

Lemma LMDB_delitem_run b var n key :
  LMDB_table_open b var n ->
  delitem var key b
  = (set_disk (set_sub n (delete key (sub (disk b) n)) (disk b)) b, Ok tt).
Proof.
  intros [[He Htx] [km Ht]]. unfold delitem.
  rewrite (bind_ok _ _ _ _ _ (the_table_run _ _ _ Ht)).
  rewrite <- (with_currentWriteTx_write
                (fun w => set_sub n (delete key (sub w n)) w) b He Htx).
  unfold with_currentWriteTx, with_, the_keyMapper. cbn [keyMapper name].
  destruct (swt_enter b) as [b1 [[]|e]]; [|reflexivity].
  unfold ret at 1. unfold bind at 1. reflexivity.
Qed.


Lemma LMDB_mapper_types keyType :
  dict_get keyType mappersTypes =
    match keyType with
    | Tint => Some int64Transformer
    | Tstr => Some utf8Transformer
    | Tuint64 => Some lmdbUint64KeyTransformer
    | Tbytes => Some lmdbBytesKeyTransformer
    | _ => None
    end.
Proof. by destruct keyType. Qed.

Lemma key_record_is_not_the_name n : keyMapperMetaKey +:+ mapperTypeNameSeparator +:+ n <> n.
Proof.
  change (keyMapperMetaKey +:+ mapperTypeNameSeparator +:+ n)
    with (String "k" (String "e" (String "y" (String "-" n)))).
  intros E. apply (f_equal String.length) in E. cbn in E. lia.
Qed.

Lemma LMDB_exists_run b var t :
  LMDB_idle b -> is_Some (tables b !! "typesMeta") -> tables b !! var = Some t ->
  exists_ var b =
    (let m := keyTypes (disk b) !! (keyMapperMetaKey +:+ mapperTypeNameSeparator +:+ name t) in
     (set_tables (<[var := {| name := name t; keyMapper := m |}]> (tables b)) b,
      Ok (bool_decide (is_Some m)))).
Proof.
  intros [He Htx] Hm Ht. unfold exists_.
  rewrite (bind_ok _ _ _ _ _ (the_table_run _ _ _ Ht)).
  by rewrite (bind_ok _ _ _ _ _ (getMapper_run _ _ b Hm He)).
Qed.

Lemma LMDB_setMapper_run b nm typ m :
  LMDB_idle b -> is_Some (tables b !! "typesMeta") ->
  setMapper nm typ m b
  = (set_disk (set_keyTypes (<[typ +:+ mapperTypeNameSeparator +:+ nm := m]> (keyTypes (disk b)))
                 (disk b)) b, Ok tt).
Proof.
  intros [He Htx] [tm Htm]. unfold setMapper.
  rewrite (bind_ok _ _ _ _ _ (the_table_run _ _ b Htm)).
  by apply (with_currentWriteTx_write
              (fun w => set_keyTypes (<[typ +:+ mapperTypeNameSeparator +:+ nm := m]> (keyTypes w)) w)).
Qed.

Lemma LMDB_create_run b var t keyType valueType m :
  LMDB_idle b -> is_Some (tables b !! "typesMeta") -> tables b !! var = Some t ->
  dict_get keyType mappersTypes = Some m ->
  exists s',
    create var keyType valueType b
    = (set_disk s' (set_tables (<[var := {| name := name t; keyMapper := Some m |}]> (tables b)) b),
       Ok tt) /\
    keyTypes s'
    = <[keyMapperMetaKey +:+ mapperTypeNameSeparator +:+ name t := m]> (keyTypes (disk b)) /\
    (forall n', sub s' n' = sub (disk b) n').
Proof.
  intros [He Htx] Hm Ht Hd.
  set (t' := {| name := name t; keyMapper := Some m |}).
  set (b1 := set_tables (<[var := t']> (tables b)) b).
  assert (is_Some (tables b1 !! "typesMeta")) as Hm1.
  { subst b1. lmdb_fields. destruct (decide (var = "typesMeta")) as [->|Hne].
    - rewrite lookup_insert_eq. by eexists.
    - by rewrite lookup_insert_ne. }
  set (key := keyMapperMetaKey +:+ mapperTypeNameSeparator +:+ name t).
  set (s2 := set_keyTypes (<[key := m]> (keyTypes (disk b))) (disk b)).
  set (b2 := set_disk s2 b1).
  destruct (open_run (name t) b2 He) as (s3 & E3 & Hk3 & Hs3).
  exists s3. split_and!.
  - unfold create. rewrite (bind_ok _ _ _ _ _ (the_table_run _ _ _ Ht)). rewrite Hd.
    unfold set_table at 1. unfold modify at 1. unfold bind at 1. fold t' b1.
    rewrite (bind_ok _ _ _ _ _ (LMDB_setMapper_run b1 _ _ m (conj He Htx) Hm1)).
    fold key s2 b2. rewrite (bind_ok _ _ _ _ _ E3). reflexivity.
  - by rewrite Hk3.
  - intros n'. by rewrite Hs3.
Qed.

(** X7: on the LMDB backend, creating a table with a key type among [int],
    [str], [uint64] and [bytes] returns, records the key codec and leaves
    the records of every table as they were; [exists] is then true and
    [getKeyType] gives back the key type. With any other key type [create]
    raises [KeyError] and leaves the backend as it was. *)
Theorem LMDB_create_then_getKeyType b var t keyType valueType :
  LMDB_idle b -> is_Some (tables b !! "typesMeta") -> tables b !! var = Some t ->
  (keyType ∈ [Tint; Tstr; Tuint64; Tbytes] ->
   exists b',
     create var keyType valueType b = (b', Ok tt) /\
     LMDB_table_open b' var (name t) /\
     getKeyType var b' = (b', Ok (Some keyType)) /\
     result_of (exists_ var b') = Ok true /\
     (forall n', sub (disk b') n' = sub (disk b) n')) /\
  (keyType ∉ [Tint; Tstr; Tuint64; Tbytes] ->
   create var keyType valueType b = (b, Raise (KeyError "mappersTypes"))).
Proof.
  intros Hidle Hm Ht. split.
  - intros Hk.
    assert (exists m, dict_get keyType mappersTypes = Some m /\ tgtType m = keyType)
      as (m & Hd & Hty).
    { rewrite LMDB_mapper_types. rewrite !elem_of_cons, elem_of_nil in Hk.
      destruct Hk as [-> | [-> | [-> | [-> | []]]]]; by eexists. }
    destruct (LMDB_create_run b var t keyType valueType m Hidle Hm Ht Hd) as (s' & E & Hk' & Hs').
    set (t' := {| name := name t; keyMapper := Some m |}) in *.
    set (b' := set_disk s' (set_tables (<[var := t']> (tables b)) b)) in *.
    assert (tables b' !! var = Some t') as Ht' by apply lookup_insert_eq.
    assert (LMDB_idle b') as Hidle' by (by destruct Hidle).
    assert (is_Some (tables b' !! "typesMeta")) as Hm'.
    { subst b'. lmdb_fields. destruct (decide (var = "typesMeta")) as [->|Hne].
      - rewrite lookup_insert_eq. by eexists.
      - by rewrite lookup_insert_ne. }
    exists b'. split_and!.
    + exact E.
    + split; [done|]. by exists m.
    + unfold getKeyType. rewrite (bind_ok _ _ _ _ _ (the_table_run _ _ _ Ht')).
      unfold the_keyMapper. cbn [keyMapper t']. unfold ret, bind. by rewrite Hty.
    + rewrite (LMDB_exists_run _ var t' Hidle' Hm' Ht').
      cbn [result_of snd name t']. subst b'. lmdb_fields. rewrite Hk'.
      rewrite lookup_insert_eq. by rewrite bool_decide_eq_true_2.
    + intros n'. subst b'. lmdb_fields. by rewrite Hs'.
  - intros Hk.
    assert (dict_get keyType mappersTypes = None) as Hd.
    { rewrite LMDB_mapper_types. rewrite !elem_of_cons, elem_of_nil in Hk.
      destruct keyType; try reflexivity; exfalso; apply Hk; auto. }
    unfold create. rewrite (bind_ok _ _ _ _ _ (the_table_run _ _ _ Ht)). by rewrite Hd.
Qed.

Lemma LMDB_backend_eta b :
  set_disk (disk b) b = b.
Proof. by destruct b. Qed.

(** X8: the scopes of the shared write transaction of LMDB nest. A scope
    inside another one works on the transaction of the outer one and leaves
    it open; only the outermost scope commits, and it commits the writes of
    both. *)
Theorem LMDB_nested_scopes_share_one_transaction b (f g : store -> store) :
  LMDB_idle b ->
  with_currentWriteTx (tx_modify f ;;; with_currentWriteTx (tx_modify g)) b
  = (set_disk (g (f (disk b))) b, Ok tt) /\
  forall w n, 0 < n ->
    with_currentWriteTx (tx_modify g)
      (set_currentWriteTx (Some {| tx := Some w; refCount := n |}) b)
    = (set_currentWriteTx (Some {| tx := Some (g w); refCount := n |}) b, Ok tt).
Proof.
  intros [He Htx]. destruct b as [p e dk t tb fn]. simpl in He, Htx. subst e t. split.
  - reflexivity.
  - intros w n Hn. unfold with_currentWriteTx, with_, swt_enter, swt_exit, tx_modify, the_tx,
      bind, modify, set_currentWriteTx. cbn.
    destruct (decide (n = 0)) as [->|_]; [lia|]. cbn.
    destruct (decide (n + 1 - 1 = 0)) as [E|_]; [lia|]. cbn.
    by replace (n + 1 - 1) with n by lia.
Qed.

(** X9: inside a scope of the shared write transaction of LMDB, [abort]
    discards the writes made since the scope was entered or since the last
    [commit], and [commit] makes the writes before it survive a later
    [abort]; the scope goes on with a new transaction. *)
Theorem LMDB_abort_discards_the_writes_since_the_last_commit b (f g : store -> store) :
  LMDB_idle b ->
  with_currentWriteTx (tx_modify f ;;; swt_abort) b = (b, Ok tt) /\
  with_currentWriteTx (tx_modify f ;;; swt_commit ;;; tx_modify g ;;; swt_abort) b
  = (set_disk (f (disk b)) b, Ok tt) /\
  with_currentWriteTx (tx_modify f ;;; swt_commit ;;; tx_modify g) b
  = (set_disk (g (f (disk b))) b, Ok tt).
Proof.
  intros [He Htx]. destruct b as [p e dk t tb fn]. simpl in He, Htx. subst e t.
  by split_and!.
Qed.

Lemma LMDB_tx_modify_run (f : store -> store) b w n :
  currentWriteTx b = Some {| tx := Some w; refCount := n |} ->
  tx_modify f b = (set_currentWriteTx (Some {| tx := Some (f w); refCount := n |}) b, Ok tt).
Proof. intros H. unfold tx_modify, the_tx, bind. by rewrite H. Qed.

(** The outermost scope of the shared transaction, and a scope inside
    another one. *)
Lemma with_currentWriteTx_idle {A} (body : M LMDBBackend A) b b2 a w :
  LMDB_idle b ->
  body (set_currentWriteTx (Some {| tx := Some (disk b); refCount := 1 |}) b) = (b2, Ok a) ->
  currentWriteTx b2 = Some {| tx := Some w; refCount := 1 |} ->
  with_currentWriteTx body b
  = (set_disk w (set_currentWriteTx (Some {| tx := None; refCount := 0 |}) b2), Ok a).
Proof.
  intros [He Htx] Hbody Hb2.
  unfold with_currentWriteTx, with_.
  assert (swt_enter b = (set_currentWriteTx (Some {| tx := Some (disk b); refCount := 1 |}) b, Ok tt))
    as ->.
  { destruct b. simpl in He, Htx. by subst. }
  rewrite Hbody. unfold swt_exit, the_tx, bind. by rewrite Hb2.
Qed.

Lemma with_currentWriteTx_nested {A} (body : M LMDBBackend A) b w n b2 a w2 :
  currentWriteTx b = Some {| tx := Some w; refCount := n |} -> 0 < n ->
  body (set_currentWriteTx (Some {| tx := Some w; refCount := n + 1 |}) b) = (b2, Ok a) ->
  currentWriteTx b2 = Some {| tx := Some w2; refCount := n + 1 |} ->
  with_currentWriteTx body b
  = (set_currentWriteTx (Some {| tx := Some w2; refCount := n |}) b2, Ok a).
Proof.
  intros Htx Hn Hbody Hb2.
  unfold with_currentWriteTx, with_.
  assert (swt_enter b = (set_currentWriteTx (Some {| tx := Some w; refCount := n + 1 |}) b, Ok tt))
    as ->.
  { unfold swt_enter, the_tx, bind. rewrite Htx. cbn.
    destruct (decide (n = 0)) as [->|_]; [lia | done]. }
  rewrite Hbody. unfold swt_exit, the_tx, bind. rewrite Hb2. cbn.
  destruct (decide (n + 1 - 1 = 0)) as [E|_]; [lia|].
  unfold modify. by replace (n + 1 - 1) with n by lia.
Qed.

Lemma LMDB_drop_run b var t :
  LMDB_idle b -> is_Some (tables b !! "typesMeta") -> tables b !! var = Some t ->
  drop var b
  = (set_disk (set_keyTypes (delete (name t) (keyTypes (disk b))) (set_sub (name t) ∅ (disk b))) b,
     Ok tt).
Proof.
  intros [He Htx] [tm Htm] Ht.
  set (n := name t).
  set (s' := set_keyTypes (delete n (keyTypes (disk b))) (set_sub n ∅ (disk b))).
  unfold drop. rewrite (bind_ok _ _ _ _ _ (the_table_run _ _ _ Ht)). fold n.
  set (b1 := set_currentWriteTx (Some {| tx := Some (disk b); refCount := 1 |}) b).
  set (b2 := set_currentWriteTx (Some {| tx := Some (set_sub n ∅ (disk b)); refCount := 1 |}) b1).
  set (b3 := set_currentWriteTx (Some {| tx := Some s'; refCount := 1 |})
               (set_currentWriteTx (Some {| tx := Some s'; refCount := 1 + 1 |}) b2)).
  rewrite (with_currentWriteTx_idle _ b b3 tt s' (conj He Htx)).
  - f_equal. destruct b. simpl in *. by subst.
  - fold b1. erewrite bind_ok by (by apply (LMDB_tx_modify_run _ b1 (disk b) 1)).
    fold b2. erewrite bind_ok by (by apply (the_table_run _ tm b2)).
    pose proof (LMDB_tx_modify_run (fun w => set_keyTypes (delete n (keyTypes w)) w)
                  (set_currentWriteTx
                     (Some {| tx := Some (set_sub n ∅ (disk b)); refCount := 1 + 1 |}) b2)
                  (set_sub n ∅ (disk b)) (1 + 1) eq_refl) as Hmod.
    exact (with_currentWriteTx_nested _ b2 (set_sub n ∅ (disk b)) 1 _ tt s'
             eq_refl eq_refl Hmod eq_refl).
  - reflexivity.
Qed.


(** X11: [__exit__] of the LMDB backend empties the directory of mapped
    tables and leaves the stored data alone: afterwards a read or a write
    through a variable raises [KeyError]. *)
Theorem LMDB_exit_forgets_the_tables b var n :
  LMDB_table_open b var n ->
  exists b',
    exit b = (b', Ok tt) /\
    disk b' = disk b /\
    (forall k, getitem var k b' = (b', Raise (KeyError var))) /\
    (forall k v, setitem var k v b' = (b', Raise (KeyError var))).
Proof.
  intros [[He Htx] [km Ht]].
  destruct b as [p e dk t tb fn]. simpl in He, Htx. subst e t.
  eexists. split; [reflexivity|]. by split_and!.
Qed.

End LMDBTables.

(** ** Assignments, deletions and lookups of a cache *)

Section CacheOperations.

Context {B : Type} `{!StorageBackend B} `{!BackendContract B}.
Variable transformers : TransformerStack.
Variable _COMPRESSORS_DICT : string -> option CompressorFactory.
Variable json_dumps : list string -> string.
Variable json_loads : string -> outcome (list string).

Local Abbreviation opened_ := (opened transformers _COMPRESSORS_DICT json_loads).
Local Abbreviation getitem_ := (getitem transformers).
Local Abbreviation contains_ := (contains transformers).
Local Abbreviation setitem_ := (setitem transformers).
Local Abbreviation delitem_ := (delitem transformers).
Local Abbreviation populate_ := (populate transformers).
Local Abbreviation stored_key_ := (stored_key transformers).
Local Abbreviation stored_write_ := (@stored_write B transformers).
Local Abbreviation read_form_ := (read_form transformers).

(** [__getitem__] on an entered backend. *)
Lemma getitem_live (c : @BlobCache B) m kt d key k :
  live (backend c) m kt d ->
  stored_key_ (keyType c) key = Ok k ->
  getitem_ key c =
  (c, match d !! k with
      | Some (x :: b) => read_form_ (compressor c) (x :: b)
      | _ => Ok PyNone
      end).
Proof.
  intros L Hk. unfold getitem. rewrite bind_run, encode_key_is_stored_key, Hk.
  rewrite (bind_ok _ _ _ _ _ (on_backend_same _ c _ (contract_get_data _ _ _ _ k L))).
  destruct (d !! k) as [[|x b]|]; try reflexivity. cbn [truthy negb default]. unfold Datatypes.id.
  rewrite bind_run. unfold get_state, read_form.
  destruct (compressor c) as [z|].
  - rewrite bind_run. unfold lift_outcome at 1.
    by destruct (process (codec z) (PyBytes (x :: b))).
  - reflexivity.
Qed.


Lemma opCommit_first (c : @BlobCache B) :
  opsPending c = 0 -> opCommit c = (set_opsPending 1 c, Ok true).
Proof.
  intros H0. unfold opCommit, willCommit. rewrite !bind_run. unfold get_state.
  rewrite H0. cbn. unfold bind, modify, ret. by rewrite H0.
Qed.

Lemma opCommit_divides_by_zero (c : @BlobCache B) :
  commitOnNOps c = 0 -> opsPending c <> 0 -> opCommit c = (c, Raise ZeroDivisionError).
Proof.
  intros HN H0. unfold opCommit, willCommit. rewrite !bind_run. unfold get_state.
  destruct (Z.eqb_spec (opsPending c) 0); [done|]. by rewrite HN.
Qed.


End CacheOperations.

Section Populate.

Context {B : Type} `{!StorageBackend B}.
Variable transformers : TransformerStack.


End Populate.

(** ** A cache on the SQLite backend *)

Section SQLiteCache.

Variable transformers : TransformerStack.

Local Abbreviation Cache := (@BlobCache SQLite.SQLiteBackend).



Lemma SQLite_beginTransaction_run b conn :
  SQLite.db b = Some conn -> SQLite.in_tx conn = false ->
  SQLite.beginTransaction b = (SQLite.set_db (Some (SQLite.set_in_tx true conn)) b, Ok tt).
Proof.
  intros Hdb Htx. unfold SQLite.beginTransaction. sqlite_run Hdb. by rewrite Htx.
Qed.

(** X16: on an entered SQLite cache with a compressor and no open
    transaction, [applyCompressionDictionary] with a dictionary other than
    the stored one returns when every row can be recompressed. Every row is
    then replaced by its recompressed form, the dictionary is stored, all of
    it is committed, and the cache reads with the compressor of the new
    dictionary: when that compressor is lossless, the lookups of non-empty
    rows return what they returned before. *)
Theorem applyCompressionDictionary_keeps_the_values_on_SQLite
    (c : Cache) m kt d f old newDict (g : bytes -> bytes) :
  SQLite_live (backend c) m kt d ->
  SQLite_ready_to_recompress (backend c) ->
  compressorFactory c = Some f -> compressor c = Some old ->
  m !! KStr "dict" <> Some newDict ->
  (forall k v, d !! k = Some v ->
     exists plain, process (codec old) (PyBytes v) = Ok plain /\
                   unprocess (codec (build f (Some newDict))) plain = Ok (PyBytes (g v))) ->
  exists c',
    applyCompressionDictionary newDict c = (c', Ok tt) /\
    SQLite_live (backend c') (<[KStr "dict" := newDict]> m) kt (g <$> d) /\
    SQLite_durable (backend c') (<[KStr "dict" := newDict]> m) kt (g <$> d) /\
    compressor c' = Some (build f (Some newDict)) /\
    newCompressor c' = None /\ opsPending c' = 0 /\
    (lossless (codec (build f (Some newDict))) ->
     forall key k v,
       stored_key transformers (keyType c) key = Ok k ->
       d !! k = Some v -> v <> [] -> g v <> [] ->
       result_of (getitem transformers key c') = result_of (getitem transformers key c)).
Proof.
  intros L (conn0 & Hdb0 & Htx & Hreg) Hf Hz Hdict Hg.
  pose proof L as (conn & Hdb & Hd & Hm & (colsm & Hmeta) & (cols & Hdata & Hkt)).
  assert (conn0 = conn) as -> by congruence.
  set (new := build f (Some newDict)).
  set (b1 := SQLite.set_db (Some (SQLite.set_in_tx true conn)) (backend c)).
  set (self := set_newCompressor (Some new) (set_backend b1 c)).
  assert (forall k v, d !! k = Some v -> _recompressorFunc self v = Ok (g v)) as Hrec.
  { intros k v Hk. destruct (Hg k v Hk) as (plain & Hp & Hu).
    unfold _recompressorFunc. cbn [newCompressor compressor self set_newCompressor set_backend].
    fold new in Hu. by rewrite Hz, Hp, Hu. }
  set (t2 := {| SQLite.columns := cols; SQLite.rows := g <$> d |}).
  set (w2 := <["cache" := t2]> (SQLite.work conn)).
  set (conn2 := SQLite.set_in_tx true (SQLite.set_work w2 (SQLite.set_in_tx true conn))).
  set (b2 := SQLite.set_db (Some conn2) b1).
  set (t3 := {| SQLite.columns := colsm; SQLite.rows := <[KStr "dict" := newDict]> m |}).
  set (w3 := <["metadata" := t3]> w2).
  set (conn3 := SQLite.set_in_tx true (SQLite.set_work w3 conn2)).
  set (b3 := SQLite.set_db (Some conn3) b2).
  set (b4 := SQLite.set_disk w3 (SQLite.set_db (Some (SQLite.set_in_tx false conn3)) b3)).
  set (c' := set_opsPending 0
               (set_backend b4
                  (set_compressor (Some new)
                     (set_backend b3
                        (set_newCompressor None
                           (set_compressor (Some new) (set_backend b2 self))))))).
  assert (SQLite_has_tables w3 (<[KStr "dict" := newDict]> m) kt (g <$> d)) as Ht.
  { split.
    - exists colsm. subst w3. by rewrite lookup_insert_eq.
    - exists cols. subst w3 w2. by rewrite lookup_insert_ne, lookup_insert_eq. }
  assert (SQLite_live (backend c') (<[KStr "dict" := newDict]> m) kt (g <$> d)) as L'.
  { exists (SQLite.set_in_tx false conn3). by split_and!. }
  exists c'. split_and!; try done.
  - unfold applyCompressionDictionary.
    assert (compressionDictionary c = (c, Ok (m !! KStr "dict"))) as E0.
    { apply on_backend_same. by apply (SQLite_contract_get_metadata _ m kt d). }
    rewrite (bind_ok _ _ _ _ _ E0), bool_decide_eq_false_2 by done.
    assert (be_beginTransaction (backend c) = (b1, Ok tt)) as E1
      by by apply SQLite_beginTransaction_run.
    rewrite (bind_ok _ _ _ _ _ (on_backend_run _ _ _ _ E1)).
    unfold get_state at 1. unfold bind at 1. cbn [compressorFactory set_backend]. rewrite Hf.
    unfold modify at 1. unfold bind at 1. fold new self.
    unfold get_state at 1. unfold bind at 1.
    assert (tbl_applyToValues "data" "recompress" (_recompressorFunc self) (backend self)
            = (b2, Ok tt)) as E2.
    { cbn [tbl_applyToValues SQLite_backend].
      rewrite (SQLite_applyToValues_run _ "data" "cache" (SQLite.set_in_tx true conn))
        by done.
      cbn [SQLite.funcs SQLite.set_in_tx]. rewrite bool_decide_eq_true_2 by done.
      rewrite (SQLite_dml_run _ _ (SQLite.set_in_tx true conn)) by done.
      cbn [SQLite.work SQLite.set_in_tx]. rewrite Hdata. cbn [SQLite.rows].
      rewrite all_ok_true by (intros k v Hk; by rewrite (Hrec k v Hk)).
      rewrite (force_ok_fmap _ g) by exact Hrec. reflexivity. }
    rewrite (bind_ok _ _ _ _ _ (on_backend_run _ _ _ _ E2)).
    unfold modify at 1. unfold bind at 1.
    unfold modify at 1. unfold bind at 1.
    cbn [newCompressor set_backend self set_newCompressor].
    set (c2 := set_newCompressor None _).
    assert (tbl_setitem "metadata" (KStr "dict") newDict (backend c2) = (b3, Ok tt)) as E3.
    { cbn [tbl_setitem SQLite_backend].
      rewrite (SQLite_setitem_run _ "metadata" "metadata") by done.
      rewrite (SQLite_dml_run _ _ conn2) by done.
      assert (SQLite.work conn2 !! "metadata"
              = Some {| SQLite.columns := colsm; SQLite.rows := m |}) as ->.
      { subst conn2 w2. cbn. by rewrite lookup_insert_ne. }
      reflexivity. }
    rewrite (bind_ok _ _ _ _ _ (on_backend_run _ _ _ _ E3)).
    unfold modify at 1. unfold bind at 1.
    rewrite commit_run. cbn [be_commit SQLite_backend backend set_compressor set_backend].
    rewrite (SQLite_commit_run b3 conn3) by done. reflexivity.
  - intros Hl key k v Hk Hv Hne Hgne.
    assert (live (backend c') (<[KStr "dict" := newDict]> m) kt (g <$> d)) as L1 by exact L'.
    assert (live (backend c) m kt d) as L0 by exact L.
    rewrite (getitem_live transformers c' _ _ _ key k L1) by exact Hk.
    rewrite (getitem_live transformers c _ _ _ key k L0) by exact Hk.
    rewrite lookup_fmap, Hv. cbn [fmap option_fmap option_map result_of snd].
    destruct (Hg k v Hv) as (plain & Hp & Hu).
    destruct v as [|x v]; [done|]. destruct (g (x :: v)) as [|y gv] eqn:Egv; [done|].
    unfold read_form. cbn [compressor c' set_opsPending set_backend set_compressor].
    fold new in Hu. by rewrite Hz, Hp, (Hl _ _ Hu).
Qed.


(** *** Pending writes and [vacuum] *)

Variable _COMPRESSORS_DICT : string -> option CompressorFactory.
Variable json_dumps : list string -> string.
Variable json_loads : string -> outcome (list string).
Variable N : Z.
Hypothesis N_positive : 1 <= N.

Local Abbreviation V := (fun c : Cache => counter_in_range N c /\ SQLite_pending_counted c).

Lemma SQLite_getitem_state var k b : state_of (SQLite.getitem var k b) = b.
Proof.
  unfold SQLite.getitem, SQLite.table_name, bind, state_of.
  destruct (SQLite.tables b !! var); [|done]. destruct (SQLite.db b) as [conn|]; [|done].
  by destruct (SQLite.work conn !! s).
Qed.

Lemma on_backend_state_same {A} (m : M SQLite.SQLiteBackend A) (c : Cache) :
  state_of (m (backend c)) = backend c -> state_of (on_backend m c) = c.
Proof.
  unfold on_backend, zoom, state_of. destruct (m (backend c)) as [b r]. cbn.
  intros ->. by destruct c.
Qed.

Lemma V_getitem key (c : Cache) : V c -> V (state_of (getitem transformers key c)).
Proof.
  intros HV. unfold getitem. rewrite bind_run.
  pose proof (encode_key_state transformers c key) as Ek.
  destruct (encode_key transformers key c) as [c0 [k|e]]; unfold state_of in Ek; cbn in Ek;
    subst c0; [|done].
  rewrite bind_run.
  pose proof (on_backend_state_same (tbl_getitem "data" k) c (SQLite_getitem_state _ _ _)) as Eg.
  destruct (on_backend (tbl_getitem "data" k) c) as [c0 [raw|e]]; unfold state_of in Eg;
    cbn in Eg; subst c0; [|done].
  destruct (negb (truthy raw)); [done|].
  rewrite bind_run. unfold get_state.
  destruct (compressor c) as [z|].
  - rewrite bind_run. unfold lift_outcome at 1.
    destruct (process (codec z) (PyBytes (default [] raw))); [|done].
    unfold lift_outcome. done.
  - done.
Qed.

Lemma V_commit (c : Cache) :
  commitOnNOps c = N -> (exists conn, SQLite.db (backend c) = Some conn) ->
  V (state_of (commit c)) /\ result_of (commit c) = Ok tt /\
  option_map SQLite.in_tx (SQLite.db (backend (state_of (commit c)))) = Some false.
Proof.
  intros HN [conn Hdb]. rewrite commit_run. cbn [be_commit SQLite_backend].
  rewrite (SQLite_commit_run _ conn Hdb). cbn. split_and!; try done.
  - split; [done|]. cbn. lia.
  - eexists. split; [reflexivity|]. done.
Qed.

Lemma V_opCommit (c : Cache) :
  counter_in_range N c -> (exists conn, SQLite.db (backend c) = Some conn) ->
  V (state_of (opCommit c)).
Proof.
  intros [HN Hr] [conn Hdb].
  destruct (decide (opsPending c <> 0 /\ opsPending c mod commitOnNOps c = 0)) as [[H0 Hm]|H].
  - rewrite opCommit_commits by (done || lia). rewrite bind_run.
    destruct (V_commit c HN (ex_intro _ conn Hdb)) as (HV & Hres & _).
    destruct (commit c) as [c' [[]|e]]; [exact HV | discriminate Hres].
  - rewrite opCommit_counts; [| lia |].
    + cbn. split.
      * split; [done|]. cbn.
        assert (opsPending c <> N).
        { intros E. apply H. split; [lia|]. rewrite E, HN. apply Z.mod_same. lia. }
        lia.
      * exists conn. split; [done|]. cbn. lia.
    + destruct (decide (opsPending c = 0)); [by left|]. right. intros E. apply H. by split.
Qed.

Lemma SQLite_write_op_state w b conn :
  SQLite.db b = Some conn ->
  (exists e, write_op w b = (b, Raise e)) \/
  (exists b' conn', write_op w b = (b', Ok tt) /\ SQLite.db b' = Some conn').
Proof.
  intros Hdb.
  assert (forall var f, (forall t, is_ok (f t) = true) ->
            let m := (n <- SQLite.table_name var ;; SQLite.dml n f) in
            (exists e, m b = (b, Raise e)) \/
            (exists b' conn', m b = (b', Ok tt) /\ SQLite.db b' = Some conn')) as H.
  { intros var f Hf. cbn zeta.
    assert ((n <- SQLite.table_name var ;; SQLite.dml n f) b
            = match SQLite.tables b !! var with
              | Some n => SQLite.dml n f b
              | None => (b, Raise (KeyError var))
              end) as ->.
    { unfold bind, SQLite.table_name. by destruct (SQLite.tables b !! var). }
    destruct (SQLite.tables b !! var) as [n|]; [|left; by eexists].
    rewrite (SQLite_dml_run _ _ conn _ Hdb).
    destruct (SQLite.work conn !! n) as [t|]; [|left; by eexists].
    specialize (Hf t). destruct (f t); [|discriminate]. right. by eexists _, _. }
  destruct w as [k v|k]; cbn [write_op tbl_setitem tbl_delitem SQLite_backend]; by apply H.
Qed.

Lemma V_setitem key val (c : Cache) : V c -> V (state_of (setitem transformers key val c)).
Proof.
  intros [Hc (conn & Hdb & Hp)]. rewrite setitem_run.
  destruct (stored_write transformers c key val) as [w|e];
    [|split; [done | by exists conn]].
  destruct (SQLite_write_op_state w (backend c) conn Hdb) as [[e E]|(b' & conn' & E & Hdb')].
  - rewrite (bind_raise _ _ _ _ _ (on_backend_same _ _ _ E)). split; [done | by exists conn].
  - rewrite (bind_ok _ _ _ _ _ (on_backend_run _ _ _ _ E)). rewrite bind_run.
    pose proof (V_opCommit (set_backend b' c) Hc (ex_intro _ conn' Hdb')) as HV.
    by destruct (opCommit (set_backend b' c)) as [c2 [a|e]].
Qed.

Lemma V_delitem key (c : Cache) : V c -> V (state_of (delitem transformers key c)).
Proof. apply (V_setitem key PyNone). Qed.

Lemma V_populate target : forall c : Cache, V c -> V (state_of (populate transformers target c)).
Proof.
  induction target as [|[k v] rest IH]; intros c HV; [done|].
  cbn [populate]. rewrite bind_run.
  pose proof (V_setitem k v c HV) as H1.
  destruct (setitem transformers k v c) as [c1 [[]|e]]; [by apply IH | done].
Qed.

Lemma V_maintenance (after : M SQLite.SQLiteBackend unit) (c : Cache) :
  (forall b, state_of (after b) = b) ->
  V c ->
  V (state_of ((c0 <- get_state ;; (if opsPending c0 =? 0 then ret tt else commit) ;;;
                on_backend after) c)).
Proof.
  intros Hafter [Hc (conn & Hdb & Hp)].
  change ((c0 <- get_state ;; (if opsPending c0 =? 0 then ret tt else commit) ;;;
           on_backend after) c)
    with (((if opsPending c =? 0 then ret tt else commit) ;;; on_backend after) c).
  assert (forall c1 : Cache, V c1 -> V (state_of (on_backend after c1))) as Ha.
  { intros c1 HV. by rewrite (on_backend_state_same after c1 (Hafter _)). }
  destruct (opsPending c =? 0).
  - change ((ret tt ;;; on_backend after) c) with (on_backend after c).
    apply Ha. split; [done | by exists conn].
  - rewrite bind_run.
    destruct (V_commit c (proj1 Hc) (ex_intro _ conn Hdb)) as (HV & Hres & _).
    destruct (commit c) as [c' [[]|e]]; [by apply Ha | discriminate Hres].
Qed.

Lemma SQLite_vacuum_state b : state_of (SQLite.vacuum b) = b.
Proof.
  unfold SQLite.vacuum, SQLite.the_db, bind, state_of.
  destruct (SQLite.db b) as [conn|]; [|done]. by destruct (SQLite.in_tx conn).
Qed.

Lemma SQLite_optimize_state b : state_of (SQLite.optimize b) = b.
Proof.
  unfold SQLite.optimize, SQLite.the_db, bind, state_of. by destruct (SQLite.db b).
Qed.

Lemma V_run_operation o (c : Cache) :
  is_data_operation o = true -> V c ->
  V (state_of (run_operation transformers _COMPRESSORS_DICT json_dumps json_loads o c)).
Proof.
  intros Ho HV. destruct o; try discriminate Ho; cbn [run_operation].
  - rewrite bind_run. pose proof (V_getitem key c HV) as H.
    by destruct (getitem transformers key c) as [c1 [v|e]].
  - rewrite bind_run, contains_run. pose proof (V_getitem key c HV) as H.
    by destruct (getitem transformers key c) as [c1 [v|e]].
  - by apply V_setitem.
  - by apply V_delitem.
  - destruct HV as [Hc (conn & Hdb & Hp)].
    by destruct (V_commit c (proj1 Hc) (ex_intro _ conn Hdb)) as (HV & _).
  - apply (V_maintenance SQLite.vacuum c SQLite_vacuum_state HV).
  - apply (V_maintenance SQLite.optimize c SQLite_optimize_state HV).
  - by apply V_populate.
Qed.

Lemma V_run_operations ops : forall c : Cache,
  forallb is_data_operation ops = true -> V c ->
  V (run_operations transformers _COMPRESSORS_DICT json_dumps json_loads ops c).
Proof.
  induction ops as [|o ops IH]; intros c Ho HV; [done|].
  cbn in Ho. apply andb_prop in Ho as [Ho Hops].
  cbn [run_operations]. apply IH; [done|]. by apply V_run_operation.
Qed.


End SQLiteCache.

(** ** A cache on the LMDB backend *)

Section LMDBCache.

Variable transformers : TransformerStack.

Local Abbreviation Cache := (@BlobCache LMDB.LMDBBackend).

Lemma LMDB_commit_cache (c : Cache) :
  commit c = (set_opsPending 0 c, Ok tt).
Proof. rewrite commit_run. cbn. by destruct c. Qed.

Lemma LMDB_optimize_cache (c : Cache) :
  exists c', optimize c = (c', Ok tt) /\ backend c' = backend c /\ keyType c' = keyType c /\
             compressor c' = compressor c.
Proof.
  unfold optimize. unfold get_state at 1. unfold bind at 1.
  destruct (opsPending c =? 0).
  - exists c. split; [|done]. unfold ret at 1. unfold bind at 1.
    apply on_backend_same. reflexivity.
  - exists (set_opsPending 0 c). split; [|done].
    rewrite (bind_ok _ _ _ _ _ (LMDB_commit_cache c)).
    apply on_backend_same. reflexivity.
Qed.


End LMDBCache.

(** ** Iteration *)

Lemma map_to_list_rows (r : gmap rawkey bytes) :
  NoDup (map_to_list r).*1 /\
  (forall k v, (k, v) ∈ map_to_list r <-> r !! k = Some v) /\
  length (map_to_list r) = size r.
Proof.
  split_and!.
  - apply NoDup_fst_map_to_list.
  - intros k v. apply elem_of_map_to_list.
  - apply length_map_to_list.
Qed.

Lemma SQLite_iteration_open b var r :
  SQLite_table_open b var r ->
  SQLite.items var b = (b, Ok (map_to_list r)) /\
  SQLite.keys var b = (b, Ok (map_to_list r).*1) /\
  SQLite.values var b = (b, Ok (map_to_list r).*2) /\
  SQLite.len_ var b = (b, Ok (Z.of_nat (size r))).
Proof.
  intros (conn & n & cols & Hdb & Hn & Ht).
  unfold SQLite.items, SQLite.keys, SQLite.values, SQLite.len_, SQLite.rawItemsBytes,
    SQLite.rawKeysBytes, SQLite.rawValuesBytes, SQLite.select_rows.
  split_and!; sqlite_run Hn; sqlite_run Hdb; by rewrite Ht.
Qed.

Lemma LMDB_iteration_open b var n :
  LMDB_table_open b var n ->
  LMDB.items var b = (b, Ok (map_to_list (LMDB.sub (LMDB.disk b) n))) /\
  LMDB.keys var b = (b, Ok (map_to_list (LMDB.sub (LMDB.disk b) n)).*1) /\
  LMDB.values var b = (b, Ok (map_to_list (LMDB.sub (LMDB.disk b) n)).*2) /\
  LMDB.len_ var b = (b, Ok (Z.of_nat (size (LMDB.sub (LMDB.disk b) n)))).
Proof.
  intros [[He Htx] [km Ht]].
  assert (LMDB.read_records n b = (b, Ok (map_to_list (LMDB.sub (LMDB.disk b) n)))) as Hr.
  { unfold LMDB.read_records. by rewrite (bind_ok _ _ _ _ _ (need_env_run _ He)). }
  unfold LMDB.items, LMDB.keys, LMDB.values, LMDB.len_.
  rewrite !(bind_ok _ _ _ _ _ (the_table_run _ _ _ Ht)). cbn [LMDB.name].
  rewrite !(bind_ok _ _ _ _ _ Hr), (bind_ok _ _ _ _ _ (need_env_run _ He)).
  split_and!; try done; by destruct (map_to_list (LMDB.sub (LMDB.disk b) n)).
Qed.

Global Instance SQLite_iteration_contract : IterationContract SQLite.SQLiteBackend.
Proof.
  split. intros b m kt d (conn & Hdb & Hd & Hm & (colsm & Hmeta) & (cols & Hdata & Hkt)).
  destruct (SQLite_iteration_open b "data" d) as (E1 & E2 & E3 & E4).
  { by exists conn, "cache", cols. }
  destruct (map_to_list_rows d) as (N1 & N2 & N3).
  exists (map_to_list d). rewrite N3. by split_and!.
Qed.

Global Instance LMDB_iteration_contract : IterationContract LMDB.LMDBBackend.
Proof.
  split. intros b m kt d (Hp & He & Htx & Htm & (kmm & Htmeta & Hkmm) & (km & Htdata & Hkt) &
                          (K1 & K2 & K3 & Sm & Sd)).
  destruct (LMDB_iteration_open b "data" "cache") as (E1 & E2 & E3 & E4).
  { split; [done|]. by exists km. }
  rewrite Sd in E1, E2, E3, E4.
  destruct (map_to_list_rows d) as (N1 & N2 & N3).
  exists (map_to_list d). rewrite N3. by split_and!.
Qed.

Lemma run_all_pure {S A C} (l : list A) (h : A -> M S C) (g : A -> C) s :
  (forall x, x ∈ l -> h x s = (s, Ok (g x))) ->
  run_all (h <$> l) s = (s, Ok (g <$> l)).
Proof.
  induction l as [|x l IH]; intros H; [done|].
  cbn [fmap list_fmap run_all]. rewrite (bind_ok _ _ _ _ _ (H x (list_elem_of_here _ _))).
  rewrite (bind_ok _ _ _ _ _ (IH (fun y Hy => H y (list_elem_of_further _ _ _ Hy)))).
  reflexivity.
Qed.

Lemma to_rawkey_of_rawkey k : to_rawkey (of_rawkey k) = Ok k.
Proof. by destruct k. Qed.

Global Instance of_rawkey_inj : Inj (=) (=) of_rawkey.
Proof. intros [] [] H; by inversion H. Qed.

Section CacheIteration.

Context {B : Type} `{!StorageBackend B} `{!TableIteration B} `{!BackendContract B}
  `{!IterationContract B}.
Variable transformers : TransformerStack.

Lemma stored_key_of_rawkey (c : @BlobCache B) k :
  keyType c <> TAny -> stored_key transformers (keyType c) (of_rawkey k) = Ok k.
Proof.
  intros H. unfold stored_key. destruct (keyType c); try done; apply to_rawkey_of_rawkey.
Qed.

(** X20: on an entered cache whose key type is not [typing.Any], reading
    [keys()] to the end leaves the cache as it was and yields every stored
    key exactly once and nothing else, and [len(cache)] is the number of
    keys yielded. *)
Theorem len_counts_the_keys_that_iteration_yields :
  forall (c : @BlobCache B) m kt d,
    live (backend c) m kt d -> keyType c <> TAny ->
    exists ks,
      drain (keys transformers) c = (c, Ok ks) /\
      len_ c = (c, Ok (Z.of_nat (length ks))) /\
      NoDup ks /\
      (forall k, of_rawkey k ∈ ks <-> is_Some (d !! k)).
Proof.
  intros c m kt d L Hk.
  destruct (contract_iteration _ _ _ _ L) as (rs & Ei & Ek & Ev & El & Hnd & Hin).
  exists (of_rawkey <$> rs.*1). split_and!.
  - unfold drain, keys, iter_, for_in, iterate.
    rewrite !bind_assoc. rewrite (bind_ok _ _ _ _ _ (on_backend_same _ c _ Ek)).
    unfold ret at 1. unfold bind at 1. unfold ret at 1. unfold bind at 1.
    rewrite <- !list_fmap_compose. apply run_all_pure. intros kv _.
    cbv [compose bind ret get_state]. by destruct (keyType c).
  - unfold len_. rewrite (on_backend_same _ c _ El). by rewrite !length_fmap.
  - apply (NoDup_fmap_2 _). exact Hnd.
  - intros k. rewrite (list_elem_of_fmap_inj of_rawkey). rewrite list_elem_of_fmap. split.
    + intros ([k' v] & -> & Hkv). apply Hin in Hkv. by eexists.
    + intros [v Hv]. exists (k, v). split; [done|]. by apply Hin.
Qed.

(** X21: a key whose stored bytes are empty is yielded by [keys()] and counted
    by [len(cache)], although [key in cache] is false and the lookup
    returns [None]. *)
Theorem keys_yields_a_key_that_contains_denies :
  forall (c : @BlobCache B) m kt d k,
    live (backend c) m kt d -> keyType c <> TAny ->
    d !! k = Some [] ->
    exists ks n,
      drain (keys transformers) c = (c, Ok ks) /\ of_rawkey k ∈ ks /\
      len_ c = (c, Ok n) /\ 1 <= n /\
      contains transformers (of_rawkey k) c = (c, Ok false) /\
      getitem transformers (of_rawkey k) c = (c, Ok PyNone).
Proof.
  intros c m kt d k L Hk Hd.
  destruct (contract_iteration _ _ _ _ L) as (rs & Ei & Ek & Ev & El & Hnd & Hin).
  assert ((k, []) ∈ rs) as Hkin by by apply Hin.
  assert (getitem transformers (of_rawkey k) c = (c, Ok PyNone)) as Hg.
  { rewrite (getitem_live transformers c m kt d _ k L) by by apply stored_key_of_rawkey.
    by rewrite Hd. }
  exists (of_rawkey <$> rs.*1), (Z.of_nat (length rs)). split_and!.
  - unfold drain, keys, iter_, for_in, iterate.
    rewrite !bind_assoc. rewrite (bind_ok _ _ _ _ _ (on_backend_same _ c _ Ek)).
    unfold ret at 1. unfold bind at 1. unfold ret at 1. unfold bind at 1.
    rewrite <- !list_fmap_compose. apply run_all_pure. intros kv _.
    cbv [compose bind ret get_state]. by destruct (keyType c).
  - apply list_elem_of_fmap_2. apply list_elem_of_fmap. by exists (k, []).
  - unfold len_. by rewrite (on_backend_same _ c _ El).
  - destruct rs; [by apply elem_of_nil in Hkin | cbn; lia].
  - rewrite contains_run, Hg. reflexivity.
  - exact Hg.
Qed.

(** X22: on an entered cache whose key type is not [typing.Any] and whose rows
    all decode, [items()] yields exactly the pairs of a stored key and the
    decoded value of its row, [values()] yields the second components of
    these pairs, and the lookup of a yielded key returns the value yielded
    with it, except for a row of empty bytes, where the lookup returns
    [None]. *)
Theorem items_yield_what_lookups_return :
  forall (c : @BlobCache B) m kt d,
    live (backend c) m kt d -> keyType c <> TAny ->
    (forall k b, d !! k = Some b -> is_ok (read_form transformers (compressor c) b) = true) ->
    exists kvs vs,
      drain (items transformers) c = (c, Ok kvs) /\
      drain (values transformers) c = (c, Ok vs) /\
      vs ≡ₚ kvs.*2 /\
      (forall key val,
         (key, val) ∈ kvs <->
         exists k b, key = of_rawkey k /\ d !! k = Some b /\
                     read_form transformers (compressor c) b = Ok val) /\
      (forall k b val,
         d !! k = Some b -> read_form transformers (compressor c) b = Ok val ->
         getitem transformers (of_rawkey k) c = (c, Ok (if b is [] then PyNone else val))).
Proof.
  intros c m kt d L Hk Hread.
  destruct (contract_iteration _ _ _ _ L) as (rs & Ei & Ek & Ev & El & Hnd & Hin).
  pose (item_of := fun (c : @BlobCache B) (kv : rawkey * bytes) =>
                     (of_rawkey kv.1,
                      match read_form transformers (compressor c) kv.2 with
                      | Ok val => val
                      | Raise _ => PyNone
                      end)).
  assert (forall kv, kv ∈ rs ->
            exists val, read_form transformers (compressor c) kv.2 = Ok val /\
                        item_of c kv = (of_rawkey kv.1, val)) as Hitem.
  { intros [k b] Hkv. apply Hin in Hkv. specialize (Hread k b Hkv). subst item_of. cbn.
    destruct (read_form transformers (compressor c) b) as [val|e]; [by exists val | discriminate]. }
  exists (item_of c <$> rs), (item_of c <$> rs).*2. split_and!.
  - unfold drain, items, decompressedItemsBytes, for_in, iterate.
    rewrite !bind_assoc. rewrite (bind_ok _ _ _ _ _ (on_backend_same _ c _ Ei)).
    unfold ret at 1. unfold bind at 1. unfold ret at 1. unfold bind at 1.
    unfold ret at 1. unfold bind at 1.
    rewrite <- !list_fmap_compose. apply run_all_pure. intros kv Hkv.
    destruct (Hitem kv Hkv) as (val & Hr & ->). unfold read_form in Hr.
    cbv [compose bind ret get_state lift_outcome].
    destruct (compressor c) as [z|].
    + destruct (process (codec z) (PyBytes kv.2)) as [x|e]; [|discriminate].
      cbn [fst snd]. rewrite Hr. by destruct (keyType c).
    + cbn [fst snd]. rewrite Hr. by destruct (keyType c).
  - unfold drain, values, decompressedValuesBytes, for_in, iterate.
    rewrite !bind_assoc. rewrite (bind_ok _ _ _ _ _ (on_backend_same _ c _ Ev)).
    unfold ret at 1. unfold bind at 1. unfold ret at 1. unfold bind at 1.
    unfold ret at 1. unfold bind at 1.
    rewrite <- !list_fmap_compose. apply run_all_pure. intros kv Hkv.
    destruct (Hitem kv Hkv) as (val & Hr & E).
    unfold read_form in Hr.
    cbv [compose bind ret get_state lift_outcome].
    destruct (compressor c) as [z|].
    + destruct (process (codec z) (PyBytes kv.2)) as [x|e]; [|discriminate].
      by rewrite E, Hr.
    + by rewrite E, Hr.
  - reflexivity.
  - intros key val. rewrite list_elem_of_fmap. split.
    + intros ([k b] & E & Hkv). destruct (Hitem _ Hkv) as (val' & Hr & E').
      rewrite E' in E. injection E as -> ->. cbn in Hr. apply Hin in Hkv. by exists k, b.
    + intros (k & b & -> & Hd & Hr). exists (k, b). split; [|by apply Hin].
      subst item_of. cbn. by rewrite Hr.
  - intros k b val Hd Hr.
    rewrite (getitem_live transformers c m kt d _ k L) by by apply stored_key_of_rawkey.
    rewrite Hd. destruct b as [|x b]; [done|]. by rewrite Hr.
Qed.

End CacheIteration.

(** ** The first scope of a cache on a new file *)

Section Initialization.

Variable transformers : TransformerStack.
Variable _COMPRESSORS_DICT : string -> option CompressorFactory.
Variable json_dumps : list string -> string.
Variable json_loads : string -> outcome (list string).

Local Abbreviation enter_ := (enter transformers _COMPRESSORS_DICT json_dumps json_loads).

(** X23: [__enter__] on a new SQLite file. With a key type among [int],
    [str], [bytes] and [typing.Any] it returns: the records [compression]
    and [serializers] are committed, no dictionary is stored, the data table
    exists, is empty and has the key type (or [bytes] for [typing.Any]), no
    transaction is open, [recompress] is registered and the compressor is
    built without a dictionary. With any other key type it raises
    [KeyError] after the metadata table was created: the file then holds
    the metadata and no data table once the connection is closed. *)
Theorem enter_initializes_an_empty_SQLite_file
    (p : string) (g : option CompressorFactory) (N : Z) (kt : PyType) :
  let c := {| backend := SQLite.of_path p ∅; compressorFactory := g; compressor := None;
              newCompressor := None; commitOnNOps := N; opsPending := 0; keyType := kt |} in
  let r := enter_ c in
  let b' := backend (state_of r) in
  match kt with
  | Tint | Tstr | Tbytes | TAny =>
      result_of r = Ok tt /\
      sqlite_committed b' "metadata" (KStr "compression")
      = Some (encode_utf8 (match g with Some g0 => factory_id g0 | None => "none" end)) /\
      sqlite_committed b' "metadata" (KStr "serializers")
      = Some (encode_utf8 (json_dumps (stack_id transformers))) /\
      sqlite_committed b' "metadata" (KStr "dict") = None /\
      sqlite_has_table b' "cache" = true /\
      size (SQLite.rows (sqlite_table b' "cache")) = 0%nat /\
      SQLite.key_column_type (SQLite.columns (sqlite_table b' "cache"))
      = Ok (Some (match kt with TAny => Tbytes | t => t end)) /\
      option_map SQLite.in_tx (SQLite.db b') = Some false /\
      option_map SQLite.funcs (SQLite.db b') = Some ["recompress"] /\
      compressor (state_of r) = option_map (fun g0 => build g0 None) g /\
      opsPending (state_of r) = 0
  | _ =>
      result_of r = Raise (KeyError "pythonTypeToSQLiteType") /\
      sqlite_has_table b' "metadata" = true /\
      sqlite_has_table b' "cache" = false /\
      sqlite_committed b' "metadata" (KStr "compression") = None /\
      sqlite_visible b' "metadata" (KStr "compression")
      = Some (encode_utf8 (match g with Some g0 => factory_id g0 | None => "none" end)) /\
      sqlite_committed (Sample.closed (state_of r)) "metadata" (KStr "compression")
      = Some (encode_utf8 (match g with Some g0 => factory_id g0 | None => "none" end)) /\
      sqlite_has_table (Sample.closed (state_of r)) "cache" = false
  end.
Proof.
  intros c r b'.
  destruct kt, g; cbv beta iota; split_and!; subst b' r c; vm_compute; reflexivity.
Qed.

(** X24: [__enter__] on a new LMDB environment. With a key type among [int],
    [str], [uint64], [bytes] and [typing.Any] it returns: the records
    [compression] and [serializers] are stored, no dictionary is stored, the
    data table is empty and its key codec is recorded, no transaction is
    open, [recompress] is registered and the compressor is built without a
    dictionary. With any other key type it raises [KeyError] after the
    metadata was written, and no key codec is recorded for the data
    table. *)
Theorem enter_initializes_an_empty_LMDB_file
    (p : string) (g : option CompressorFactory) (N : Z) (kt : PyType) :
  let c := {| backend := LMDB.of_path p {| LMDB.subdbs := ∅; LMDB.keyTypes := ∅ |};
              compressorFactory := g; compressor := None;
              newCompressor := None; commitOnNOps := N; opsPending := 0; keyType := kt |} in
  let r := enter_ c in
  let b' := backend (state_of r) in
  match kt with
  | Tint | Tstr | Tuint64 | Tbytes | TAny =>
      result_of r = Ok tt /\
      lmdb_committed b' "metadata" (KStr "compression")
      = Some (encode_utf8 (match g with Some g0 => factory_id g0 | None => "none" end)) /\
      lmdb_committed b' "metadata" (KStr "serializers")
      = Some (encode_utf8 (json_dumps (stack_id transformers))) /\
      lmdb_committed b' "metadata" (KStr "dict") = None /\
      size (LMDB.sub (LMDB.disk b') "cache") = 0%nat /\
      option_map LMDB.tgtType (LMDB.keyTypes (LMDB.disk b') !! "key-cache")
      = Some (match kt with TAny => Tbytes | t => t end) /\
      LMDB.keyTypes (LMDB.disk b') !! "key-metadata" = Some LMDB.utf8Transformer /\
      LMDB.currentWriteTx b' = Some {| LMDB.tx := None; LMDB.refCount := 0 |} /\
      LMDB.functions b' = ["recompress"] /\
      compressor (state_of r) = option_map (fun g0 => build g0 None) g /\
      opsPending (state_of r) = 0
  | _ =>
      result_of r = Raise (KeyError "mappersTypes") /\
      lmdb_committed b' "metadata" (KStr "compression")
      = Some (encode_utf8 (match g with Some g0 => factory_id g0 | None => "none" end)) /\
      LMDB.keyTypes (LMDB.disk b') !! "key-metadata" = Some LMDB.utf8Transformer /\
      LMDB.keyTypes (LMDB.disk b') !! "key-cache" = None
  end.
Proof.
  intros c r b'.
  destruct kt, g; cbv beta iota; split_and!; subst b' r c; vm_compute; reflexivity.
Qed.

(** X25: [__enter__] on a SQLite file that holds the metadata of the class
    but no data table raises the [ValueError] of incompatible key types,
    whatever key type was declared, and leaves the file as it was; it does
    not create the data table. *)
Theorem enter_raises_without_the_data_table_on_SQLite
    (c : @BlobCache SQLite.SQLiteBackend) p dk colsm m compressionId :
  backend c = SQLite.of_path p dk ->
  dk !! "metadata" = Some {| SQLite.columns := colsm; SQLite.rows := m |} ->
  dk !! "cache" = None ->
  well_formed_metadata json_loads m compressionId (stack_id transformers) ->
  exists c', enter_ c = (c', Raise (ValueError (IncompatibleKeyType None (keyType c)))) /\
             SQLite.disk (backend c') = dk.
Proof.
  intros Hb Hmeta Hdata (Hc & raw & Hs & Hj).
  set (conn := {| SQLite.work := dk; SQLite.in_tx := false; SQLite.funcs := [] |}).
  set (b3 := {| SQLite.path := Some p; SQLite.db := Some conn; SQLite.disk := dk;
                SQLite.tables := <["metadata" := "metadata"]> (<["data" := "cache"]> ∅) |}).
  assert (SQLite.tables b3 !! "metadata" = Some "metadata") as Tm by apply lookup_insert_eq.
  assert (SQLite.tables b3 !! "data" = Some "cache") as Td.
  { subst b3. cbn. by rewrite lookup_insert_ne, lookup_insert_eq. }
  assert ((be_enter ;;; be_map "cache" "data" ;;; be_map "metadata" "metadata") (backend c)
          = (b3, Ok tt)) as E0.
  { rewrite Hb. reflexivity. }
  apply bind_ok_inv in E0 as (ba & [] & Ea & E0).
  apply bind_ok_inv in E0 as (bb & [] & Eb & E0).
  assert (read_metadata json_loads c
          = (set_backend b3 c, Ok (Some (compressionId, stack_id transformers)))) as E1.
  { unfold read_metadata, TABLE_NAME, META_TABLE_NAME.
    rewrite (bind_ok _ _ _ _ _ (on_backend_run _ c _ _ Ea)).
    rewrite (bind_ok _ _ _ _ _ (on_backend_run _ (set_backend ba c) _ _ Eb)).
    rewrite (bind_ok _ _ _ _ _ (on_backend_run _ (set_backend bb c) _ _ E0)).
    unfold isInitialized.
    assert (tbl_exists "metadata" b3 = (b3, Ok true)) as E2.
    { cbn [tbl_exists SQLite_backend]. rewrite (SQLite_exists_run b3 "metadata" "metadata" conn)
        by done.
      cbn [SQLite.work conn]. by rewrite Hmeta, bool_decide_eq_true_2. }
    rewrite (bind_ok _ _ _ _ _ (on_backend_same _ (set_backend b3 c) _ E2)). cbn [negb].
    assert (forall k, on_backend (tbl_getitem "metadata" k) (set_backend b3 c)
                      = (set_backend b3 c, Ok (m !! k))) as G.
    { intros k. apply on_backend_same. cbn [tbl_getitem SQLite_backend backend set_backend].
      rewrite (SQLite_getitem_run b3 "metadata" "metadata" conn) by done.
      cbn [SQLite.work conn]. by rewrite Hmeta. }
    rewrite (bind_ok _ _ _ _ _ (G _)), Hc. unfold py_str, lift_outcome at 1. rewrite bind_run.
    rewrite (bind_ok _ _ _ _ _ (G _)), Hs. unfold lift_outcome at 1. rewrite bind_run.
    unfold lift_outcome at 1. rewrite bind_run, Hj, decode_encode_utf8. reflexivity. }
  exists (set_backend b3 c). split; [|done].
  rewrite (enter_attach _ _ _ _ _ _ _ _ E1). rewrite bind_run.
  unfold attach_path. rewrite bool_decide_eq_false_2 by (intros H; by apply H).
  unfold getCacheTableKeyType.
  assert (tbl_getKeyType "data" b3 = (b3, Ok None)) as E3.
  { cbn [tbl_getKeyType SQLite_backend]. rewrite (SQLite_getKeyType_run b3 "data" "cache" conn)
      by done.
    cbn [SQLite.work conn]. by rewrite Hdata. }
  rewrite (bind_ok _ _ _ _ _ (on_backend_same _ (set_backend b3 c) _ E3)).
  unfold get_state at 1. unfold bind at 1. cbn [keyType set_backend].
  unfold check_key_type. rewrite bool_decide_eq_true_2 by done.
  by destruct (keyType c).
Qed.

End Initialization.

(** ** Concrete runs *)

Lemma Fixture_plain_sqlite_live :
  SQLite_live Fixture.plain_sqlite_backend (Fixture.sqlite_metadata Fixture.plain_sqlite_backend)
    Tstr (Fixture.sqlite_data Fixture.plain_sqlite_backend).
Proof. apply SQLite_live_entered; vm_compute; reflexivity. Qed.

Lemma Fixture_framed_sqlite_live :
  SQLite_live Fixture.framed_sqlite_backend (Fixture.sqlite_metadata Fixture.framed_sqlite_backend)
    Tstr (Fixture.sqlite_data Fixture.framed_sqlite_backend).
Proof. apply SQLite_live_entered; vm_compute; reflexivity. Qed.

Lemma Fixture_plain_lmdb_live :
  LMDB_live Fixture.plain_lmdb_backend (Fixture.lmdb_metadata Fixture.plain_lmdb_backend)
    Tstr (Fixture.lmdb_data Fixture.plain_lmdb_backend).
Proof.
  unfold LMDB_live, LMDB_has_tables. split_and!.
  - by eexists.
  - reflexivity.
  - reflexivity.
  - by eexists.
  - exists LMDB.utf8Transformer. split; vm_compute; reflexivity.
  - exists LMDB.utf8Transformer. split; vm_compute; reflexivity.
  - vm_compute; reflexivity.
  - exists LMDB.utf8Transformer. vm_compute; reflexivity.
  - exists LMDB.utf8Transformer. split; vm_compute; reflexivity.
  - reflexivity.
  - reflexivity.
Qed.

Lemma SQLite_live_data_open b m kt d :
  SQLite_live b m kt d -> SQLite_table_open b "data" d.
Proof.
  intros (conn & Hdb & Hd & Hm & _ & (cols & Hdata & _)). by exists conn, "cache", cols.
Qed.

Lemma LMDB_live_data_open b m kt d :
  LMDB_live b m kt d -> LMDB_table_open b "data" "cache".
Proof.
  intros (_ & He & Htx & _ & _ & (km & Ht & _) & _). split; [done|]. by exists km.
Qed.

(** *** The tables of the SQLite backend *)


Lemma SQLite_create_then_getKeyType_witness :
  let b := Fixture.sqlite_backend_with_a_new_variable in
  let conn := Fixture.sqlite_connection b in
  (SQLite.db b = Some conn /\ SQLite.tables b !! "extra" = Some "more" /\
   SQLite.work conn !! "more" = None) /\
  (Tint ∈ SQLite.NATIVE_VALUE_TYPES ->
   exists b',
     SQLite.create "extra" Tint Tbytes b = (b', Ok tt) /\
     SQLite_table_open b' "extra" ∅ /\
     SQLite.getKeyType "extra" b' = (b', Ok (Some Tint)) /\
     SQLite.exists_ "extra" b' = (b', Ok true) /\
     option_map SQLite.work (SQLite.db b') = Some (SQLite.disk b') /\
     option_map SQLite.in_tx (SQLite.db b') = Some false) /\
  (Tint ∉ SQLite.NATIVE_VALUE_TYPES ->
   SQLite.create "extra" Tint Tbytes b = (b, Raise (KeyError "pythonTypeToSQLiteType"))).
Proof.
  intros b conn.
  assert (SQLite.db b = Some conn) as H1 by (vm_compute; reflexivity).
  assert (SQLite.tables b !! "extra" = Some "more") as H2 by (vm_compute; reflexivity).
  assert (SQLite.work conn !! "more" = None) as H3 by (vm_compute; reflexivity).
  exact (conj (conj H1 (conj H2 H3))
           (SQLite_create_then_getKeyType b "extra" "more" conn Tint Tbytes H1 H2 H3)).
Defined.


Lemma SQLite_exit_closes_the_connection_witness :
  let b := Fixture.plain_sqlite_backend in
  (SQLite_table_open b "data" (Fixture.sqlite_data b) /\ SQLite.path b = Some "cache.sqlite") /\
  exists b',
    SQLite.exit b = (b', Ok tt) /\
    option_map SQLite.work (SQLite.db b) = Some (SQLite.disk b') /\
    SQLite.db b' = None /\
    (forall k, SQLite.getitem "data" k b' = (b', Raise (UnboundLocalError "cur"))) /\
    (forall k v, SQLite.setitem "data" k v b'
                 = (b', Raise (AttributeError "'NoneType' object has no attribute"))).
Proof.
  intros b.
  pose proof (SQLite_live_data_open _ _ _ _ Fixture_plain_sqlite_live) as H.
  assert (SQLite.path b = Some "cache.sqlite") as Hp by reflexivity.
  exact (conj (conj H Hp) (SQLite_exit_closes_the_connection b "data" _ "cache.sqlite" H Hp)).
Defined.


(** *** The tables of the LMDB backend *)


Lemma Fixture_plain_lmdb_idle : LMDB_idle Fixture.plain_lmdb_backend.
Proof. by split. Qed.

Lemma LMDB_create_then_getKeyType_witness :
  let b := Fixture.lmdb_backend_with_a_new_variable in
  let t := {| LMDB.name := "more"; LMDB.keyMapper := None |} in
  (LMDB_idle b /\ is_Some (LMDB.tables b !! "typesMeta") /\ LMDB.tables b !! "extra" = Some t) /\
  (Tuint64 ∈ [Tint; Tstr; Tuint64; Tbytes] ->
   exists b',
     LMDB.create "extra" Tuint64 Tbytes b = (b', Ok tt) /\
     LMDB_table_open b' "extra" "more" /\
     LMDB.getKeyType "extra" b' = (b', Ok (Some Tuint64)) /\
     result_of (LMDB.exists_ "extra" b') = Ok true /\
     (forall n', LMDB.sub (LMDB.disk b') n' = LMDB.sub (LMDB.disk b) n')) /\
  (Tuint64 ∉ [Tint; Tstr; Tuint64; Tbytes] ->
   LMDB.create "extra" Tuint64 Tbytes b = (b, Raise (KeyError "mappersTypes"))).
Proof.
  intros b t.
  assert (LMDB_idle b) as H1 by (by split).
  assert (is_Some (LMDB.tables b !! "typesMeta")) as H2 by (by eexists).
  assert (LMDB.tables b !! "extra" = Some t) as H3 by (vm_compute; reflexivity).
  exact (conj (conj H1 (conj H2 H3))
           (LMDB_create_then_getKeyType b "extra" t Tuint64 Tbytes H1 H2 H3)).
Defined.

Lemma LMDB_nested_scopes_share_one_transaction_witness :
  let b := Fixture.plain_lmdb_backend in
  let f := LMDB.set_sub "cache" ∅ in
  let g := LMDB.set_sub "cache" {[ KStr "k" := [x01] ]} in
  LMDB_idle b /\
  LMDB.with_currentWriteTx (LMDB.tx_modify f ;;; LMDB.with_currentWriteTx (LMDB.tx_modify g)) b
  = (LMDB.set_disk (g (f (LMDB.disk b))) b, Ok tt) /\
  forall w n, 0 < n ->
    LMDB.with_currentWriteTx (LMDB.tx_modify g)
      (LMDB.set_currentWriteTx (Some {| LMDB.tx := Some w; LMDB.refCount := n |}) b)
    = (LMDB.set_currentWriteTx (Some {| LMDB.tx := Some (g w); LMDB.refCount := n |}) b, Ok tt).
Proof.
  intros b f g.
  exact (conj Fixture_plain_lmdb_idle
           (LMDB_nested_scopes_share_one_transaction b f g Fixture_plain_lmdb_idle)).
Defined.

Lemma LMDB_abort_discards_the_writes_since_the_last_commit_witness :
  let b := Fixture.plain_lmdb_backend in
  let f := LMDB.set_sub "cache" ∅ in
  let g := LMDB.set_sub "cache" {[ KStr "k" := [x01] ]} in
  LMDB_idle b /\
  LMDB.with_currentWriteTx (LMDB.tx_modify f ;;; LMDB.swt_abort) b = (b, Ok tt) /\
  LMDB.with_currentWriteTx
    (LMDB.tx_modify f ;;; LMDB.swt_commit ;;; LMDB.tx_modify g ;;; LMDB.swt_abort) b
  = (LMDB.set_disk (f (LMDB.disk b)) b, Ok tt) /\
  LMDB.with_currentWriteTx (LMDB.tx_modify f ;;; LMDB.swt_commit ;;; LMDB.tx_modify g) b
  = (LMDB.set_disk (g (f (LMDB.disk b))) b, Ok tt).
Proof.
  intros b f g.
  exact (conj Fixture_plain_lmdb_idle
           (LMDB_abort_discards_the_writes_since_the_last_commit b f g Fixture_plain_lmdb_idle)).
Defined.


Lemma LMDB_exit_forgets_the_tables_witness :
  let b := Fixture.plain_lmdb_backend in
  LMDB_table_open b "data" "cache" /\
  exists b',
    LMDB.exit b = (b', Ok tt) /\
    LMDB.disk b' = LMDB.disk b /\
    (forall k, LMDB.getitem "data" k b' = (b', Raise (KeyError "data"))) /\
    (forall k v, LMDB.setitem "data" k v b' = (b', Raise (KeyError "data"))).
Proof.
  intros b.
  pose proof (LMDB_live_data_open _ _ _ _ Fixture_plain_lmdb_live) as H.
  exact (conj H (LMDB_exit_forgets_the_tables b "data" "cache" H)).
Defined.

(** *** The operations of a cache *)

Lemma Fixture_plain_sqlite_opened N :
  opened Fixture.ts Sample._COMPRESSORS_DICT Sample.json_loads (Fixture.plain_sqlite_cache N)
    (Fixture.sqlite_metadata Fixture.plain_sqlite_backend) Tstr
    (Fixture.sqlite_data Fixture.plain_sqlite_backend) "none" Sample.none_factory.
Proof.
  split_and!.
  - exact Fixture_plain_sqlite_live.
  - split; [vm_compute; reflexivity|].
    exists (encode_utf8 "utf8;"). split; vm_compute; reflexivity.
  - vm_compute; reflexivity.
  - reflexivity.
  - reflexivity.
  - right. by split.
Qed.




(** *** A cache on the SQLite backend *)


Lemma Fixture_framed_sqlite_data :
  Fixture.sqlite_data Fixture.framed_sqlite_backend = {[ KStr "a" := [x00; x78] ]}.
Proof. vm_compute; reflexivity. Qed.

Lemma Fixture_framed_sqlite_no_dictionary newDict :
  Fixture.sqlite_metadata Fixture.framed_sqlite_backend !! KStr "dict" <> Some newDict.
Proof.
  assert (Fixture.sqlite_metadata Fixture.framed_sqlite_backend !! KStr "dict" = None) as ->
    by (vm_compute; reflexivity).
  done.
Qed.

Lemma applyCompressionDictionary_keeps_the_values_on_SQLite_witness :
  let c := Fixture.framed_sqlite_cache in
  let m := Fixture.sqlite_metadata Fixture.framed_sqlite_backend in
  let d := Fixture.sqlite_data Fixture.framed_sqlite_backend in
  let f := Sample.frame_factory in
  let old := Sample.frame None in
  let newDict := [x07] in
  let g := fun v : bytes => match v with _ :: b => x07 :: b | [] => [] end in
  (SQLite_live (backend c) m Tstr d /\
   SQLite_ready_to_recompress (backend c) /\
   compressorFactory c = Some f /\ compressor c = Some old /\
   m !! KStr "dict" <> Some newDict /\
   (forall k v, d !! k = Some v ->
      exists plain, process (codec old) (PyBytes v) = Ok plain /\
                    unprocess (codec (build f (Some newDict))) plain = Ok (PyBytes (g v)))) /\
  exists c',
    applyCompressionDictionary newDict c = (c', Ok tt) /\
    SQLite_live (backend c') (<[KStr "dict" := newDict]> m) Tstr (g <$> d) /\
    SQLite_durable (backend c') (<[KStr "dict" := newDict]> m) Tstr (g <$> d) /\
    compressor c' = Some (build f (Some newDict)) /\
    newCompressor c' = None /\ opsPending c' = 0 /\
    (lossless (codec (build f (Some newDict))) ->
     forall key k v,
       stored_key Fixture.ts (keyType c) key = Ok k ->
       d !! k = Some v -> v <> [] -> g v <> [] ->
       result_of (getitem Fixture.ts key c') = result_of (getitem Fixture.ts key c)).
Proof.
  intros c m d f old newDict g.
  assert (SQLite_live (backend c) m Tstr d) as H1 by exact Fixture_framed_sqlite_live.
  assert (SQLite_ready_to_recompress (backend c)) as H2.
  { exists (Fixture.sqlite_connection Fixture.framed_sqlite_backend).
    split; [vm_compute; reflexivity|]. split; [reflexivity|]. apply list_elem_of_here. }
  assert (compressorFactory c = Some f) as H3 by reflexivity.
  assert (compressor c = Some old) as H4 by reflexivity.
  assert (m !! KStr "dict" <> Some newDict) as H5 by apply Fixture_framed_sqlite_no_dictionary.
  assert (forall k v, d !! k = Some v ->
            exists plain, process (codec old) (PyBytes v) = Ok plain /\
                          unprocess (codec (build f (Some newDict))) plain = Ok (PyBytes (g v)))
    as H6.
  { intros k v Hkv. subst d. rewrite Fixture_framed_sqlite_data in Hkv.
    apply lookup_singleton_Some in Hkv as [_ <-]. by exists (PyBytes [x78]). }
  exact (conj (conj H1 (conj H2 (conj H3 (conj H4 (conj H5 H6)))))
           (applyCompressionDictionary_keeps_the_values_on_SQLite Fixture.ts
              c m Tstr d f old newDict g H1 H2 H3 H4 H5 H6)).
Defined.



(** *** A cache on the LMDB backend *)


(** *** Iteration *)

Lemma len_counts_the_keys_that_iteration_yields_witness :
  let c := Fixture.plain_lmdb_cache in
  let m := Fixture.lmdb_metadata Fixture.plain_lmdb_backend in
  let d := Fixture.lmdb_data Fixture.plain_lmdb_backend in
  (live (backend c) m Tstr d /\ keyType c <> TAny) /\
  exists ks,
    drain (keys Fixture.ts) c = (c, Ok ks) /\
    len_ c = (c, Ok (Z.of_nat (length ks))) /\
    NoDup ks /\
    (forall k, of_rawkey k ∈ ks <-> is_Some (d !! k)).
Proof.
  intros c m d.
  assert (live (backend c) m Tstr d) as H1 by exact Fixture_plain_lmdb_live.
  assert (keyType c <> TAny) as H2 by done.
  exact (conj (conj H1 H2) (len_counts_the_keys_that_iteration_yields Fixture.ts c m Tstr d H1 H2)).
Defined.

Lemma keys_yields_a_key_that_contains_denies_witness :
  let c := Fixture.plain_sqlite_cache 1 in
  let m := Fixture.sqlite_metadata Fixture.plain_sqlite_backend in
  let d := Fixture.sqlite_data Fixture.plain_sqlite_backend in
  let k := KStr "e" in
  (live (backend c) m Tstr d /\ keyType c <> TAny /\ d !! k = Some []) /\
  exists ks n,
    drain (keys Fixture.ts) c = (c, Ok ks) /\ of_rawkey k ∈ ks /\
    len_ c = (c, Ok n) /\ 1 <= n /\
    contains Fixture.ts (of_rawkey k) c = (c, Ok false) /\
    getitem Fixture.ts (of_rawkey k) c = (c, Ok PyNone).
Proof.
  intros c m d k.
  assert (live (backend c) m Tstr d) as H1 by exact Fixture_plain_sqlite_live.
  assert (keyType c <> TAny) as H2 by done.
  assert (d !! k = Some []) as H3 by (vm_compute; reflexivity).
  exact (conj (conj H1 (conj H2 H3))
           (keys_yields_a_key_that_contains_denies Fixture.ts c m Tstr d k H1 H2 H3)).
Defined.

Lemma items_yield_what_lookups_return_witness :
  let c := Fixture.plain_sqlite_cache 1 in
  let m := Fixture.sqlite_metadata Fixture.plain_sqlite_backend in
  let d := Fixture.sqlite_data Fixture.plain_sqlite_backend in
  (live (backend c) m Tstr d /\ keyType c <> TAny /\
   (forall k b, d !! k = Some b -> is_ok (read_form Fixture.ts (compressor c) b) = true)) /\
  exists kvs vs,
    drain (items Fixture.ts) c = (c, Ok kvs) /\
    drain (values Fixture.ts) c = (c, Ok vs) /\
    vs ≡ₚ kvs.*2 /\
    (forall key val,
       (key, val) ∈ kvs <->
       exists k b, key = of_rawkey k /\ d !! k = Some b /\
                   read_form Fixture.ts (compressor c) b = Ok val) /\
    (forall k b val,
       d !! k = Some b -> read_form Fixture.ts (compressor c) b = Ok val ->
       getitem Fixture.ts (of_rawkey k) c = (c, Ok (if b is [] then PyNone else val))).
Proof.
  intros c m d.
  assert (live (backend c) m Tstr d) as H1 by exact Fixture_plain_sqlite_live.
  assert (keyType c <> TAny) as H2 by done.
  assert (forall k b, d !! k = Some b -> is_ok (read_form Fixture.ts (compressor c) b) = true)
    as H3 by reflexivity.
  exact (conj (conj H1 (conj H2 H3)) (items_yield_what_lookups_return Fixture.ts c m Tstr d H1 H2 H3)).
Defined.

(** *** Initialization *)

Lemma enter_raises_without_the_data_table_on_SQLite_witness :
  let enter_ := enter Fixture.ts Sample._COMPRESSORS_DICT Sample.json_dumps Sample.json_loads in
  let p := "cache.sqlite"%string in
  let dk := Fixture.tables_without_the_data_table in
  let colsm := SQLite.columns Fixture.metadata_table in
  let m := SQLite.rows Fixture.metadata_table in
  let c := Sample.new_cache (SQLite.of_path p dk) arg_None 1 (Some Tint) in
  (backend c = SQLite.of_path p dk /\
   dk !! "metadata" = Some {| SQLite.columns := colsm; SQLite.rows := m |} /\
   dk !! "cache" = None /\
   well_formed_metadata Sample.json_loads m "none" (stack_id Fixture.ts)) /\
  exists c', enter_ c = (c', Raise (ValueError (IncompatibleKeyType None (keyType c)))) /\
             SQLite.disk (backend c') = dk.
Proof.
  intros enter_ p dk colsm m c.
  assert (backend c = SQLite.of_path p dk) as H1 by reflexivity.
  assert (dk !! "metadata" = Some {| SQLite.columns := colsm; SQLite.rows := m |}) as H2
    by (vm_compute; reflexivity).
  assert (dk !! "cache" = None) as H3 by (vm_compute; reflexivity).
  assert (well_formed_metadata Sample.json_loads m "none" (stack_id Fixture.ts)) as H4.
  { split; [vm_compute; reflexivity|].
    exists (encode_utf8 "utf8;"). split; vm_compute; reflexivity. }
  exact (conj (conj H1 (conj H2 (conj H3 H4)))
           (enter_raises_without_the_data_table_on_SQLite Fixture.ts Sample._COMPRESSORS_DICT
              Sample.json_dumps Sample.json_loads c p dk colsm m "none" H1 H2 H3 H4)).
Defined.
